(** * Study tracker: timers, progress and session store

    A shallow embedding of the parts of the study tracker that carry state
    and arithmetic:

    - [src/data_store.py]: the SQLite-backed [DataStore], with the parts
      of Python's [datetime] that its statistics are computed with;
    - [src/study_view.py]: [TimerEditDialog], [StopwatchWidget],
      [CountdownWidget], [CircularProgress] and the [StudyView] slots that
      connect them to the store.

    Python integers are [Z]; [//] and [%] are [Z.div] and [Z.modulo] (both
    round toward minus infinity for a positive divisor, as in Python).
    Python floats are IEEE 754 binary64 values, computed with the
    reference operations of [SpecFloat].  Text is [string], the bytes of
    its UTF-8 encoding, compared byte by byte.  SQLite integers are
    signed 64-bit: a Python int outside that range is refused when it is
    bound to a statement.  A method that mutates [self] is a function
    from the object to the new object, paired with the trace of the
    callbacks it invoked; a call that ends in an exception ends its trace
    with [Raise].  A function that returns a value or raises returns a
    sum [exn + A]. *)

From Stdlib Require Import ZArith List String Ascii Bool Lia.
From Stdlib Require Import SpecFloat.
From Stdlib Require Import Sorted Permutation.
Import ListNotations.
Local Open Scope string_scope.
Local Open Scope list_scope.
Local Open Scope Z_scope.

(* ================================================================== *)
(** * Part I: the model *)
(* ================================================================== *)

(** ** Python runtime *)

Inductive exn : Type :=
| AttributeError (attr : string)
| IntegrityError
| OperationalError
| OverflowError
| ValueError
| ZeroDivisionError.

(** What a widget method does to the outside world, in order. *)
Inductive event : Type :=
| OnFinish (secs : Z)                    (* StopwatchWidget.on_finish(secs) *)
| OnComplete (minutes : Z)               (* CountdownWidget.on_complete(total_minutes) *)
| PlayAlarm                              (* CountdownWidget._play_alarm() *)
| Notify (label : string) (minutes : Z)  (* notify_cb(label, total_minutes, stop_alarm) *)
| Raise (e : exn).                       (* the call ended by raising e *)

Definition is_on_complete (ev : event) : bool :=
  match ev with OnComplete _ => true | _ => false end.

(** A computation that returns a value or raises. *)
Definition bind {A B : Type} (x : exn + A) (f : A -> exn + B) : exn + B :=
  match x with
  | inl e => inl e
  | inr a => f a
  end.

Notation "'let*' x ':=' c 'in' k" := (bind c (fun x => k))
  (at level 10, x name, c at level 100, k at level 200).

(** Python's truthiness of [Optional[int]]: [None] and [0] are falsy. *)
Definition truthy (x : option Z) : bool :=
  match x with
  | None => false
  | Some v => negb (v =? 0)
  end.

(** ** binary64 floats *)

Module PyFloat.

Definition prec : Z := 53.
Definition emax : Z := 1024.

Definition float := spec_float.

(** [float(n)], rounded to nearest even. *)
Definition of_int (n : Z) : float := binary_normalize prec emax n 0 false.

(** The int [n] as it is, with as many bits as it takes. *)
Definition exact (n : Z) : float :=
  match n with
  | Z0 => S754_zero false
  | Zpos p => S754_finite false p 0
  | Zneg p => S754_finite true p 0
  end.

(** [a / b] on two ints: the exact quotient, rounded once, to nearest
    even; a quotient beyond the largest float raises [OverflowError]. *)
Definition truediv (a b : Z) : exn + float :=
  if b =? 0 then inl ZeroDivisionError
  else
    match SFdiv prec emax (exact a) (exact b) with
    | S754_infinity _ => inl OverflowError
    | q => inr q
    end.

Definition mul (x y : float) : float := SFmul prec emax x y.

(** The integer [m * 2^e] truncated toward zero, for [m > 0]. *)
Definition trunc_mag (m : positive) (e : Z) : Z :=
  match e with
  | Z0 => Zpos m
  | Zpos p => Zpos m * 2 ^ Zpos p
  | Zneg p => Zpos m / 2 ^ Zpos p
  end.

(** [int(x)]: truncation toward zero; infinities and NaN raise. *)
Definition to_int (x : float) : exn + Z :=
  match x with
  | S754_zero _ => inr 0
  | S754_finite s m e => inr (if s then - trunc_mag m e else trunc_mag m e)
  | S754_infinity _ => inl OverflowError
  | S754_nan => inl ValueError
  end.

(** [math.ceil(x)]: the least integer not below [x]. *)
Definition ceil (x : float) : exn + Z :=
  match x with
  | S754_zero _ => inr 0
  | S754_finite s m e =>
      let v := if s then Zneg m else Zpos m in
      inr (match e with
           | Z0 => v
           | Zpos p => v * 2 ^ Zpos p
           | Zneg p => - ((- v) / 2 ^ Zpos p)
           end)
  | S754_infinity _ => inl OverflowError
  | S754_nan => inl ValueError
  end.

End PyFloat.

(** Exact ceiling of [a / b] for [b > 0]. *)
Definition ceil_div (a b : Z) : Z := - ((- a) / b).

(** [max(lo, min(hi, v))]. *)
Definition clamp (lo hi v : Z) : Z := Z.max lo (Z.min hi v).

(** ** TimerEditDialog *)

Module TimerEditDialog.

Record t : Type := mk {
  pending_hours : Z;
  pending_minutes : Z;
  pending_seconds : Z
}.

(** The field names ["h"], ["m"] and ["s"]. *)
Inductive field : Type := FieldH | FieldM | FieldS.

(** [__init__(parent, hours, minutes, seconds)]. *)
Definition init (hours minutes seconds : Z) : t := mk hours minutes seconds.

(** Text is held as its UTF-8 encoding.  The ASCII characters that
    [str.isspace()] accepts: tab to carriage return, the four
    separators and the blank. *)
Definition is_space (c : ascii) : bool :=
  let n := nat_of_ascii c in
  ((9 <=? n) && (n <=? 13))%nat || ((28 <=? n) && (n <=? 32))%nat.

(** The other characters that [str.isspace()] accepts, by their
    encodings: two bytes for U+0085 and U+00A0; three bytes for U+1680,
    U+2000 to U+200A, U+2028, U+2029, U+202F, U+205F and U+3000. *)
Definition is_space2 (c d : ascii) : bool :=
  let c := nat_of_ascii c in
  let d := nat_of_ascii d in
  ((c =? 194) && ((d =? 133) || (d =? 160)))%nat.

Definition is_space3 (c d e : ascii) : bool :=
  let c := nat_of_ascii c in
  let d := nat_of_ascii d in
  let e := nat_of_ascii e in
  (((c =? 225) && (d =? 154) && (e =? 128))
   || ((c =? 226) && (d =? 128)
       && (((128 <=? e) && (e <=? 138)) || (e =? 168) || (e =? 169)
           || (e =? 175)))
   || ((c =? 226) && (d =? 129) && (e =? 159))
   || ((c =? 227) && (d =? 128) && (e =? 128)))%nat.

(** Drops the leading characters, of one, two or three bytes, that the
    three tests accept. *)
Fixpoint drop_spaces (p1 : ascii -> bool) (p2 : ascii -> ascii -> bool)
    (p3 : ascii -> ascii -> ascii -> bool) (s : string) : string :=
  match s with
  | EmptyString => EmptyString
  | String c rest =>
      if p1 c then drop_spaces p1 p2 p3 rest
      else
        match rest with
        | EmptyString => s
        | String d rest2 =>
            if p2 c d then drop_spaces p1 p2 p3 rest2
            else
              match rest2 with
              | EmptyString => s
              | String e rest3 =>
                  if p3 c d e then drop_spaces p1 p2 p3 rest3 else s
              end
        end
  end.

(** [str.lstrip()]. *)
Definition lstrip (s : string) : string :=
  drop_spaces is_space is_space2 is_space3 s.

(** [str.lstrip()] on a reversed text, in which every character has its
    bytes in reverse order. *)
Definition lstrip_reversed (s : string) : string :=
  drop_spaces is_space (fun c d => is_space2 d c)
              (fun c d e => is_space3 e d c) s.

Fixpoint rev_string (s acc : string) : string :=
  match s with
  | EmptyString => acc
  | String c rest => rev_string rest (String c acc)
  end.

(** [str.strip()]: white space is removed at the start, then at the
    end. *)
Definition strip (s : string) : string :=
  rev_string (lstrip_reversed (rev_string (lstrip s) EmptyString)) EmptyString.

Definition is_digit_char (c : ascii) : bool :=
  let n := nat_of_ascii c in ((48 <=? n) && (n <=? 57))%nat.

Fixpoint all_digits (s : string) : bool :=
  match s with
  | EmptyString => true
  | String c rest => is_digit_char c && all_digits rest
  end.

(** [str.isdigit()] on the text of a line edit restricted by
    [QIntValidator(0, 99)]: non-empty and decimal digits only. *)
Definition isdigit (s : string) : bool :=
  match s with
  | EmptyString => false
  | _ => all_digits s
  end.

Fixpoint int_digits (s : string) (acc : Z) : Z :=
  match s with
  | EmptyString => acc
  | String c rest =>
      int_digits rest (10 * acc + (Z.of_nat (nat_of_ascii c) - 48))
  end.

(** [int(text) if text.isdigit() else 0] after [strip]. *)
Definition field_value (text : string) : Z :=
  let text := strip text in
  if isdigit text then int_digits text 0 else 0.

Definition _commit_field (f : field) (text : string) (d : t) : t :=
  let val := field_value text in
  match f with
  | FieldH => mk (clamp 0 23 val) (pending_minutes d) (pending_seconds d)
  | FieldM => mk (pending_hours d) (clamp 0 59 val) (pending_seconds d)
  | FieldS => mk (pending_hours d) (pending_minutes d) (clamp 0 59 val)
  end.

Definition _nudge (f : field) (delta : Z) (d : t) : t :=
  match f with
  | FieldH =>
      mk (clamp 0 23 (pending_hours d + delta)) (pending_minutes d)
         (pending_seconds d)
  | FieldM =>
      mk (pending_hours d) (clamp 0 59 (pending_minutes d + delta))
         (pending_seconds d)
  | FieldS =>
      mk (pending_hours d) (pending_minutes d)
         (clamp 0 59 (pending_seconds d + delta))
  end.

Definition result_time (d : t) : Z * Z * Z :=
  (pending_hours d, pending_minutes d, pending_seconds d).

End TimerEditDialog.

(** The text on a pause button. *)
Inductive btn_text : Type := PauseGlyph | PlayGlyph.

(** ** StopwatchWidget *)

Module StopwatchWidget.

(** [timer] is the [QTimer]: only whether it is active matters. *)
Record t : Type := mk {
  elapsed_seconds : Z;
  timer : bool;
  pause_btn : btn_text
}.

Definition init : t := mk 0 false PauseGlyph.

Definition start (w : t) : t * list event :=
  if timer w then (w, [])
  else (mk (elapsed_seconds w) true (pause_btn w), []).

Definition toggle_pause (w : t) : t * list event :=
  if timer w then (mk (elapsed_seconds w) false PlayGlyph, [])
  else (mk (elapsed_seconds w) true PauseGlyph, []).

Definition reset (w : t) : t * list event :=
  (mk 0 false PauseGlyph, []).

Definition finish (w : t) : t * list event :=
  let secs := elapsed_seconds w in
  (mk 0 false PauseGlyph, if secs >? 0 then [OnFinish secs] else []).

Definition _tick (w : t) : t * list event :=
  (mk (elapsed_seconds w + 1) (timer w) (pause_btn w), []).

End StopwatchWidget.

(** ** CountdownWidget *)

Module CountdownWidget.

(** [total_minutes] and [_paused] are not assigned by [__init__]: they
    are [None] until a method assigns them, and reading them before that
    raises [AttributeError].  [notify_cb] records whether a notification
    callback was given. *)
Record t : Type := mk {
  label : string;
  hours : Z;
  minutes : Z;
  seconds : Z;
  total_seconds : Z;
  remaining_seconds : Z;
  total_minutes : option Z;
  _paused : option bool;
  timer : bool;
  pause_btn : btn_text;
  notify_cb : bool
}.

(** [__init__(label, default_minutes, on_complete, notify_cb)] with a
    non-empty label. *)
Definition init (lbl : string) (default_minutes : Z) (notify : bool) : t :=
  {| label := lbl;
     hours := default_minutes / 60;
     minutes := default_minutes mod 60;
     seconds := 0;
     total_seconds := Z.max 1 (default_minutes * 60);
     remaining_seconds := Z.max 1 (default_minutes * 60);
     total_minutes := None;
     _paused := None;
     timer := false;
     pause_btn := PauseGlyph;
     notify_cb := notify |}.

Definition _get_active_total_seconds (c : t) : Z :=
  hours c * 3600 + minutes c * 60 + seconds c.

(** The body of [open_editor] once the dialog was accepted with
    [(h, m, s) = dialog.result_time()]. *)
Definition apply_time (c : t) (hms : Z * Z * Z) : t :=
  let '(h, m, s) := hms in
  let total := h * 3600 + m * 60 + s in
  if total >? 0 then
    {| label := label c;
       hours := h;
       minutes := m;
       seconds := s;
       total_seconds := total;
       remaining_seconds := total;
       total_minutes := Some (Z.max 1 (total / 60));
       _paused := Some false;
       timer := false;
       pause_btn := PauseGlyph;
       notify_cb := notify_cb c |}
  else c.

(** [open_editor]: the dialog opens on the current duration; [edit] is
    what the user does to it, [accepted] whether it was closed with
    Save. *)
Definition open_editor (edit : TimerEditDialog.t -> TimerEditDialog.t)
    (accepted : bool) (c : t) : t * list event :=
  let dialog := edit (TimerEditDialog.init (hours c) (minutes c) (seconds c)) in
  if accepted then (apply_time c (TimerEditDialog.result_time dialog), [])
  else (c, []).

Definition start (c : t) : t * list event :=
  let total := _get_active_total_seconds c in
  if (total <=? 0) || timer c then (c, [])
  else
    ({| label := label c;
        hours := hours c;
        minutes := minutes c;
        seconds := seconds c;
        total_seconds := total;
        remaining_seconds := total;
        total_minutes := Some (Z.max 1 (total / 60));
        _paused := Some false;
        timer := true;
        pause_btn := PauseGlyph;
        notify_cb := notify_cb c |}, []).

Definition reset (c : t) : t * list event :=
  ({| label := label c;
      hours := hours c;
      minutes := minutes c;
      seconds := seconds c;
      total_seconds := total_seconds c;
      remaining_seconds := _get_active_total_seconds c;
      total_minutes := total_minutes c;
      _paused := Some false;
      timer := false;
      pause_btn := PauseGlyph;
      notify_cb := notify_cb c |}, []).

Definition set_pause (c : t) (active paused : bool) (txt : btn_text) : t :=
  {| label := label c;
     hours := hours c;
     minutes := minutes c;
     seconds := seconds c;
     total_seconds := total_seconds c;
     remaining_seconds := remaining_seconds c;
     total_minutes := total_minutes c;
     _paused := Some paused;
     timer := active;
     pause_btn := txt;
     notify_cb := notify_cb c |}.

(** [if not self.timer.isActive() and not self._paused: return]: the
    second operand is read only when the timer is inactive. *)
Definition toggle_pause (c : t) : t * list event :=
  if timer c then (set_pause c false true PlayGlyph, [])
  else
    match _paused c with
    | None => (c, [Raise (AttributeError "_paused")])
    | Some false => (c, [])
    | Some true => (set_pause c true false PauseGlyph, [])
    end.

Definition set_remaining (c : t) (active : bool) (remaining : Z) : t :=
  {| label := label c;
     hours := hours c;
     minutes := minutes c;
     seconds := seconds c;
     total_seconds := total_seconds c;
     remaining_seconds := remaining;
     total_minutes := total_minutes c;
     _paused := _paused c;
     timer := active;
     pause_btn := pause_btn c;
     notify_cb := notify_cb c |}.

(** What the completing tick does after stopping the timer, when
    [total_minutes] is [tm]: [on_complete], the alarm and, if a callback
    was given, the notification. *)
Definition completion_events (c : t) (tm : Z) : list event :=
  [OnComplete tm; PlayAlarm]
    ++ (if notify_cb c then [Notify (label c) tm] else []).

Definition _tick (c : t) : t * list event :=
  let remaining := remaining_seconds c - 1 in
  if remaining <=? 0 then
    (set_remaining c false 0,
     match total_minutes c with
     | None => [Raise (AttributeError "total_minutes")]
     | Some tm => completion_events c tm
     end)
  else (set_remaining c (timer c) remaining, []).

(** [n] firings of the one-second timer, with everything they emitted. *)
Fixpoint ticks (n : nat) (c : t) : t * list event :=
  match n with
  | O => (c, [])
  | S n' =>
      let (c1, out1) := _tick c in
      let (c2, out2) := ticks n' c1 in
      (c2, out1 ++ out2)
  end.

(** The three fields of the editor committed with the given texts. *)
Definition commit_all (th tm ts : string) (d : TimerEditDialog.t)
  : TimerEditDialog.t :=
  TimerEditDialog._commit_field TimerEditDialog.FieldS ts
    (TimerEditDialog._commit_field TimerEditDialog.FieldM tm
       (TimerEditDialog._commit_field TimerEditDialog.FieldH th d)).

(** The minutes a completion would report, once assigned, are at
    least 1. *)
Definition minutes_ok (c : t) : Prop :=
  forall m, total_minutes c = Some m -> 1 <= m.

(** What can happen to a countdown: its four buttons and the timer. *)
Inductive op : Type :=
| Start
| Reset
| TogglePause
| Tick
| Edit (edit : TimerEditDialog.t -> TimerEditDialog.t) (accepted : bool).

Definition step (o : op) (c : t) : t * list event :=
  match o with
  | Start => start c
  | Reset => reset c
  | TogglePause => toggle_pause c
  | Tick => _tick c
  | Edit edit accepted => open_editor edit accepted c
  end.

(** A history of operations, with everything it emitted. *)
Fixpoint run (ops : list op) (c : t) : t * list event :=
  match ops with
  | [] => (c, [])
  | o :: rest =>
      let (c1, out1) := step o c in
      let (c2, out2) := run rest c1 in
      (c2, out1 ++ out2)
  end.

End CountdownWidget.

(** ** datetime *)

(** The parts of Python's [datetime] module that [DataStore] uses: naive
    datetimes in the proleptic Gregorian calendar, the ordinal arithmetic
    behind [datetime +/- timedelta(days=k)], [weekday], [isoformat] and the
    two [strftime] directives [%a] and [%b] (in the C locale). *)
Module PyDatetime.

Definition MINYEAR : Z := 1.
Definition MAXYEAR : Z := 9999.
Definition _MAXORDINAL : Z := 3652059.

Definition _DAYS_IN_MONTH (month : Z) : Z :=
  match month with
  | 1 => 31 | 2 => 28 | 3 => 31 | 4 => 30 | 5 => 31 | 6 => 30
  | 7 => 31 | 8 => 31 | 9 => 30 | 10 => 31 | 11 => 30 | 12 => 31
  | _ => -1
  end.

Definition _DAYS_BEFORE_MONTH (month : Z) : Z :=
  match month with
  | 1 => 0 | 2 => 31 | 3 => 59 | 4 => 90 | 5 => 120 | 6 => 151
  | 7 => 181 | 8 => 212 | 9 => 243 | 10 => 273 | 11 => 304 | 12 => 334
  | _ => -1
  end.

Definition _is_leap (year : Z) : bool :=
  (year mod 4 =? 0) && (negb (year mod 100 =? 0) || (year mod 400 =? 0)).

Definition _days_before_year (year : Z) : Z :=
  let y := year - 1 in
  y * 365 + y / 4 - y / 100 + y / 400.

Definition _days_in_month (year month : Z) : Z :=
  if (month =? 2) && _is_leap year then 29 else _DAYS_IN_MONTH month.

Definition _days_before_month (year month : Z) : Z :=
  _DAYS_BEFORE_MONTH month + (if (month >? 2) && _is_leap year then 1 else 0).

Definition _ymd2ord (year month day : Z) : Z :=
  _days_before_year year + _days_before_month year month + day.

Definition _DI400Y : Z := 146097.
Definition _DI100Y : Z := 36524.
Definition _DI4Y : Z := 1461.

Definition _ord2ymd (n : Z) : Z * Z * Z :=
  let n := n - 1 in
  let n400 := n / _DI400Y in
  let n := n mod _DI400Y in
  let n100 := n / _DI100Y in
  let n := n mod _DI100Y in
  let n4 := n / _DI4Y in
  let n := n mod _DI4Y in
  let n1 := n / 365 in
  let n := n mod 365 in
  let year := n400 * 400 + 1 + n100 * 100 + n4 * 4 + n1 in
  if (n1 =? 4) || (n100 =? 4) then (year - 1, 12, 31)
  else
    let leapyear := (n1 =? 3) && (negb (n4 =? 24) || (n100 =? 3)) in
    let month := Z.shiftr (n + 50) 5 in
    let preceding :=
      _DAYS_BEFORE_MONTH month + (if (month >? 2) && leapyear then 1 else 0) in
    if preceding >? n then
      let month := month - 1 in
      let preceding :=
        preceding - (_DAYS_IN_MONTH month
                     + (if (month =? 2) && leapyear then 1 else 0)) in
      (year, month, n - preceding + 1)
    else (year, month, n - preceding + 1).

Record datetime : Type := mk {
  year : Z;
  month : Z;
  day : Z;
  hour : Z;
  minute : Z;
  second : Z;
  microsecond : Z
}.

(** The range checks of the constructor; every datetime object that
    exists at run time passes them. *)
Definition valid (d : datetime) : Prop :=
  (MINYEAR <= year d <= MAXYEAR) /\
  (1 <= month d <= 12) /\
  (1 <= day d <= _days_in_month (year d) (month d)) /\
  (0 <= hour d <= 23) /\
  (0 <= minute d <= 59) /\
  (0 <= second d <= 59) /\
  (0 <= microsecond d <= 999999).

(** The same checks as a test, as the constructor runs them. *)
Definition check_fields (d : datetime) : bool :=
  (MINYEAR <=? year d) && (year d <=? MAXYEAR)
  && (1 <=? month d) && (month d <=? 12)
  && (1 <=? day d) && (day d <=? _days_in_month (year d) (month d))
  && (0 <=? hour d) && (hour d <=? 23)
  && (0 <=? minute d) && (minute d <=? 59)
  && (0 <=? second d) && (second d <=? 59)
  && (0 <=? microsecond d) && (microsecond d <=? 999999).

(** [datetime(y, m, d)]. *)
Definition midnight (y m d : Z) : datetime := mk y m d 0 0 0 0.

Definition toordinal (d : datetime) : Z := _ymd2ord (year d) (month d) (day d).

(** Monday is 0, Sunday is 6. *)
Definition weekday (d : datetime) : Z := (toordinal d + 6) mod 7.

(** [d + timedelta(days=k)]; [d - timedelta(days=k)] is
    [add_days d (- k)].  Outside ordinals 1 .. [_MAXORDINAL] Python
    raises [OverflowError]. *)
Definition add_days (d : datetime) (k : Z) : exn + datetime :=
  let days := toordinal d + k in
  if (0 <? days) && (days <=? _MAXORDINAL) then
    let '(y, m, dd) := _ord2ymd days in
    inr (mk y m dd (hour d) (minute d) (second d) (microsecond d))
  else inl OverflowError.

(** [d.replace(day=1)]. *)
Definition replace_day1 (d : datetime) : datetime :=
  mk (year d) (month d) 1 (hour d) (minute d) (second d) (microsecond d).

Definition digit (n : Z) : ascii := ascii_of_nat (Z.to_nat (48 + n mod 10)).

(** [n] printed with [w] decimal digits, zero padded ([%0wd] for
    [0 <= n < 10^w]). *)
Fixpoint dec (w : nat) (n : Z) : string :=
  match w with
  | O => EmptyString
  | S w' => String (digit (n / 10 ^ Z.of_nat w')) (dec w' n)
  end.

(** [d.isoformat()] of a naive datetime: the fraction is printed only
    when the microsecond is not zero. *)
Definition isoformat (d : datetime) : string :=
  dec 4 (year d) ++ "-" ++ dec 2 (month d) ++ "-" ++ dec 2 (day d) ++ "T"
    ++ dec 2 (hour d) ++ ":" ++ dec 2 (minute d) ++ ":" ++ dec 2 (second d)
    ++ (if microsecond d =? 0 then EmptyString else "." ++ dec 6 (microsecond d)).

(** Abbreviated day names, indexed as [weekday] numbers the days. *)
Definition day_abbr (w : Z) : string :=
  match w with
  | 0 => "Mon" | 1 => "Tue" | 2 => "Wed" | 3 => "Thu"
  | 4 => "Fri" | 5 => "Sat" | _ => "Sun"
  end.

(** [d.strftime("%a")]. *)
Definition strftime_a (d : datetime) : string := day_abbr (weekday d).

(** [d.strftime("%b")]. *)
Definition strftime_b (d : datetime) : string :=
  match month d with
  | 1 => "Jan" | 2 => "Feb" | 3 => "Mar" | 4 => "Apr" | 5 => "May"
  | 6 => "Jun" | 7 => "Jul" | 8 => "Aug" | 9 => "Sep" | 10 => "Oct"
  | 11 => "Nov" | _ => "Dec"
  end.

(** Position of a datetime on the time line, in microseconds since the
    midnight before ordinal day 1. *)
Definition instant (d : datetime) : Z :=
  (((toordinal d * 24 + hour d) * 60 + minute d) * 60 + second d) * 1000000
  + microsecond d.

Definition one_day : Z := 86400 * 1000000.

End PyDatetime.

(** ** DataStore *)

Module DataStore.

Import PyDatetime.

(** *** The three tables of [ensure_schema] *)

Record subject_row : Type := mk_subject {
  subject_rowid : Z;
  subject_name : string;
  subject_color : string;
  subject_created_at : string
}.

Record session_row : Type := mk_session {
  session_id : Z;
  session_subject_id : Z;
  session_minutes : Z;
  session_occurred_at : string
}.

Record chapter_row : Type := mk_chapter {
  chapter_id : Z;
  chapter_subject_id : Z;
  chapter_title : string;
  chapter_position : Z;
  chapter_done : Z;
  chapter_notes : string
}.

(** The database file.  [session_seq] is the AUTOINCREMENT counter of
    the sessions table: the largest id it ever handed out. *)
Record database : Type := mk_db {
  subjects : list subject_row;
  sessions : list session_row;
  chapters : list chapter_row;
  session_seq : Z
}.

(** An open connection.  SQLite enforces the [FOREIGN KEY] clauses of the
    schema, [ON DELETE CASCADE] included, only on a connection on which
    [PRAGMA foreign_keys = ON] was executed; a new connection has it
    off. *)
Record connection : Type := mk_conn {
  foreign_keys : bool
}.

(** [_connect]: [sqlite3.connect(self.db_path)] and a row factory.  No
    pragma is executed, here or by any caller. *)
Definition _connect : connection := mk_conn false.

(** [DELETE FROM subjects WHERE id = ?] on connection [conn]. *)
Definition sql_delete_subject (conn : connection) (id : Z) (db : database)
  : database :=
  let keep_subject r := negb (subject_rowid r =? id) in
  if foreign_keys conn then
    mk_db (filter keep_subject (subjects db))
          (filter (fun r => negb (session_subject_id r =? id)) (sessions db))
          (filter (fun r => negb (chapter_subject_id r =? id)) (chapters db))
          (session_seq db)
  else
    mk_db (filter keep_subject (subjects db)) (sessions db) (chapters db)
          (session_seq db).

Definition delete_subject (subject_id : Z) (db : database) : database :=
  sql_delete_subject _connect subject_id db.

(** SQLite's INTEGER is a signed 64-bit integer. *)
Definition INT64_MIN : Z := - 9223372036854775808.
Definition INT64_MAX : Z := 9223372036854775807.

Definition int64 (n : Z) : bool := (INT64_MIN <=? n) && (n <=? INT64_MAX).

(** Binding a Python int to a parameter of a statement: the binding
    raises [OverflowError] for an int outside 64 bits, before the
    statement runs. *)
Definition bind_int (n : Z) : exn + Z :=
  if int64 n then inr n else inl OverflowError.

(** The id an AUTOINCREMENT table gives a new row, one above [largest],
    the largest id of the table and of its past: when that was the
    largest 64-bit integer the insertion fails (the database is full). *)
Definition autoincrement (largest : Z) : exn + Z :=
  if INT64_MAX <=? largest then inl OperationalError else inr (largest + 1).

(** [INSERT INTO sessions (subject_id, minutes, occurred_at) VALUES (?, ?, ?)]:
    the two ints are bound first; the id comes from the AUTOINCREMENT
    counter; the reference to subjects is checked only with foreign keys
    on. *)
Definition sql_insert_session (conn : connection)
    (subject_id minutes : Z) (occurred_at : string) (db : database)
  : exn + database :=
  let* subject_id := bind_int subject_id in
  let* minutes := bind_int minutes in
  let* id := autoincrement (session_seq db) in
  if foreign_keys conn
     && negb (existsb (fun r => subject_rowid r =? subject_id) (subjects db))
  then inl IntegrityError
  else
    inr (mk_db (subjects db)
               (sessions db ++ [mk_session id subject_id minutes occurred_at])
               (chapters db)
               id).

(** [log_session(subject_id, minutes, when=None)]; [utcnow] is what
    [datetime.utcnow()] returns during the call. *)
Definition log_session (subject_id minutes : Z) (when : option datetime)
    (utcnow : datetime) (db : database) : exn + database :=
  let when := match when with Some w => w | None => utcnow end in
  sql_insert_session _connect subject_id minutes (isoformat when) db.

(** SQLite compares TEXT values byte by byte. *)
Definition text_ge (a b : string) : bool := String.leb b a.
Definition text_lt (a b : string) : bool := String.ltb a b.

(** [SUM(minutes)] over the selected rows, taken in the order of the
    table: the running sum is a 64-bit integer, and the query fails with
    "integer overflow" as soon as it leaves that range. *)
Fixpoint sql_sum (acc : Z) (rows : list session_row) : exn + Z :=
  match rows with
  | [] => inr acc
  | r :: rest =>
      let acc := acc + session_minutes r in
      if int64 acc then sql_sum acc rest else inl OperationalError
  end.

(** [SELECT COALESCE(SUM(minutes),0) FROM sessions WHERE occurred_at >= ?] *)
Definition total_since (db : database) (ts : datetime) : exn + Z :=
  sql_sum 0
    (filter (fun r => text_ge (session_occurred_at r) (isoformat ts))
            (sessions db)).

(** [... WHERE occurred_at >= ? AND occurred_at < ?] *)
Definition total_between (db : database) (start end_ : datetime) : exn + Z :=
  sql_sum 0
    (filter (fun r => text_ge (session_occurred_at r) (isoformat start)
                      && text_lt (session_occurred_at r) (isoformat end_))
            (sessions db)).

Record stats : Type := mk_stats {
  stats_day : Z;
  stats_week : Z;
  stats_month : Z;
  stats_bars : list (string * Z);
  stats_month_cards : list (string * Z)
}.

(** [for offset in range(7)] of the bar chart. *)
Fixpoint bars_loop (db : database) (sunday_start : datetime)
    (offsets : list Z) : exn + list (string * Z) :=
  match offsets with
  | [] => inr []
  | offset :: rest =>
      let* start := add_days sunday_start offset in
      let* end_ := add_days start 1 in
      let* total := total_between db start end_ in
      let label := strftime_a start in
      let* bars := bars_loop db sunday_start rest in
      inr ((label, total) :: bars)
  end.

(** [for _ in range(3)] of the monthly cards; the step to the previous
    month is taken at the end of every round, the last one too. *)
Fixpoint month_cards_loop (db : database) (m_start : datetime)
    (rounds : nat) : exn + list (string * Z) :=
  match rounds with
  | O => inr []
  | S rounds' =>
      let* later := add_days m_start 32 in
      let m_end := replace_day1 later in
      let* total := total_between db m_start m_end in
      let card := (strftime_b m_start, total) in
      let* earlier := add_days m_start (- 1) in
      let* cards := month_cards_loop db (replace_day1 earlier) rounds' in
      inr (card :: cards)
  end.

(** [get_stats()]; [now] is what [datetime.utcnow()] returns. *)
Definition get_stats (now : datetime) (db : database) : exn + stats :=
  let day_start := midnight (year now) (month now) (day now) in
  let* week_start :=
    add_days day_start (- ((weekday day_start + 1) mod 7)) in
  let month_start := midnight (year now) (month now) 1 in
  let* day := total_since db day_start in
  let* week := total_since db week_start in
  let* month := total_since db month_start in
  let* sunday_start :=
    add_days day_start (- ((weekday day_start + 1) mod 7)) in
  let* bars := bars_loop db sunday_start [0; 1; 2; 3; 4; 5; 6] in
  let* month_cards := month_cards_loop db month_start 3 in
  inr (mk_stats day week month bars month_cards).

(** The methods the class defines, and attribute lookup on an instance:
    a name the class does not define raises [AttributeError]. *)
Inductive method : Type :=
| m_init | m_connect | m_ensure_schema
| m_list_subjects | m_create_subject | m_delete_subject | m_rename_subject
| m_log_session | m_get_stats
| m_list_chapters | m_add_chapter | m_toggle_chapter | m_update_notes
| m_delete_chapter.

Definition methods : list (string * method) :=
  [ ("__init__", m_init); ("_connect", m_connect);
    ("ensure_schema", m_ensure_schema);
    ("list_subjects", m_list_subjects); ("create_subject", m_create_subject);
    ("delete_subject", m_delete_subject); ("rename_subject", m_rename_subject);
    ("log_session", m_log_session); ("get_stats", m_get_stats);
    ("list_chapters", m_list_chapters); ("add_chapter", m_add_chapter);
    ("toggle_chapter", m_toggle_chapter); ("update_notes", m_update_notes);
    ("delete_chapter", m_delete_chapter) ].

Fixpoint lookup (name : string) (table : list (string * method))
  : option method :=
  match table with
  | [] => None
  | (n, m) :: rest => if String.eqb n name then Some m else lookup name rest
  end.

Definition getattr (name : string) : exn + method :=
  match lookup name methods with
  | Some m => inr m
  | None => inl (AttributeError name)
  end.

End DataStore.

(** ** CircularProgress *)

Module CircularProgress.

(** [set_value(value)]: [self._value = max(0, min(100, value))]. *)
Definition set_value (value : Z) : Z := clamp 0 100 value.

End CircularProgress.

(** ** StudyView *)

Module StudyView.

Import DataStore.

(** One [QListWidgetItem] of the chapter list: the chapter id stored
    under [Qt.UserRole], the title and the check box. *)
Record item : Type := mk_item {
  item_id : Z;
  item_title : string;
  item_checked : bool
}.

Record t : Type := mk {
  store : database;
  subject_id : option Z;
  _loading_chapters : bool;
  chapter_list : list item;
  progress_indicator : Z
}.

Definition with_store (v : t) (db : database) : t :=
  mk db (subject_id v) (_loading_chapters v) (chapter_list v)
     (progress_indicator v).

Definition with_progress (v : t) (value : Z) : t :=
  mk (store v) (subject_id v) (_loading_chapters v) (chapter_list v) value.

(** A slot that ends with a write to the store: the view holds the
    written store, or the write raised. *)
Definition store_call (v : t) (r : exn + database) : t * list event :=
  match r with
  | inr db => (with_store v db, [])
  | inl e => (v, [Raise e])
  end.

(** [_log_session(minutes)], the [on_complete] of the focus countdown. *)
Definition _log_session (minutes : Z) (utcnow : PyDatetime.datetime) (v : t)
  : t * list event :=
  match subject_id v with
  | Some sid =>
      if sid =? 0 then (v, [])
      else store_call v (log_session sid minutes (Some utcnow) utcnow (store v))
  | None => (v, [])
  end.

(** [math.ceil(seconds / 60)] as Python computes it, through a binary64
    quotient. *)
Definition ceil_minutes_f64 (seconds : Z) : exn + Z :=
  let* q := PyFloat.truediv seconds 60 in
  PyFloat.ceil q.

(** [_log_stopwatch(seconds)], the [on_finish] of the stopwatch:
    [minutes = max(1, math.ceil(seconds / 60))], computed through the
    binary64 quotient, is logged. *)
Definition _log_stopwatch (seconds : Z) (utcnow : PyDatetime.datetime) (v : t)
  : t * list event :=
  match subject_id v with
  | Some sid =>
      if sid =? 0 then (v, [])
      else
        match ceil_minutes_f64 seconds with
        | inr c =>
            let minutes := Z.max 1 c in
            store_call v
              (log_session sid minutes (Some utcnow) utcnow (store v))
        | inl e => (v, [Raise e])
        end
  | None => (v, [])
  end.

(** What [_persist_order] asks of the store. *)
Inductive request : Type :=
| NoRequest
| Invoke (m : method) (subject : Z) (ordered_ids : list Z)
| Failed (e : exn).

(** [_persist_order(ordered_ids)]: resolves [self.store.reorder_chapters]
    and calls it with the subject id and the ids. *)
Definition _persist_order (ordered_ids : list Z) (v : t) : request :=
  if _loading_chapters v || negb (truthy (subject_id v)) then NoRequest
  else
    match getattr "reorder_chapters" with
    | inr m =>
        match subject_id v with
        | Some sid => Invoke m sid ordered_ids
        | None => NoRequest
        end
    | inl e => Failed e
    end.

(** [int((done / total) * 100)]. *)
Definition percent (done total : Z) : exn + Z :=
  let* q := PyFloat.truediv done total in
  PyFloat.to_int (PyFloat.mul q (PyFloat.of_int 100)).

(** [_update_progress()]: counts the checked items of the list widget
    and shows the percentage. *)
Definition _update_progress (v : t) : exn + t :=
  let total := Z.of_nat (List.length (chapter_list v)) in
  if total =? 0 then inr (with_progress v (CircularProgress.set_value 0))
  else
    let done := Z.of_nat (List.length (filter item_checked (chapter_list v))) in
    let* p := percent done total in
    inr (with_progress v (CircularProgress.set_value p)).

End StudyView.

(** ** Notions used to state and check the calendar facts *)

Module Calendar.

Import PyDatetime.

(** Dates and datetimes compared field by field, most significant first. *)
Definition lex (c : comparison) (rest : comparison) : comparison :=
  match c with
  | Eq => rest
  | _ => c
  end.

Definition date_compare (y1 m1 d1 y2 m2 d2 : Z) : comparison :=
  lex (y1 ?= y2) (lex (m1 ?= m2) (d1 ?= d2)).

Definition fields_compare (a b : datetime) : comparison :=
  lex (year a ?= year b)
    (lex (month a ?= month b)
       (lex (day a ?= day b)
          (lex (hour a ?= hour b)
             (lex (minute a ?= minute b)
                (lex (second a ?= second b)
                   (microsecond a ?= microsecond b)))))).

Definition valid_date (y m d : Z) : Prop :=
  (MINYEAR <= y <= MAXYEAR) /\ (1 <= m <= 12) /\ (1 <= d <= _days_in_month y m).

(** The last step of [_ord2ymd]: month and day of the [n]-th day (from 0)
    of a year. *)
Definition month_day (leapyear : bool) (n : Z) : Z * Z :=
  let month := Z.shiftr (n + 50) 5 in
  let preceding :=
    _DAYS_BEFORE_MONTH month + (if (month >? 2) && leapyear then 1 else 0) in
  if preceding >? n then
    let month := month - 1 in
    let preceding :=
      preceding - (_DAYS_IN_MONTH month
                   + (if (month =? 2) && leapyear then 1 else 0)) in
    (month, n - preceding + 1)
  else (month, n - preceding + 1).

(** [month_day] lands on a day of the month it names, [n + 1] days into
    the year. *)
Definition month_day_ok (leapyear : bool) (n : Z) : bool :=
  let '(m, d) := month_day leapyear n in
  (1 <=? m) && (m <=? 12) && (1 <=? d)
  && (d <=? (if (m =? 2) && leapyear then 29 else _DAYS_IN_MONTH m))
  && (_DAYS_BEFORE_MONTH m + (if (m >? 2) && leapyear then 1 else 0) + d
      =? n + 1).

Fixpoint month_day_ok_upto (leapyear : bool) (n : nat) : bool :=
  month_day_ok leapyear (Z.of_nat n)
  && match n with
     | O => true
     | S n' => month_day_ok_upto leapyear n'
     end.

End Calendar.

(** ** The session log behind a store *)

Module SessionLog.

Import PyDatetime DataStore.

(** One call of [log_session]: subject, minutes and the time logged. *)
Record entry : Type := mk_entry {
  entry_subject : Z;
  entry_minutes : Z;
  entry_when : datetime
}.

Definition row_of (r : session_row) (e : entry) : Prop :=
  session_subject_id r = entry_subject e
  /\ session_minutes r = entry_minutes e
  /\ session_occurred_at r = isoformat (entry_when e).

(** The sessions table holds the rows of the log, in order. *)
Definition records (db : database) (log : list entry) : Prop :=
  Forall2 row_of (sessions db) log.

Definition well_formed (log : list entry) : Prop :=
  Forall (fun e => valid (entry_when e)) log.

(** Minutes logged at or after the instant [lo]. *)
Fixpoint minutes_from (log : list entry) (lo : Z) : Z :=
  match log with
  | [] => 0
  | e :: rest =>
      (if lo <=? instant (entry_when e) then entry_minutes e else 0)
      + minutes_from rest lo
  end.

(** Minutes logged in the half-open interval from [lo] to [hi]. *)
Fixpoint minutes_between (log : list entry) (lo hi : Z) : Z :=
  match log with
  | [] => 0
  | e :: rest =>
      (if (lo <=? instant (entry_when e)) && (instant (entry_when e) <? hi)
       then entry_minutes e else 0)
      + minutes_between rest lo hi
  end.

(** The minutes of the log added up without their signs: a bound on
    every partial sum of every selection of its rows. *)
Fixpoint magnitude (log : list entry) : Z :=
  match log with
  | [] => 0
  | e :: rest => Z.abs (entry_minutes e) + magnitude rest
  end.

(** The instant at which ordinal day [n] starts. *)
Definition day_start (n : Z) : Z := n * one_day.

(** Minutes logged during ordinal day [n]. *)
Definition minutes_on_day (log : list entry) (n : Z) : Z :=
  minutes_between log (day_start n) (day_start (n + 1)).

End SessionLog.

(** ** Fixed inputs used by the evaluations below *)

Module Samples.

Import DataStore.

Definition noon : PyDatetime.datetime := PyDatetime.mk 2024 3 7 12 0 0 0.

(** One subject with 2 sessions and 3 chapters. *)
Definition one_subject : database :=
  mk_db
    [mk_subject 1 "Algebra" "#7ac7ff" "2024-03-01 09:00:00"]
    [mk_session 1 1 30 "2024-03-05T10:00:00";
     mk_session 2 1 45 "2024-03-06T18:30:00.250000"]
    [mk_chapter 1 1 "Groups" 1 0 EmptyString;
     mk_chapter 2 1 "Rings" 2 1 EmptyString;
     mk_chapter 3 1 "Fields" 3 0 EmptyString]
    2.

(** The study view opened on that subject. *)
Definition view : StudyView.t :=
  StudyView.mk one_subject (Some 1) false
    [StudyView.mk_item 1 "Groups" false;
     StudyView.mk_item 2 "Rings" true;
     StudyView.mk_item 3 "Fields" false]
    33.

(** A chapter list of [total] items whose first [done] are checked. *)
Definition checklist (done total : nat) : list StudyView.item :=
  map (fun i => StudyView.mk_item (Z.of_nat i) "chapter" (i <=? done)%nat)
      (seq 1 total).

Definition view_with (items : list StudyView.item) : StudyView.t :=
  StudyView.mk one_subject (Some 1) false items 0.

(** The log behind the two sessions of [one_subject]. *)
Definition log : list SessionLog.entry :=
  [SessionLog.mk_entry 1 30 (PyDatetime.mk 2024 3 5 10 0 0 0);
   SessionLog.mk_entry 1 45 (PyDatetime.mk 2024 3 6 18 30 0 250000)].

(** The 30-minute focus countdown as [StudyView] creates it. *)
Definition timer30 : CountdownWidget.t :=
  CountdownWidget.init "30 min focus" 30 true.

(** The same countdown after the editor saved 00:00:30. *)
Definition timer_30s : CountdownWidget.t :=
  CountdownWidget.apply_time timer30 (0, 0, 30).

End Samples.

(** The value the progress indicator shows after a slot ran. *)
Definition shown (r : exn + StudyView.t) : option Z :=
  match r with
  | inr v => Some (StudyView.progress_indicator v)
  | inl _ => None
  end.

(** [StudyView.percent] against the exact floor of 100 done / total, for
    [done] = 0 .. [n] out of [total]. *)
Fixpoint percent_agrees_upto (n : nat) (total : Z) : bool :=
  (match StudyView.percent (Z.of_nat n) total with
   | inr p => p =? 100 * Z.of_nat n / total
   | inl _ => false
   end)
  && match n with
     | O => true
     | S n' => percent_agrees_upto n' total
     end.

(** The same for every [total] = 1 .. [n]. *)
Fixpoint percent_agrees_below (n : nat) : bool :=
  match n with
  | O => true
  | S n' => percent_agrees_upto n (Z.of_nat n) && percent_agrees_below n'
  end.

(** ** Proof tactics *)

(** Case analysis on a month number known to lie in 1..12. *)
Ltac month_cases m :=
  let C := fresh "C" in
  assert (C : m = 1 \/ m = 2 \/ m = 3 \/ m = 4 \/ m = 5 \/ m = 6 \/ m = 7
              \/ m = 8 \/ m = 9 \/ m = 10 \/ m = 11 \/ m = 12) by lia;
  destruct C as [C|[C|[C|[C|[C|[C|[C|[C|[C|[C|[C|C]]]]]]]]]]]; subst m.

(** Evaluates the month tables and the tests on literal month numbers. *)
Ltac month_tables :=
  cbv [PyDatetime._DAYS_BEFORE_MONTH PyDatetime._DAYS_IN_MONTH
       Z.gtb Z.eqb Z.compare Pos.compare Pos.compare_cont Pos.eqb andb] in *.


(** ** DataStore: the subjects and chapters tables *)

(** The methods of [DataStore] that write subjects and read and write
    chapters.  They need the AUTOINCREMENT counters of those two tables,
    which [store] adds to the database. *)
Module DataStoreOps.

Import PyDatetime DataStore.

Record store : Type := mk_store {
  db : database;
  subject_seq : Z;
  chapter_seq : Z
}.

(** What [ensure_schema] creates in a new file: three empty tables. *)
Definition empty : store := mk_store (mk_db [] [] [] 0) 0 0.

Definition with_chapters (s : store) (rows : list chapter_row) : store :=
  mk_store (mk_db (subjects (db s)) (sessions (db s)) rows (session_seq (db s)))
           (subject_seq s) (chapter_seq s).

Definition with_subjects (s : store) (rows : list subject_row) : store :=
  mk_store (mk_db rows (sessions (db s)) (chapters (db s)) (session_seq (db s)))
           (subject_seq s) (chapter_seq s).

(** The id of a new row of an AUTOINCREMENT table: one more than the
    largest id in the table and the largest id the table ever handed
    out. *)
Definition largest_id (ids : list Z) (seq : Z) : Z := fold_right Z.max seq ids.

Definition next_id (ids : list Z) (seq : Z) : Z := largest_id ids seq + 1.

(** [str.strip()]. *)
Definition strip (s : string) : string := TimerEditDialog.strip s.

(** *** Chapters *)

(** [WHERE subject_id = ?] *)
Definition chapters_of (subject_id : Z) (d : database) : list chapter_row :=
  filter (fun r => chapter_subject_id r =? subject_id) (chapters d).

(** [ORDER BY position ASC, id ASC]: does [a] come no later than [b]? *)
Definition chapter_leb (a b : chapter_row) : bool :=
  (chapter_position a <? chapter_position b)
  || ((chapter_position a =? chapter_position b)
      && (chapter_id a <=? chapter_id b)).

Fixpoint insert_chapter (r : chapter_row) (l : list chapter_row)
  : list chapter_row :=
  match l with
  | [] => [r]
  | x :: rest => if chapter_leb r x then r :: l else x :: insert_chapter r rest
  end.

Fixpoint order_chapters (l : list chapter_row) : list chapter_row :=
  match l with
  | [] => []
  | r :: rest => insert_chapter r (order_chapters rest)
  end.

(** [list_chapters(subject_id)]:
    [SELECT * FROM chapters WHERE subject_id = ? ORDER BY position ASC, id ASC]. *)
Definition list_chapters (subject_id : Z) (d : database) : list chapter_row :=
  order_chapters (chapters_of subject_id d).

(** [SELECT COALESCE(MAX(position),0) FROM chapters WHERE subject_id = ?]:
    0 stands in only when there is no row. *)
Definition max_position (rows : list chapter_row) : Z :=
  match rows with
  | [] => 0
  | r :: rest =>
      fold_right (fun x acc => Z.max (chapter_position x) acc)
                 (chapter_position r) rest
  end.

(** [INSERT INTO chapters (subject_id, title, position) VALUES (?, ?, ?)]:
    the two integers are bound as 64-bit integers, the row takes the
    next id, [done] and [notes] take their defaults, 0 and the empty
    text; the reference to subjects is checked only with foreign keys
    on. *)
Definition sql_insert_chapter (conn : connection)
    (subject_id : Z) (title : string) (position : Z) (s : store)
  : exn + store :=
  let* subject_id := bind_int subject_id in
  let* position := bind_int position in
  let* id :=
    autoincrement (largest_id (map chapter_id (chapters (db s)))
                              (chapter_seq s)) in
  if foreign_keys conn
     && negb (existsb (fun r => subject_rowid r =? subject_id)
                      (subjects (db s)))
  then inl IntegrityError
  else
    inr (mk_store
           (mk_db (subjects (db s)) (sessions (db s))
                  (chapters (db s)
                     ++ [mk_chapter id subject_id title position 0 EmptyString])
                  (session_seq (db s)))
           (subject_seq s) id).

(** [add_chapter(subject_id, title)]: the query for the largest position
    binds the subject id first. *)
Definition add_chapter (subject_id : Z) (title : string) (s : store)
  : exn + store :=
  let* subject_id := bind_int subject_id in
  let max_pos := max_position (chapters_of subject_id (db s)) in
  sql_insert_chapter _connect subject_id (strip title) (max_pos + 1) s.

Definition set_done (done : bool) (r : chapter_row) : chapter_row :=
  mk_chapter (chapter_id r) (chapter_subject_id r) (chapter_title r)
             (chapter_position r) (if done then 1 else 0) (chapter_notes r).

Definition set_notes (notes : string) (r : chapter_row) : chapter_row :=
  mk_chapter (chapter_id r) (chapter_subject_id r) (chapter_title r)
             (chapter_position r) (chapter_done r) notes.

(** [UPDATE chapters SET ... WHERE id = ?].  The three methods below
    are given the id of a chapter of the table, a 64-bit integer; the
    store they return is the one the statement leaves. *)
Definition update_chapter (f : chapter_row -> chapter_row) (chapter_id_ : Z)
    (rows : list chapter_row) : list chapter_row :=
  map (fun r => if chapter_id r =? chapter_id_ then f r else r) rows.

(** [toggle_chapter(chapter_id, done)]. *)
Definition toggle_chapter (chapter_id_ : Z) (done : bool) (s : store) : store :=
  with_chapters s (update_chapter (set_done done) chapter_id_ (chapters (db s))).

(** [update_notes(chapter_id, notes)]. *)
Definition update_notes (chapter_id_ : Z) (notes : string) (s : store) : store :=
  with_chapters s (update_chapter (set_notes notes) chapter_id_ (chapters (db s))).

(** [delete_chapter(chapter_id)]: [DELETE FROM chapters WHERE id = ?]. *)
Definition delete_chapter (chapter_id_ : Z) (s : store) : store :=
  with_chapters s
    (filter (fun r => negb (chapter_id r =? chapter_id_)) (chapters (db s))).

(** *** Subjects *)

(** [CURRENT_TIMESTAMP], the default of [created_at]: the UTC time as
    [YYYY-MM-DD HH:MM:SS]. *)
Definition current_timestamp (utcnow : datetime) : string :=
  dec 4 (year utcnow) ++ "-" ++ dec 2 (month utcnow) ++ "-"
    ++ dec 2 (day utcnow) ++ " " ++ dec 2 (hour utcnow) ++ ":"
    ++ dec 2 (minute utcnow) ++ ":" ++ dec 2 (second utcnow).

(** Does a row other than those with id [but] carry [name]?  The
    [UNIQUE] constraint on the name column compares byte by byte. *)
Definition name_taken (name : string) (but : option Z)
    (rows : list subject_row) : bool :=
  existsb (fun r => String.eqb (subject_name r) name
                    && match but with
                       | Some id => negb (subject_rowid r =? id)
                       | None => true
                       end)
          rows.

(** [INSERT INTO subjects (name, color) VALUES (?, ?)]; the result is
    the store and [cur.lastrowid]. *)
Definition sql_insert_subject (name color : string) (utcnow : datetime)
    (s : store) : exn + (store * Z) :=
  let* id :=
    autoincrement (largest_id (map subject_rowid (subjects (db s)))
                              (subject_seq s)) in
  if name_taken name None (subjects (db s)) then inl IntegrityError
  else
    inr (mk_store
           (mk_db (subjects (db s)
                     ++ [mk_subject id name color (current_timestamp utcnow)])
                  (sessions (db s)) (chapters (db s)) (session_seq (db s)))
           id (chapter_seq s),
         id).

(** [create_subject(name, color)]; [utcnow] is the time of the call. *)
Definition create_subject (name color : string) (utcnow : datetime)
    (s : store) : exn + (store * Z) :=
  sql_insert_subject (strip name) (strip color) utcnow s.

Definition set_name (name : string) (r : subject_row) : subject_row :=
  mk_subject (subject_rowid r) name (subject_color r) (subject_created_at r).

(** [UPDATE subjects SET name = ? WHERE id = ?]: the id is bound as a
    64-bit integer; the statement fails when the row exists and another
    row has the name. *)
Definition sql_rename_subject (subject_id : Z) (name : string) (s : store)
  : exn + store :=
  let* subject_id := bind_int subject_id in
  if existsb (fun r => subject_rowid r =? subject_id) (subjects (db s))
     && name_taken name (Some subject_id) (subjects (db s))
  then inl IntegrityError
  else
    inr (with_subjects s
           (map (fun r => if subject_rowid r =? subject_id
                          then set_name name r else r)
                (subjects (db s)))).

(** [rename_subject(subject_id, new_name)]. *)
Definition rename_subject (subject_id : Z) (new_name : string) (s : store)
  : exn + store :=
  sql_rename_subject subject_id (strip new_name) s.

Definition with_db (s : store) (d : database) : store :=
  mk_store d (subject_seq s) (chapter_seq s).

(** [delete_subject(subject_id)] and [log_session(...)] on a store. *)
Definition delete_subject (subject_id : Z) (s : store) : store :=
  with_db s (DataStore.delete_subject subject_id (db s)).

Definition log_session (subject_id minutes : Z) (when : option datetime)
    (utcnow : datetime) (s : store) : exn + store :=
  let* d := DataStore.log_session subject_id minutes when utcnow (db s) in
  inr (with_db s d).

(** *** Histories *)

(** One call of a method that writes. *)
Inductive call : Type :=
| CreateSubject (name color : string) (utcnow : datetime)
| DeleteSubject (subject_id : Z)
| RenameSubject (subject_id : Z) (new_name : string)
| LogSession (subject_id minutes : Z) (when : option datetime)
    (utcnow : datetime)
| AddChapter (subject_id : Z) (title : string)
| ToggleChapter (chapter_id_ : Z) (done : bool)
| UpdateNotes (chapter_id_ : Z) (notes : string)
| DeleteChapter (chapter_id_ : Z).

Definition apply_call (c : call) (s : store) : exn + store :=
  match c with
  | CreateSubject name color utcnow =>
      let* r := create_subject name color utcnow s in inr (fst r)
  | DeleteSubject id => inr (delete_subject id s)
  | RenameSubject id new_name => rename_subject id new_name s
  | LogSession sid minutes when utcnow => log_session sid minutes when utcnow s
  | AddChapter sid title => add_chapter sid title s
  | ToggleChapter id done => inr (toggle_chapter id done s)
  | UpdateNotes id notes => inr (update_notes id notes s)
  | DeleteChapter id => inr (delete_chapter id s)
  end.

(** A history of calls.  Every method runs in one transaction, so a call
    that raises leaves the store as it was. *)
Fixpoint apply_calls (cs : list call) (s : store) : store :=
  match cs with
  | [] => s
  | c :: rest =>
      match apply_call c s with
      | inr s' => apply_calls rest s'
      | inl _ => apply_calls rest s
      end
  end.

(** Rows in the order of their insertion: ids grow along the table and
    lie between 1 and the counter; within one subject positions grow
    too. *)
Definition chapters_grow (s : store) : Prop :=
  StronglySorted (fun a b => chapter_id a < chapter_id b) (chapters (db s))
  /\ StronglySorted
       (fun a b => chapter_subject_id a = chapter_subject_id b ->
                   chapter_position a < chapter_position b)
       (chapters (db s))
  /\ Forall (fun r => 1 <= chapter_id r <= chapter_seq s) (chapters (db s))
  /\ 0 <= chapter_seq s.

(** The same for subjects, whose names are pairwise distinct. *)
Definition subjects_grow (s : store) : Prop :=
  StronglySorted (fun a b => subject_rowid a < subject_rowid b)
                 (subjects (db s))
  /\ Forall (fun r => 1 <= subject_rowid r <= subject_seq s) (subjects (db s))
  /\ NoDup (map subject_name (subjects (db s)))
  /\ 0 <= subject_seq s.

(** What identifies a chapter: its id, subject, title and position. *)
Definition chapter_key (r : chapter_row) : Z * Z * string * Z :=
  (chapter_id r, chapter_subject_id r, chapter_title r, chapter_position r).

(** The calls that write the chapters table. *)
Definition writes_chapters (c : call) : bool :=
  match c with
  | AddChapter _ _ | ToggleChapter _ _ | UpdateNotes _ _ | DeleteChapter _ =>
      true
  | _ => false
  end.

(** The chapter rows of [s'] are rows of [s] up to [done] and [notes],
    or have ids that [s] never handed out. *)
Definition kept (s s' : store) : Prop :=
  chapter_seq s <= chapter_seq s'
  /\ Forall (fun r => chapter_id r <= chapter_seq s') (chapters (db s'))
  /\ Forall (fun r' => In (chapter_key r') (map chapter_key (chapters (db s)))
                       \/ chapter_seq s < chapter_id r')
            (chapters (db s')).

End DataStoreOps.

(** ** Calendar months *)

(** The months that the monthly cards of [get_stats] walk through, as
    pairs of a year and a month number. *)
Module Months.

Import PyDatetime.

Definition next_month (ym : Z * Z) : Z * Z :=
  let (y, m) := ym in if m =? 12 then (y + 1, 1) else (y, m + 1).

Definition prev_month (ym : Z * Z) : Z * Z :=
  let (y, m) := ym in if m =? 1 then (y - 1, 12) else (y, m - 1).

(** A month and the [n - 1] months before it, latest first. *)
Fixpoint months_back (n : nat) (ym : Z * Z) : list (Z * Z) :=
  match n with
  | O => []
  | S n' => ym :: months_back n' (prev_month ym)
  end.

(** The instant at which a month starts. *)
Definition month_start (ym : Z * Z) : Z :=
  SessionLog.day_start (_ymd2ord (fst ym) (snd ym) 1).

(** The abbreviated name of a month, as [strftime("%b")] prints it. *)
Definition month_abbr (ym : Z * Z) : string :=
  strftime_b (midnight (fst ym) (snd ym) 1).

(** Minutes logged during a month. *)
Definition minutes_in_month (log : list SessionLog.entry) (ym : Z * Z) : Z :=
  SessionLog.minutes_between log (month_start ym) (month_start (next_month ym)).

End Months.

(** The sum of the totals of a list of labelled totals. *)
Fixpoint sum_totals (rows : list (string * Z)) : Z :=
  match rows with
  | [] => 0
  | (_, total) :: rest => total + sum_totals rest
  end.

(** Does a text start with a character that the three tests accept? *)
Definition starts_with_space (p1 : ascii -> bool) (p2 : ascii -> ascii -> bool)
    (p3 : ascii -> ascii -> ascii -> bool) (s : string) : bool :=
  match s with
  | EmptyString => false
  | String c rest =>
      p1 c
      || match rest with
         | EmptyString => false
         | String d rest2 =>
             p2 c d
             || match rest2 with
                | EmptyString => false
                | String e _ => p3 c d e
                end
         end
  end.

(** ** The timers in use *)

(** What the user and the one-second [QTimer] can do to a stopwatch. *)
Module StopwatchUse.

Import StopwatchWidget.

Inductive op : Type :=
| Start          (* the start button *)
| TogglePause    (* the pause button *)
| Reset          (* the reset button *)
| Finish         (* the Finish button *)
| Tick.          (* the timer fires *)

Definition step (o : op) (w : t) : t * list event :=
  match o with
  | Start => start w
  | TogglePause => toggle_pause w
  | Reset => reset w
  | Finish => finish w
  | Tick => _tick w
  end.

(** A history of operations, with everything it emitted. *)
Fixpoint run (ops : list op) (w : t) : t * list event :=
  match ops with
  | [] => (w, [])
  | o :: rest =>
      let (w1, out1) := step o w in
      let (w2, out2) := run rest w1 in
      (w2, out1 ++ out2)
  end.

(** A [QTimer] fires only while it is active. *)
Fixpoint possible (ops : list op) (w : t) : bool :=
  match ops with
  | [] => true
  | o :: rest =>
      (match o with Tick => timer w | _ => true end)
      && possible rest (fst (step o w))
  end.

Definition is_tick (o : op) : bool :=
  match o with Tick => true | _ => false end.

Definition is_reset (o : op) : bool :=
  match o with Reset => true | _ => false end.

(** The seconds handed to [on_finish], summed over a trace. *)
Fixpoint reported (out : list event) : Z :=
  match out with
  | [] => 0
  | OnFinish secs :: rest => secs + reported rest
  | _ :: rest => reported rest
  end.

End StopwatchUse.

(** What the user can do in the editor of a countdown: the six arrow
    buttons and the three line edits. *)
Module DialogUse.

Import TimerEditDialog.

Inductive action : Type :=
| Nudge (f : field) (up : bool)       (* an arrow button: [_nudge(f, 1)] or [_nudge(f, -1)] *)
| Commit (f : field) (text : string). (* editing of a line edit finished *)

Definition act (a : action) (d : t) : t :=
  match a with
  | Nudge f up => _nudge f (if up then 1 else - 1) d
  | Commit f text => _commit_field f text d
  end.

Definition perform (acts : list action) (d : t) : t :=
  fold_left (fun d a => act a d) acts d.

(** A time of day: hours up to 23, minutes and seconds up to 59. *)
Definition in_range (h m s : Z) : Prop :=
  0 <= h <= 23 /\ 0 <= m <= 59 /\ 0 <= s <= 59.

End DialogUse.

(** What the user and the [QTimer] can do to a countdown.  The editor is
    modal: between its opening and its closing only the timer can act,
    and since a tick leaves the configured duration alone, those ticks
    are the same as ticks before the editor opened. *)
Module CountdownUse.

Import CountdownWidget.

Inductive op : Type :=
| Start
| Reset
| TogglePause
| Tick
| Edit (acts : list DialogUse.action) (accepted : bool).

Definition to_op (o : op) : CountdownWidget.op :=
  match o with
  | Start => CountdownWidget.Start
  | Reset => CountdownWidget.Reset
  | TogglePause => CountdownWidget.TogglePause
  | Tick => CountdownWidget.Tick
  | Edit acts accepted => CountdownWidget.Edit (DialogUse.perform acts) accepted
  end.

Definition step (o : op) (c : t) : t * list event :=
  CountdownWidget.step (to_op o) c.

Definition run (ops : list op) (c : t) : t * list event :=
  CountdownWidget.run (map to_op ops) c.

(** A [QTimer] fires only while it is active. *)
Fixpoint possible (ops : list op) (c : t) : bool :=
  match ops with
  | [] => true
  | o :: rest =>
      (match o with Tick => timer c | _ => true end)
      && possible rest (fst (step o c))
  end.

Definition is_start (o : op) : bool :=
  match o with Start => true | _ => false end.

Definition is_raise (ev : event) : bool :=
  match ev with Raise _ => true | _ => false end.

(** What every countdown in use satisfies: the configured duration is a
    positive time of day and is the total, the remaining time lies
    between 0 and the total, and a running countdown has time left, is
    not marked paused, shows the pause glyph and knows the minutes it
    will report. *)
Definition steady (c : t) : Prop :=
  DialogUse.in_range (hours c) (minutes c) (seconds c)
  /\ _get_active_total_seconds c = total_seconds c
  /\ 1 <= total_seconds c
  /\ 0 <= remaining_seconds c <= total_seconds c
  /\ (timer c = true ->
      1 <= remaining_seconds c
      /\ total_minutes c = Some (Z.max 1 (total_seconds c / 60)))
  /\ (timer c = true -> _paused c = Some false /\ pause_btn c = PauseGlyph)
  /\ (_paused c = Some true ->
      1 <= remaining_seconds c
      /\ total_minutes c = Some (Z.max 1 (total_seconds c / 60))).

(** One for a countdown that is running or paused: a completion is
    still to come. *)
Definition pending (c : t) : Z :=
  if timer c then 1
  else match _paused c with Some true => 1 | _ => 0 end.

(** The number of calls of [on_complete] in a trace. *)
Definition completions (out : list event) : Z :=
  Z.of_nat (List.length (filter is_on_complete out)).

End CountdownUse.

(** ** StudyView: the chapter list and the note editor *)

(** The slots of [StudyView] behind the chapter list, the title input,
    the note editor and the progress indicator, with the widgets they
    read and write.  Two facts of Qt shape them: a widget emits no
    signal while [blockSignals(True)] holds, and [QTextEdit.clear()],
    like every change of the text, emits [textChanged], to which
    [__init__] connects [_save_notes].  Message boxes and sounds change
    no state and are left out. *)
Module StudyChapters.

Import DataStore DataStoreOps.

Record t : Type := mk {
  store : DataStoreOps.store;
  subject_id : option Z;
  title : string;                       (* the text of [self.title] *)
  chapter_list : list StudyView.item;
  selected : option nat;                (* the selected row of the list *)
  chapter_input : string;
  note_editor : string;
  _editing_chapter_id : option Z;
  _loading_chapters : bool;
  progress_indicator : Z
}.

(** [__init__(store, ...)] and [_build_ui]. *)
Definition init (s : DataStoreOps.store) : t :=
  mk s None "Subject" [] None EmptyString EmptyString None false 0.

Definition with_store (v : t) (s : DataStoreOps.store) : t :=
  mk s (subject_id v) (title v) (chapter_list v) (selected v)
     (chapter_input v) (note_editor v) (_editing_chapter_id v)
     (_loading_chapters v) (progress_indicator v).

Definition with_subject (v : t) (sid : option Z) (text : string) : t :=
  mk (store v) sid text (chapter_list v) (selected v)
     (chapter_input v) (note_editor v) (_editing_chapter_id v)
     (_loading_chapters v) (progress_indicator v).

Definition with_list (v : t) (items : list StudyView.item)
    (sel : option nat) : t :=
  mk (store v) (subject_id v) (title v) items sel
     (chapter_input v) (note_editor v) (_editing_chapter_id v)
     (_loading_chapters v) (progress_indicator v).

Definition with_input (v : t) (text : string) : t :=
  mk (store v) (subject_id v) (title v) (chapter_list v) (selected v)
     text (note_editor v) (_editing_chapter_id v)
     (_loading_chapters v) (progress_indicator v).

Definition with_editor (v : t) (text : string) : t :=
  mk (store v) (subject_id v) (title v) (chapter_list v) (selected v)
     (chapter_input v) text (_editing_chapter_id v)
     (_loading_chapters v) (progress_indicator v).

Definition with_editing (v : t) (id : option Z) : t :=
  mk (store v) (subject_id v) (title v) (chapter_list v) (selected v)
     (chapter_input v) (note_editor v) id
     (_loading_chapters v) (progress_indicator v).

Definition with_loading (v : t) (loading : bool) : t :=
  mk (store v) (subject_id v) (title v) (chapter_list v) (selected v)
     (chapter_input v) (note_editor v) (_editing_chapter_id v)
     loading (progress_indicator v).

Definition with_progress (v : t) (value : Z) : t :=
  mk (store v) (subject_id v) (title v) (chapter_list v) (selected v)
     (chapter_input v) (note_editor v) (_editing_chapter_id v)
     (_loading_chapters v) value.

(** The view after a slot, and the exception that ended the slot, if
    one did: what was written before it stays written. *)
Definition outcome : Type := t * option exn.

(** [self.store.list_chapters(self.subject_id)]: while no subject is
    loaded the parameter is [None], which no row equals. *)
Definition list_chapters_of (sid : option Z) (s : DataStoreOps.store)
  : list chapter_row :=
  match sid with
  | Some id => list_chapters id (db s)
  | None => []
  end.

(** The item [refresh_chapters] builds for a row. *)
Definition item_of_row (r : chapter_row) : StudyView.item :=
  StudyView.mk_item (chapter_id r) (chapter_title r)
                    (negb (chapter_done r =? 0)).

(** [_update_progress()]. *)
Definition _update_progress (v : t) : outcome :=
  match StudyView._update_progress
          (StudyView.mk (db (store v)) (subject_id v) (_loading_chapters v)
                        (chapter_list v) (progress_indicator v)) with
  | inr w => (with_progress v (StudyView.progress_indicator w), None)
  | inl e => (v, Some e)
  end.

(** [_save_notes()], the slot of [note_editor.textChanged]. *)
Definition _save_notes (v : t) : t :=
  match _editing_chapter_id v with
  | Some id =>
      if id =? 0 then v
      else with_store v (update_notes id (note_editor v) (store v))
  | None => v
  end.

(** The text of the note editor is set to [text]; unless the editor's
    signals are blocked, [textChanged] runs [_save_notes]. *)
Definition set_editor_text (text : string) (blocked : bool) (v : t) : t :=
  if blocked then with_editor v text else _save_notes (with_editor v text).

(** [refresh_chapters()]. *)
Definition refresh_chapters (v : t) : outcome :=
  let v := with_loading v true in
  let items := map item_of_row (list_chapters_of (subject_id v) (store v)) in
  let v := with_list v items None in
  let v := set_editor_text EmptyString false v in
  let v := with_editing v None in
  let v := with_loading v false in
  _update_progress v.

(** [load_subject(subject_id)].  The dictionary is keyed by the primary
    key of the table, so the order of [list_subjects] does not matter. *)
Definition load_subject (sid : Z) (v : t) : outcome :=
  let subject :=
    find (fun r => subject_rowid r =? sid) (subjects (db (store v))) in
  let text := match subject with
              | Some r => String.append "Studying: " (subject_name r)
              | None => "Subject"
              end in
  refresh_chapters (with_subject v (Some sid) text).

(** [_add_chapter()]. *)
Definition _add_chapter (v : t) : outcome :=
  let text := strip (chapter_input v) in
  match text, subject_id v with
  | String _ _, Some sid =>
      if sid =? 0 then (v, None)
      else
        match add_chapter sid text (store v) with
        | inl e => (v, Some e)
        | inr s => refresh_chapters (with_input (with_store v s) EmptyString)
        end
  | _, _ => (v, None)
  end.

(** [_toggle_done(item)], the slot of [chapter_list.itemChanged]. *)
Definition _toggle_done (it : StudyView.item) (v : t) : outcome :=
  let v := with_store v
             (toggle_chapter (StudyView.item_id it) (StudyView.item_checked it)
                             (store v)) in
  _update_progress v.

(** [chapter_list.selectedItems()]: at most one item, as the list is in
    single selection mode. *)
Definition selected_item (v : t) : option StudyView.item :=
  match selected v with
  | Some i => nth_error (chapter_list v) i
  | None => None
  end.

(** [_load_notes_for_selected()], the slot of
    [chapter_list.itemSelectionChanged]. *)
Definition _load_notes_for_selected (v : t) : t :=
  match selected_item v with
  | None => with_editing (set_editor_text EmptyString false v) None
  | Some it =>
      let v := with_editing v (Some (StudyView.item_id it)) in
      match find (fun r => chapter_id r =? StudyView.item_id it)
                 (list_chapters_of (subject_id v) (store v)) with
      | Some r => set_editor_text (chapter_notes r) true v
      | None => v
      end
  end.

(** [_delete_selected_chapter()]; [confirm] is the answer to the
    question box. *)
Definition _delete_selected_chapter (confirm : bool) (v : t) : outcome :=
  match selected_item v with
  | None => (v, None)
  | Some it =>
      if confirm then
        let v := with_store v (delete_chapter (StudyView.item_id it) (store v)) in
        refresh_chapters (with_editing v None)
      else (v, None)
  end.

(** The list with row [i] replaced. *)
Fixpoint set_item (i : nat) (it : StudyView.item) (items : list StudyView.item)
  : list StudyView.item :=
  match items, i with
  | [], _ => []
  | _ :: rest, O => it :: rest
  | x :: rest, S i' => x :: set_item i' it rest
  end.

(** What the user can do in the panel. *)
Inductive action : Type :=
| LoadSubject (sid : Z)           (* a subject is chosen *)
| TypeTitle (text : string)       (* the title input is edited *)
| Add                             (* the Add button, or Return in the input *)
| Check (i : nat) (checked : bool)  (* the check box of row [i] *)
| Retitle (i : nat) (text : string) (* the text of row [i] is edited in place *)
| Select (i : option nat)         (* a row is selected, or the selection cleared *)
| TypeNotes (text : string)       (* the notes are edited *)
| Delete (confirm : bool).        (* the Delete button and the question box *)

(** Row [i] changed to [it]: the list emits [itemChanged]. *)
Definition change_item (i : nat) (it : StudyView.item) (v : t) : outcome :=
  _toggle_done it (with_list v (set_item i it (chapter_list v)) (selected v)).

(** The selection changed to [i]: the list emits
    [itemSelectionChanged]. *)
Definition select (i : option nat) (v : t) : t :=
  _load_notes_for_selected (with_list v (chapter_list v) i).

Definition same_selection (a b : option nat) : bool :=
  match a, b with
  | Some i, Some j => Nat.eqb i j
  | None, None => true
  | _, _ => false
  end.

Definition act (a : action) (v : t) : outcome :=
  match a with
  | LoadSubject sid => load_subject sid v
  | TypeTitle text => (with_input v text, None)
  | Add => _add_chapter v
  | Check i checked =>
      match nth_error (chapter_list v) i with
      | Some it =>
          change_item i (StudyView.mk_item (StudyView.item_id it)
                                           (StudyView.item_title it) checked) v
      | None => (v, None)
      end
  | Retitle i text =>
      match nth_error (chapter_list v) i with
      | Some it =>
          change_item i (StudyView.mk_item (StudyView.item_id it) text
                                           (StudyView.item_checked it)) v
      | None => (v, None)
      end
  | Select i =>
      if same_selection i (selected v) then (v, None)
      else
        match i with
        | Some n =>
            match nth_error (chapter_list v) n with
            | Some _ => (select i v, None)
            | None => (v, None)
            end
        | None => (select None v, None)
        end
  | TypeNotes text => (set_editor_text text false v, None)
  | Delete confirm => _delete_selected_chapter confirm v
  end.

(** A session at the panel; an exception ends a slot, not the
    session. *)
Fixpoint session (acts : list action) (v : t) : t :=
  match acts with
  | [] => v
  | a :: rest => session rest (fst (act a v))
  end.

(** The list shows the chapters of the loaded subject, in the order of
    the store. *)
Definition in_sync (v : t) : Prop :=
  map StudyView.item_id (chapter_list v)
  = map chapter_id (list_chapters_of (subject_id v) (store v)).

(** The notes the store holds for chapter [id]. *)
Definition stored_notes (id : Z) (v : t) : list string :=
  map chapter_notes
      (filter (fun r => chapter_id r =? id) (chapters (db (store v)))).

(** The store of [v'] is what some history of calls on the chapters
    table makes of the store of [v]. *)
Definition replays (v v' : t) : Prop :=
  exists cs, forallb writes_chapters cs = true
             /\ store v' = apply_calls cs (store v).

End StudyChapters.

(** A view opened on a subject with three chapters, the first of which
    carries notes; then that chapter selected and its notes edited. *)
Module PanelSamples.

Import DataStore.

Definition store : DataStoreOps.store :=
  DataStoreOps.mk_store
    (mk_db
       [mk_subject 1 "Algebra" "#7ac7ff" "2024-03-01 09:00:00"]
       []
       [mk_chapter 1 1 "Groups" 1 0 "cosets";
        mk_chapter 2 1 "Rings" 2 1 EmptyString;
        mk_chapter 3 1 "Fields" 3 0 EmptyString]
       0)
    1 3.

Definition opened : StudyChapters.t :=
  fst (StudyChapters.load_subject 1 (StudyChapters.init store)).

Definition editing : StudyChapters.t :=
  StudyChapters.set_editor_text "cosets and quotients" false
    (StudyChapters.select (Some 0%nat) opened).

End PanelSamples.
(* ================================================================== *)
(** * Part II: properties *)
(* ================================================================== *)

(** ** Arithmetic helpers *)

Lemma ceil_div_bounds (a : Z) :
  60 * (ceil_div a 60 - 1) < a <= 60 * ceil_div a 60.
Proof.
  unfold ceil_div.
  pose proof (Z.div_mod (- a) 60 ltac:(lia)) as E.
  pose proof (Z.mod_pos_bound (- a) 60 ltac:(lia)) as B.
  lia.
Qed.

Lemma ceil_div_unique (a m : Z) :
  60 * (m - 1) < a <= 60 * m -> ceil_div a 60 = m.
Proof.
  intros Hm. pose proof (ceil_div_bounds a). lia.
Qed.

Lemma clamp_range (lo hi v : Z) : lo <= hi -> lo <= clamp lo hi v <= hi.
Proof. unfold clamp. lia. Qed.

Lemma clamp_inside (lo hi v : Z) : lo <= v <= hi -> clamp lo hi v = v.
Proof. unfold clamp. lia. Qed.

Lemma clamp_below (lo hi v : Z) : v < lo -> lo <= hi -> clamp lo hi v = lo.
Proof. unfold clamp. lia. Qed.

Lemma clamp_above (lo hi v : Z) : hi < v -> lo <= hi -> clamp lo hi v = hi.
Proof. unfold clamp. lia. Qed.



(** ** The binary64 quotient by 60 *)

Section BinaryQuotient.

Lemma digits2_pos_bounds (p : positive) :
  2 ^ (Zpos (digits2_pos p) - 1) <= Zpos p < 2 ^ Zpos (digits2_pos p).
Proof.
  induction p as [p IH|p IH|]; cbn [digits2_pos].
  - rewrite Pos2Z.inj_succ, (Pos2Z.inj_xI p).
    replace (Z.succ (Zpos (digits2_pos p)) - 1)
      with (Z.succ (Zpos (digits2_pos p) - 1)) by lia.
    rewrite !Z.pow_succ_r by lia.
    generalize dependent (2 ^ (Zpos (digits2_pos p) - 1)).
    generalize (2 ^ Zpos (digits2_pos p)). intros. lia.
  - rewrite Pos2Z.inj_succ, (Pos2Z.inj_xO p).
    replace (Z.succ (Zpos (digits2_pos p)) - 1)
      with (Z.succ (Zpos (digits2_pos p) - 1)) by lia.
    rewrite !Z.pow_succ_r by lia.
    generalize dependent (2 ^ (Zpos (digits2_pos p) - 1)).
    generalize (2 ^ Zpos (digits2_pos p)). intros. lia.
  - cbn. lia.
Qed.

Lemma digits2_unique (p : positive) (k : Z) :
  2 ^ (k - 1) <= Zpos p < 2 ^ k -> Zdigits2 (Zpos p) = k.
Proof.
  intros H. cbn [Zdigits2]. pose proof (digits2_pos_bounds p) as B.
  set (d := Zpos (digits2_pos p)) in *.
  assert (Hd : 0 < d) by (unfold d; lia).
  destruct (Z.lt_trichotomy d k) as [L|[E|G]]; [|exact E|].
  - assert (2 ^ d <= 2 ^ (k - 1)) by (apply Z.pow_le_mono_r; lia). lia.
  - assert (0 <= k).
    { destruct (Z.le_gt_cases 0 k) as [|Hk]; [assumption|].
      rewrite (Z.pow_neg_r 2 k) in H by lia. lia. }
    assert (2 ^ k <= 2 ^ (d - 1)) by (apply Z.pow_le_mono_r; lia). lia.
Qed.

Lemma shr_1_spec (p : positive) (r s : bool) :
  shr_1 (Build_shr_record (Zpos p) r s)
  = Build_shr_record (Zpos p / 2) (Z.odd (Zpos p)) (r || s).
Proof.
  destruct p as [p|p|]; cbn [shr_1 Z.odd]; f_equal.
  - rewrite (Pos2Z.inj_xI p).
    apply (Z.div_unique_pos _ 2 (Zpos p) 1); lia.
  - rewrite (Pos2Z.inj_xO p).
    apply (Z.div_unique_pos _ 2 (Zpos p) 0); lia.
Qed.

Lemma round_nearest_even_bounds (m : Z) (l : location) :
  m <= round_nearest_even m l <= m + 1
  /\ (l = loc_Exact -> round_nearest_even m l = m)
  /\ (l = loc_Inexact Gt -> round_nearest_even m l = m + 1).
Proof.
  destruct l as [|[| |]]; cbn [round_nearest_even];
    try destruct (Z.even m); repeat split; try lia; try discriminate;
    reflexivity.
Qed.

Lemma fexp_normal (n e : Z) :
  -1000 <= e <= 900 -> 0 <= n <= 60 ->
  fexp 53 1024 (n + e) - e = n - 53 \/ n < 53.
Proof. unfold fexp, emin. lia. Qed.

(** The last step of rounding: a significand of 53 bits stays, 2^53
    becomes 2^52 one exponent up. *)
Lemma renormalize (M e1 : Z) :
  2 ^ 52 <= M <= 2 ^ 53 -> -1000 <= e1 <= 950 ->
  exists m e,
    (let '(mrs, e2) := shr_fexp 53 1024 M e1 loc_Exact in
     match shr_m mrs with
     | Z0 => S754_zero false
     | Zpos m => if e2 <=? 1024 - 53 then S754_finite false m e2
                 else S754_infinity false
     | Zneg _ => S754_nan
     end) = S754_finite false m e
    /\ e1 <= e <= e1 + 1
    /\ Zpos m * 2 ^ (e - e1) = M.
Proof.
  intros HM He.
  change (2 ^ 52) with 4503599627370496 in HM.
  change (2 ^ 53) with 9007199254740992 in HM.
  destruct M as [|p|p]; try lia.
  destruct (Z.eq_dec (Zpos p) 9007199254740992) as [E|N].
  - injection E as ->. unfold shr_fexp.
    replace (fexp 53 1024 (Zdigits2 9007199254740992 + e1) - e1) with 1
      by (cbn [Zdigits2 digits2_pos Pos.succ]; unfold fexp, emin; lia).
    cbn [shr shr_record_of_loc iter_pos shr_1 shr_m].
    destruct (Z.leb_spec (e1 + 1) (1024 - 53)); [|lia].
    eexists. eexists. split; [reflexivity|]. split; [lia|].
    replace (e1 + 1 - e1) with 1 by lia. reflexivity.
  - unfold shr_fexp.
    rewrite (digits2_unique p 53)
      by (change (2 ^ (53 - 1)) with 4503599627370496;
          change (2 ^ 53) with 9007199254740992; lia).
    replace (fexp 53 1024 (53 + e1) - e1) with 0 by (unfold fexp, emin; lia).
    cbn [shr shr_record_of_loc shr_m].
    destruct (Z.leb_spec e1 (1024 - 53)); [|lia].
    eexists. eexists. split; [reflexivity|]. split; [lia|].
    rewrite Z.sub_diag. cbn. lia.
Qed.

Lemma loc_of_shr_record_of_loc (m : Z) (l : location) :
  loc_of_shr_record (shr_record_of_loc m l) = l
  /\ shr_m (shr_record_of_loc m l) = m.
Proof. destruct l as [|[| |]]; split; reflexivity. Qed.

(** Rounding a quotient of 53 bits. *)
Lemma round_53 (mz ez : Z) (l : location) :
  2 ^ 52 <= mz < 2 ^ 53 -> -1000 <= ez <= 900 ->
  exists m e M,
    binary_round_aux 53 1024 false mz ez l = S754_finite false m e
    /\ ez <= e <= ez + 1
    /\ Zpos m * 2 ^ (e - ez) = M
    /\ mz <= M <= mz + 1
    /\ (l = loc_Exact -> M = mz)
    /\ (l = loc_Inexact Gt -> M = mz + 1).
Proof.
  intros Hm He. unfold binary_round_aux.
  destruct mz as [|p|p]; try (change (2 ^ 52) with 4503599627370496 in Hm; lia).
  unfold shr_fexp at 1. rewrite (digits2_unique p 53) by exact Hm.
  replace (fexp 53 1024 (53 + ez) - ez) with 0 by (unfold fexp, emin; lia).
  cbn [shr].
  destruct (loc_of_shr_record_of_loc (Zpos p) l) as [-> ->].
  destruct (round_nearest_even_bounds (Zpos p) l) as (B & Bx & Bg).
  destruct (renormalize (round_nearest_even (Zpos p) l) ez)
    as (m & e & R & E1 & E2); [lia | lia |].
  exists m, e, (round_nearest_even (Zpos p) l).
  split; [exact R|]. repeat split; try lia; assumption.
Qed.

(** Rounding a quotient of 54 bits: its last bit is shifted out. *)
Lemma round_54 (mz ez : Z) (l : location) :
  2 ^ 53 <= mz < 2 ^ 54 -> -1000 <= ez <= 900 ->
  exists m e M,
    binary_round_aux 53 1024 false mz ez l = S754_finite false m e
    /\ ez + 1 <= e <= ez + 2
    /\ Zpos m * 2 ^ (e - (ez + 1)) = M
    /\ mz / 2 <= M <= mz / 2 + 1
    /\ (Z.odd mz = false -> l = loc_Exact -> M = mz / 2)
    /\ (Z.odd mz = true -> l <> loc_Exact -> M = mz / 2 + 1).
Proof.
  intros Hm He. unfold binary_round_aux.
  destruct mz as [|p|p]; try (change (2 ^ 53) with 9007199254740992 in Hm; lia).
  unfold shr_fexp at 1. rewrite (digits2_unique p 54) by exact Hm.
  replace (fexp 53 1024 (54 + ez) - ez) with 1 by (unfold fexp, emin; lia).
  cbn [shr iter_pos].
  set (h := Zpos p / 2).
  assert (Hh : 2 ^ 52 <= h < 2 ^ 53).
  { change (2 ^ 52) with 4503599627370496.
    change (2 ^ 53) with 9007199254740992 in *.
    change (2 ^ 54) with 18014398509481984 in *.
    unfold h. Z.to_euclidean_division_equations. lia. }
  set (l' := loc_of_shr_record (shr_1 (shr_record_of_loc (Zpos p) l))).
  assert (Hs : shr_m (shr_1 (shr_record_of_loc (Zpos p) l)) = h
               /\ (Z.odd (Zpos p) = false -> l = loc_Exact -> l' = loc_Exact)
               /\ (Z.odd (Zpos p) = true -> l <> loc_Exact ->
                   l' = loc_Inexact Gt)).
  { unfold l'. destruct l as [|[| |]]; cbn [shr_record_of_loc];
      rewrite shr_1_spec; fold h; cbn [shr_m orb loc_of_shr_record];
      (split; [reflexivity|]); split; intros O; rewrite O; intros X;
      try reflexivity; try discriminate; try (now elim X). }
  destruct Hs as (-> & Sx & Sg).
  destruct (round_nearest_even_bounds h l') as (B & Bx & Bg).
  destruct (renormalize (round_nearest_even h l') (ez + 1))
    as (m & e & R & E1 & E2); [clear - Hh B; lia | lia |].
  exists m, e, (round_nearest_even h l').
  split; [exact R|]. split; [lia|]. split; [exact E2|]. split; [exact B|].
  split.
  - intros O X. apply Bx. now apply Sx.
  - intros O X. apply Bg. now apply Sg.
Qed.

Lemma ceil_scaled (x y c C : Z) :
  0 < y -> 0 < c -> (C - 1) * (y * c) < x * c <= C * (y * c) ->
  - ((- x) / y) = C.
Proof.
  intros Hy Hc H.
  assert (H1 : (C - 1) * y < x).
  { apply (Z.mul_lt_mono_pos_r c); [exact Hc|].
    now rewrite <- Z.mul_assoc. }
  assert (H2 : x <= C * y).
  { apply (Z.mul_le_mono_pos_r _ _ c); [exact Hc|].
    now rewrite <- Z.mul_assoc. }
  rewrite Z.mul_sub_distr_r in H1.
  assert (E : (- x) / y = - C).
  { symmetry. apply (Z.div_unique_pos _ _ _ (C * y - x)); [lia|]. ring. }
  lia.
Qed.

(** Below 60 * 2^48 seconds the rounded quotient keeps enough of the
    fraction for the ceiling to come out right. *)
Lemma ceil_minutes_f64_below (s : Z) :
  0 < s < 60 * 2 ^ 48 ->
  StudyView.ceil_minutes_f64 s = inr (ceil_div s 60).
Proof.
  intros Hs. destruct s as [|p|p]; try lia.
  pose proof (digits2_pos_bounds p) as D.
  set (d := Zpos (digits2_pos p)) in *.
  assert (Hd : 1 <= d <= 54).
  { split; [unfold d; lia|].
    destruct (Z.le_gt_cases d 54) as [|G]; [assumption|].
    assert (2 ^ 54 <= 2 ^ (d - 1)) by (apply Z.pow_le_mono_r; lia).
    change (2 ^ 54) with 18014398509481984 in *.
    change (2 ^ 48) with 281474976710656 in *. lia. }
  unfold StudyView.ceil_minutes_f64, PyFloat.truediv.
  change (60 =? 0) with false. cbv iota.
  unfold PyFloat.exact, PyFloat.prec, PyFloat.emax, SFdiv, SFdiv_core_binary.
  cbn [xorb].
  change (Zdigits2 (Zpos p)) with d. change (Zdigits2 60) with 6.
  replace (Z.min (fexp 53 1024 (d + 0 - (6 + 0))) (0 - 0)) with (d - 59)
    by (unfold fexp, emin; lia).
  replace (0 - 0 - (d - 59)) with (59 - d) by lia.
  destruct (59 - d) as [|k|k] eqn:K; try lia.
  rewrite Z.shiftl_mul_pow2 by lia.
  set (N := 2 ^ Zpos k).
  assert (N0 : 0 < N) by (apply Z.pow_pos_nonneg; lia).
  assert (P59 : 2 ^ 59 = 2 ^ d * N).
  { unfold N. rewrite <- K, <- Z.pow_add_r by lia. f_equal. lia. }
  assert (P58 : 2 ^ 58 = 2 ^ (d - 1) * N).
  { unfold N. rewrite <- K, <- Z.pow_add_r by lia. f_equal. lia. }
  assert (HN : 2 ^ 58 <= Zpos p * N < 2 ^ 59).
  { rewrite P59, P58.
    split; [apply Z.mul_le_mono_nonneg_r | apply Z.mul_lt_mono_pos_r]; lia. }
  clear P59 P58.
  change (2 ^ 58) with 288230376151711744 in HN.
  change (2 ^ 59) with 576460752303423488 in HN.
  pose proof (Z_div_mod (Zpos p * N) 60 ltac:(lia)) as DM.
  destruct (Z.div_eucl (Zpos p * N) 60) as [q r].
  destruct DM as [DM Hr].
  unfold new_location. change (Z.even 60) with true. cbv iota.
  pose proof (ceil_div_bounds (Zpos p)) as CB.
  set (C := ceil_div (Zpos p) 60) in *.
  assert (Lx : r = 0 -> new_location_even 60 r = loc_Exact).
  { intros ->. reflexivity. }
  assert (Ln : r <> 0 -> new_location_even 60 r <> loc_Exact).
  { intros Hn. unfold new_location_even.
    destruct (Z.eqb_spec r 0); [contradiction | discriminate]. }
  assert (Lg : 30 < r -> new_location_even 60 r = loc_Inexact Gt).
  { intros Hg. unfold new_location_even.
    destruct (Z.eqb_spec r 0); [lia|].
    destruct (Z.compare_spec (2 * r) 60); try lia. reflexivity. }
  generalize dependent (new_location_even 60 r). intros l Lx Ln Lg.
  assert (K5 : 2 ^ 5 <= N) by (apply Z.pow_le_mono_r; lia).
  change (2 ^ 5) with 32 in K5.
  change (2 ^ 48) with 281474976710656 in Hs.
  destruct (Z.lt_ge_cases q (2 ^ 53)) as [Q|Q].
  - destruct (round_53 q (d - 59) l) as (m & e & M & R & E1 & E2 & B & Bx & Bg);
      [change (2 ^ 52) with 4503599627370496;
       change (2 ^ 53) with 9007199254740992 in *; lia | lia |].
    rewrite R. cbn [bind PyFloat.ceil].
    destruct e as [|e|e]; try lia. f_equal.
    apply (ceil_scaled _ _ (2 ^ (Zneg e - (d - 59)))).
    + apply Z.pow_pos_nonneg; lia.
    + apply Z.pow_pos_nonneg; lia.
    + rewrite E2, <- Z.pow_add_r by lia.
      replace (Zpos e + (Zneg e - (d - 59))) with (Zpos k) by lia.
      fold N.
      assert (U : Zpos p * N <= 60 * C * N)
        by (apply Z.mul_le_mono_nonneg_r; lia).
      assert (L : (60 * (C - 1) + 1) * N <= Zpos p * N)
        by (apply Z.mul_le_mono_nonneg_r; lia).
      rewrite Z.mul_sub_distr_r.
      replace (60 * C * N) with (60 * (C * N)) in U by ring.
      replace ((60 * (C - 1) + 1) * N) with (60 * (C * N) - 59 * N) in L
        by ring.
      generalize dependent (C * N). intros X U L.
      rewrite DM in U, L.
      assert (Bx' : r = 0 -> M = q) by (intros H0; apply Bx, Lx, H0).
      assert (Bg' : 30 < r -> M = q + 1) by (intros H0; apply Bg, Lg, H0).
      clear - U L Bx' Bg' B Hr K5. lia.
  - assert (K6 : 6 <= Zpos k).
    { destruct (Z.le_gt_cases 6 (Zpos k)) as [|G]; [assumption|].
      assert (E5 : Zpos k = 5) by lia.
      unfold N in DM. rewrite E5 in DM. change (2 ^ 5) with 32 in DM.
      change (2 ^ 53) with 9007199254740992 in Q. lia. }
    set (N' := 2 ^ (Zpos k - 1)).
    assert (EN : N = 2 * N').
    { unfold N, N'. rewrite <- Z.pow_succ_r by lia. f_equal. lia. }
    assert (K5' : 2 ^ 5 <= N') by (apply Z.pow_le_mono_r; lia).
    change (2 ^ 5) with 32 in K5'.
    destruct (round_54 q (d - 59) l) as (m & e & M & R & E1 & E2 & B & Bx & Bg);
      [change (2 ^ 54) with 18014398509481984; lia | lia |].
    rewrite R. cbn [bind PyFloat.ceil].
    destruct e as [|e|e]; try lia. f_equal.
    apply (ceil_scaled _ _ (2 ^ (Zneg e - (d - 59 + 1)))).
    + apply Z.pow_pos_nonneg; lia.
    + apply Z.pow_pos_nonneg; lia.
    + rewrite E2, <- Z.pow_add_r by lia.
      replace (Zpos e + (Zneg e - (d - 59 + 1))) with (Zpos k - 1) by lia.
      fold N'.
      assert (U : Zpos p * N' <= 60 * C * N')
        by (apply Z.mul_le_mono_nonneg_r; lia).
      assert (L : (60 * (C - 1) + 1) * N' <= Zpos p * N')
        by (apply Z.mul_le_mono_nonneg_r; lia).
      rewrite Z.mul_sub_distr_r.
      replace (60 * C * N') with (60 * (C * N')) in U by ring.
      replace ((60 * (C - 1) + 1) * N') with (60 * (C * N') - 59 * N') in L
        by ring.
      rewrite EN in DM.
      replace (Zpos p * (2 * N')) with (2 * (Zpos p * N')) in DM by ring.
      generalize dependent (C * N'). intros X U L.
      set (Y := Zpos p * N') in *. clearbody Y.
      assert (Bx' : Z.odd q = false -> r = 0 -> M = q / 2)
        by (intros O H0; apply (Bx O), Lx, H0).
      assert (Bg' : Z.odd q = true -> r <> 0 -> M = q / 2 + 1)
        by (intros O H0; apply (Bg O), Ln, H0).
      pose proof (Z.div_mod q 2 ltac:(lia)) as Eq.
      pose proof (Z.mod_pos_bound q 2 ltac:(lia)) as Bq.
      assert (O : (Z.odd q = true /\ q mod 2 = 1)
                  \/ (Z.odd q = false /\ q mod 2 = 0)).
      { rewrite Zmod_odd. destruct (Z.odd q); [left | right]; now split. }
      set (h := q / 2) in *. set (pb := q mod 2) in *. clearbody h pb.
      clear - DM U L Bx' Bg' B Hr K5' O Eq Bq.
      destruct O as [[O E]|[O E]]; rewrite O in *;
        specialize (Bx' ltac:(try reflexivity)) || clear Bx';
        specialize (Bg' ltac:(try reflexivity)) || clear Bg'; lia.
Qed.

(** The binary64 computation of [math.ceil(seconds / 60)] gives the exact
    ceiling for every count of seconds up to 60 * 2^48. *)
Lemma ceil_minutes_f64_exact (s : Z) :
  0 <= s <= 60 * 2 ^ 48 ->
  StudyView.ceil_minutes_f64 s = inr (ceil_div s 60).
Proof.
  intros Hs.
  destruct (Z.eq_dec s 0) as [->|N0]; [reflexivity|].
  destruct (Z.eq_dec s (60 * 2 ^ 48)) as [->|N1]; [vm_compute; reflexivity|].
  apply ceil_minutes_f64_below. lia.
Qed.

End BinaryQuotient.

(** ** DataStore: deletion and logging *)

Lemma delete_subject_keeps_sessions (id : Z) (db : DataStore.database) :
  DataStore.sessions (DataStore.delete_subject id db) = DataStore.sessions db.
Proof. reflexivity. Qed.

Lemma delete_subject_keeps_chapters (id : Z) (db : DataStore.database) :
  DataStore.chapters (DataStore.delete_subject id db) = DataStore.chapters db.
Proof. reflexivity. Qed.

(** C1 (evaluation of the code at the failing input).  Deleting the only
    subject of [Samples.one_subject], which owns 2 sessions and 3
    chapters, removes the subject row and nothing else: both sessions and
    all three chapters still carry subject id 1 afterwards, because
    [_connect] never switches foreign-key enforcement on. *)
Theorem delete_subject_leaves_children :
  let db := DataStore.delete_subject 1 Samples.one_subject in
  DataStore.subjects db = []
  /\ List.length (filter (fun r => DataStore.session_subject_id r =? 1)
                         (DataStore.sessions db)) = 2%nat
  /\ List.length (filter (fun r => DataStore.chapter_subject_id r =? 1)
                         (DataStore.chapters db)) = 3%nat.
Proof. repeat split. Qed.

(** With enforcement on, the same statement deletes the children too. *)
Lemma sql_delete_subject_cascades (id : Z) (db : DataStore.database) :
  let db' := DataStore.sql_delete_subject (DataStore.mk_conn true) id db in
  (forall r, In r (DataStore.sessions db') -> DataStore.session_subject_id r <> id)
  /\ (forall r, In r (DataStore.chapters db') -> DataStore.chapter_subject_id r <> id).
Proof.
  cbn. split; intros r Hr; apply filter_In in Hr; destruct Hr as [_ Hr];
    apply negb_true_iff, Z.eqb_neq in Hr; exact Hr.
Qed.

(** ** StudyView: reordering *)

Lemma getattr_reorder_chapters :
  DataStore.getattr "reorder_chapters" = inl (AttributeError "reorder_chapters").
Proof. reflexivity. Qed.

Lemma persist_order_never_invokes (ids : list Z) (v : StudyView.t) :
  StudyView._persist_order ids v = StudyView.NoRequest
  \/ StudyView._persist_order ids v
     = StudyView.Failed (AttributeError "reorder_chapters").
Proof.
  unfold StudyView._persist_order. rewrite getattr_reorder_chapters.
  destruct (_ || _); auto.
Qed.

(** C2 (evaluation of the code at the failing input).  On the view of a
    subject whose chapters have ids 1, 2, 3, persisting the order 3, 1, 2
    (a permutation of the ids) raises [AttributeError]: [DataStore] has no
    [reorder_chapters], so no request reaches the store and the chapter
    positions stay 1, 2, 3. *)
Theorem persist_order_raises :
  StudyView._persist_order [3; 1; 2] Samples.view
  = StudyView.Failed (AttributeError "reorder_chapters")
  /\ map DataStore.chapter_id (DataStore.chapters (StudyView.store Samples.view))
     = [1; 2; 3]
  /\ map DataStore.chapter_position
         (DataStore.chapters (StudyView.store Samples.view))
     = [1; 2; 3].
Proof. repeat split. Qed.

(** ** CountdownWidget: a full run *)

Section CountdownRun.

Import CountdownWidget.

Lemma set_remaining_same (c : t) :
  set_remaining c (timer c) (remaining_seconds c) = c.
Proof. destruct c; reflexivity. Qed.

(** While more than [n] seconds remain, [n] ticks only count down. *)
Lemma ticks_before_end (n : nat) :
  forall c,
    Z.of_nat n < remaining_seconds c ->
    ticks n c = (set_remaining c (timer c) (remaining_seconds c - Z.of_nat n), []).
Proof.
  induction n as [|n IH]; intros c Hn.
  - cbn [ticks]. rewrite Z.sub_0_r, set_remaining_same. reflexivity.
  - cbn [ticks]. unfold _tick.
    destruct (Z.leb_spec (remaining_seconds c - 1) 0) as [Hle|Hgt]; [lia|].
    rewrite IH by (cbn; lia).
    replace (remaining_seconds c - Z.of_nat (S n))
      with (remaining_seconds c - 1 - Z.of_nat n) by lia.
    reflexivity.
Qed.

(** The tick that finds one second left completes the countdown. *)
Lemma tick_last (c : t) (tm : Z) :
  remaining_seconds c = 1 ->
  total_minutes c = Some tm ->
  _tick c = (set_remaining c false 0, completion_events c tm).
Proof.
  intros Hr Htm. unfold _tick. rewrite Hr, Htm. reflexivity.
Qed.

Lemma ticks_app (n m : nat) :
  forall c,
    ticks (n + m) c
    = (fst (ticks m (fst (ticks n c))),
       snd (ticks n c) ++ snd (ticks m (fst (ticks n c)))).
Proof.
  induction n as [|n IH]; intros c.
  - cbn. destruct (ticks m c); reflexivity.
  - cbn [Nat.add ticks]. destruct (_tick c) as [c1 out1].
    rewrite IH. destruct (ticks n c1) as [c2 out2]. cbn.
    destruct (ticks m c2) as [c3 out3]. cbn. now rewrite app_assoc.
Qed.

(** Exactly [remaining_seconds] ticks complete the countdown and emit
    the completion events once, at the end. *)
Lemma ticks_to_end (c : t) (tm : Z) :
  0 < remaining_seconds c ->
  total_minutes c = Some tm ->
  ticks (Z.to_nat (remaining_seconds c)) c
  = (set_remaining c false 0, completion_events c tm).
Proof.
  intros Hpos Htm.
  replace (Z.to_nat (remaining_seconds c))
    with (Z.to_nat (remaining_seconds c - 1) + 1)%nat by lia.
  rewrite ticks_app.
  rewrite (ticks_before_end (Z.to_nat (remaining_seconds c - 1)) c) by lia.
  cbn [fst snd ticks].
  rewrite (tick_last _ tm); [| cbn; lia | exact Htm].
  cbn [fst snd app]. rewrite app_nil_r. reflexivity.
Qed.

Lemma start_state (c : t) :
  timer c = false ->
  0 < _get_active_total_seconds c ->
  let total := _get_active_total_seconds c in
  let c1 := fst (start c) in
  snd (start c) = []
  /\ remaining_seconds c1 = total
  /\ total_seconds c1 = total
  /\ total_minutes c1 = Some (Z.max 1 (total / 60))
  /\ timer c1 = true
  /\ _paused c1 = Some false
  /\ label c1 = label c
  /\ notify_cb c1 = notify_cb c.
Proof.
  intros Ht Hpos. unfold start. rewrite Ht.
  destruct (Z.leb_spec (_get_active_total_seconds c) 0) as [Hle|Hgt]; [lia|].
  cbn. repeat split.
Qed.

End CountdownRun.

Section CountdownClaims.

Import CountdownWidget.

(** The run of a countdown: [start], then as many ticks as the
    configured duration has seconds. *)
Lemma full_run (c : t) :
  timer c = false ->
  0 < _get_active_total_seconds c ->
  let total := _get_active_total_seconds c in
  let c1 := fst (start c) in
  ticks (Z.to_nat total) c1
  = (set_remaining c1 false 0, completion_events c (Z.max 1 (total / 60))).
Proof.
  intros Ht Hpos total c1.
  destruct (start_state c Ht Hpos) as (_ & Hr & _ & Htm & _ & _ & Hl & Hn).
  fold c1 in Hr, Htm, Hl, Hn. fold total in Hr, Htm.
  replace (Z.to_nat total) with (Z.to_nat (remaining_seconds c1))
    by now rewrite Hr.
  rewrite (ticks_to_end c1 (Z.max 1 (total / 60)));
    [| rewrite Hr; exact Hpos | exact Htm].
  unfold completion_events. rewrite Hl, Hn. reflexivity.
Qed.

(** C3 (as stated, refuted).  A countdown configured to 00:00:30 and run
    to its end does not emit a completion event carrying
    30 // 60 = 0 minutes: the event carries 1. *)
Lemma countdown_30s_emits_one_minute :
  let total := _get_active_total_seconds Samples.timer_30s in
  let out := snd (ticks (Z.to_nat total) (fst (start Samples.timer_30s))) in
  total = 30
  /\ ~ In (OnComplete (total / 60)) out
  /\ In (OnComplete 1) out.
Proof.
  vm_compute. split; [reflexivity|]. split.
  - intros [H|[H|[H|[]]]]; discriminate.
  - left. reflexivity.
Qed.

(** C3 (amended).  For every countdown configured to a positive total of
    [total] seconds and started, the completion event emitted by the
    tick that finishes it carries max(1, total // 60) minutes: the floor
    of total/60 with a minimum of 1, so a configuration under 60 seconds
    emits 1. *)
Theorem countdown_completion_minutes (c : t) :
  timer c = false ->
  0 < _get_active_total_seconds c ->
  let total := _get_active_total_seconds c in
  let out := snd (ticks (Z.to_nat total) (fst (start c))) in
  filter is_on_complete out = [OnComplete (Z.max 1 (total / 60))]
  /\ (60 <= total -> Z.max 1 (total / 60) = total / 60)
  /\ (total < 60 -> Z.max 1 (total / 60) = 1).
Proof.
  intros Ht Hpos total out.
  pose proof (full_run c Ht Hpos) as R. cbv zeta in R. fold total in R.
  subst out. rewrite R. cbn [snd]. split; [|split].
  - unfold completion_events. cbn. now destruct (notify_cb c).
  - intros Hge.
    assert (1 <= total / 60) by (apply Z.div_le_lower_bound; lia). lia.
  - intros Hlt. rewrite Z.div_small; [reflexivity | unfold total in *; lia].
Qed.

Lemma countdown_completion_minutes_witness :
  filter is_on_complete
    (snd (ticks (Z.to_nat (_get_active_total_seconds Samples.timer_30s))
                (fst (start Samples.timer_30s))))
  = [OnComplete 1].
Proof.
  exact (proj1 (countdown_completion_minutes Samples.timer_30s
                  eq_refl eq_refl)).
Defined.

(** C5.  For every countdown started with a positive configured total of
    [total] seconds, [total] ticks leave it completed: no time remaining,
    the periodic timer stopped, not paused.  The completion callback is
    invoked exactly once in the whole run, by the last tick: any smaller
    number of ticks emits nothing and leaves the timer running with the
    seconds not yet counted. *)
Theorem countdown_completes_once (c : t) :
  timer c = false ->
  0 < _get_active_total_seconds c ->
  let total := _get_active_total_seconds c in
  let c1 := fst (start c) in
  let done := ticks (Z.to_nat total) c1 in
  remaining_seconds (fst done) = 0
  /\ timer (fst done) = false
  /\ _paused (fst done) = Some false
  /\ List.length (filter is_on_complete (snd done)) = 1%nat
  /\ (forall n, (n < Z.to_nat total)%nat ->
        snd (ticks n c1) = []
        /\ timer (fst (ticks n c1)) = true
        /\ remaining_seconds (fst (ticks n c1)) = total - Z.of_nat n).
Proof.
  intros Ht Hpos total c1 done.
  destruct (start_state c Ht Hpos) as (_ & Hr & _ & _ & Hact & Hp & _ & _).
  fold c1 in Hr, Hact, Hp. fold total in Hr.
  pose proof (full_run c Ht Hpos) as R. cbv zeta in R.
  fold total in R. fold c1 in R.
  subst done. rewrite R. cbn [fst snd].
  repeat split.
  - exact Hp.
  - unfold completion_events. cbn. now destruct (notify_cb c).
  - rewrite ticks_before_end by lia. reflexivity.
  - rewrite ticks_before_end by lia. cbn. exact Hact.
  - rewrite ticks_before_end by lia. cbn. lia.
Qed.

Lemma countdown_completes_once_witness :
  let done := ticks (Z.to_nat (_get_active_total_seconds Samples.timer30))
                    (fst (start Samples.timer30)) in
  remaining_seconds (fst done) = 0
  /\ timer (fst done) = false
  /\ List.length (filter is_on_complete (snd done)) = 1%nat.
Proof.
  destruct (countdown_completes_once Samples.timer30 eq_refl eq_refl)
    as (H1 & H2 & _ & H4 & _).
  exact (conj H1 (conj H2 H4)).
Defined.

End CountdownClaims.

(** ** Pause toggles *)

(** C4 (as stated, refuted).  On a stopwatch that was never started the
    toggle is not a no-op: it starts the periodic timer. *)
Lemma stopwatch_toggle_idle_starts :
  StopwatchWidget.timer StopwatchWidget.init = false
  /\ fst (StopwatchWidget.toggle_pause StopwatchWidget.init)
     <> StopwatchWidget.init
  /\ StopwatchWidget.timer
       (fst (StopwatchWidget.toggle_pause StopwatchWidget.init)) = true.
Proof. repeat split. discriminate. Qed.

(** C4 (amended).  On a countdown whose timer is not active and whose
    paused flag is False (idle after a reset or a saved edit, or
    completed) the toggle is a no-op: the countdown is unchanged, the
    timer is not started and nothing is emitted.  On a stopwatch whose
    timer is not active the toggle starts the timer and keeps the
    elapsed count. *)
Theorem toggle_pause_when_stopped
    (c : CountdownWidget.t) (w : StopwatchWidget.t) :
  CountdownWidget.timer c = false ->
  CountdownWidget._paused c = Some false ->
  StopwatchWidget.timer w = false ->
  CountdownWidget.toggle_pause c = (c, [])
  /\ StopwatchWidget.toggle_pause w
     = (StopwatchWidget.mk (StopwatchWidget.elapsed_seconds w) true PauseGlyph,
        []).
Proof.
  intros Hc Hp Hw. split.
  - unfold CountdownWidget.toggle_pause. now rewrite Hc, Hp.
  - unfold StopwatchWidget.toggle_pause. now rewrite Hw.
Qed.

Lemma toggle_pause_when_stopped_witness :
  let completed :=
    fst (CountdownWidget.ticks 30
           (fst (CountdownWidget.start Samples.timer_30s))) in
  CountdownWidget.remaining_seconds completed = 0
  /\ CountdownWidget.toggle_pause completed = (completed, [])
  /\ StopwatchWidget.toggle_pause StopwatchWidget.init
     = (StopwatchWidget.mk 0 true PauseGlyph, []).
Proof.
  intros completed. split; [reflexivity|].
  apply (toggle_pause_when_stopped completed StopwatchWidget.init);
    reflexivity.
Defined.

(** A countdown that was reset, one whose edit was saved and one whose
    last second was just counted after a start all have an inactive
    timer and a paused flag that is False. *)
Lemma countdown_idle_and_completed_are_stopped (c : CountdownWidget.t) :
  let stopped x :=
    CountdownWidget.timer x = false
    /\ CountdownWidget._paused x = Some false in
  stopped (fst (CountdownWidget.reset c))
  /\ (forall h m s, 0 < h * 3600 + m * 60 + s ->
        stopped (CountdownWidget.apply_time c (h, m, s)))
  /\ (CountdownWidget._paused c = Some false ->
      CountdownWidget.remaining_seconds c <= 1 ->
      stopped (fst (CountdownWidget._tick c))).
Proof.
  cbn. split; [now split|]. split.
  - intros h m s Hpos.
    destruct (Z.gtb_spec (h * 3600 + m * 60 + s) 0); [now split | lia].
  - intros Hp Hr. unfold CountdownWidget._tick.
    destruct (Z.leb_spec (CountdownWidget.remaining_seconds c - 1) 0); [|lia].
    now split.
Qed.

(** ** Stopwatch: finishing *)

Lemma log_session_returns (sid m : Z) (when : option PyDatetime.datetime)
    (now : PyDatetime.datetime) (db : DataStore.database) :
  DataStore.int64 sid = true ->
  DataStore.int64 m = true ->
  DataStore.session_seq db < DataStore.INT64_MAX ->
  DataStore.log_session sid m when now db
  = inr (DataStore.mk_db
           (DataStore.subjects db)
           (DataStore.sessions db
              ++ [DataStore.mk_session (DataStore.session_seq db + 1) sid m
                    (PyDatetime.isoformat
                       (match when with Some t => t | None => now end))])
           (DataStore.chapters db)
           (DataStore.session_seq db + 1)).
Proof.
  intros Hs Hm Hq.
  unfold DataStore.log_session, DataStore.sql_insert_session,
    DataStore.bind_int, DataStore.autoincrement.
  rewrite Hs, Hm. cbn [bind DataStore._connect DataStore.foreign_keys andb].
  destruct (Z.leb_spec DataStore.INT64_MAX (DataStore.session_seq db)); [lia|].
  reflexivity.
Qed.

Lemma ceil_div_int64 (secs : Z) :
  0 < secs <= 60 * 2 ^ 48 ->
  1 <= ceil_div secs 60 /\ DataStore.int64 (ceil_div secs 60) = true.
Proof.
  intros Hs. pose proof (ceil_div_bounds secs) as B.
  change (2 ^ 48) with 281474976710656 in Hs.
  unfold DataStore.int64, DataStore.INT64_MIN, DataStore.INT64_MAX.
  split; [lia|]. apply andb_true_iff. split; apply Z.leb_le; lia.
Qed.

Lemma log_stopwatch_row (secs sid : Z) (now : PyDatetime.datetime)
    (v : StudyView.t) :
  StudyView.subject_id v = Some sid ->
  sid <> 0 ->
  DataStore.int64 sid = true ->
  DataStore.session_seq (StudyView.store v) < DataStore.INT64_MAX ->
  0 < secs <= 60 * 2 ^ 48 ->
  StudyView._log_stopwatch secs now v
  = (StudyView.with_store v
       (DataStore.mk_db
          (DataStore.subjects (StudyView.store v))
          (DataStore.sessions (StudyView.store v)
             ++ [DataStore.mk_session
                   (DataStore.session_seq (StudyView.store v) + 1) sid
                   (ceil_div secs 60) (PyDatetime.isoformat now)])
          (DataStore.chapters (StudyView.store v))
          (DataStore.session_seq (StudyView.store v) + 1)),
     []).
Proof.
  intros Hsid Hnz Hi Hq Hs. unfold StudyView._log_stopwatch. rewrite Hsid.
  destruct (Z.eqb_spec sid 0) as [|_]; [contradiction|].
  rewrite ceil_minutes_f64_exact by lia.
  destruct (ceil_div_int64 secs Hs) as [H1 H2].
  rewrite Z.max_r by exact H1.
  rewrite (log_session_returns sid _ _ _ _ Hi H2 Hq). reflexivity.
Qed.

(** C7 (as stated, refuted).  The minutes are computed through a
    binary64 quotient, which cannot tell 60 * 2^48 + 1 seconds from
    60 * 2^48: [finish] hands that count to the callback, which logs
    2^48 minutes, one less than ceil(elapsed/60).  It is the least count
    for which this happens. *)
Lemma stopwatch_minutes_huge_count :
  let secs := 16888498602639361 in
  secs = 60 * 2 ^ 48 + 1
  /\ snd (StopwatchWidget.finish (StopwatchWidget.mk secs true PauseGlyph))
     = [OnFinish secs]
  /\ map DataStore.session_minutes
       (DataStore.sessions
          (StudyView.store
             (fst (StudyView._log_stopwatch secs Samples.noon Samples.view))))
     = [30; 45; 281474976710656]
  /\ ceil_div secs 60 = 281474976710657.
Proof. vm_compute. repeat split. Qed.

(** C7 (amended).  For every elapsed count, [finish] stops the timer and
    resets the elapsed count to 0, and it invokes the completion
    callback if and only if the captured count was positive.  For every
    count up to 60 * 2^48 seconds the callback then logs
    ceil(elapsed/60) minutes (the least m with elapsed <= 60 m): 1 minute
    for 1 to 60 seconds, 3 minutes for 125 seconds.  The subject id is a
    nonzero 64-bit integer and the sessions table is not full. *)
Theorem stopwatch_finish_minutes (w : StopwatchWidget.t)
    (v : StudyView.t) (now : PyDatetime.datetime) (sid : Z) :
  StudyView.subject_id v = Some sid ->
  sid <> 0 ->
  DataStore.int64 sid = true ->
  DataStore.session_seq (StudyView.store v) < DataStore.INT64_MAX ->
  let secs := StopwatchWidget.elapsed_seconds w in
  let minutes := ceil_div secs 60 in
  fst (StopwatchWidget.finish w) = StopwatchWidget.mk 0 false PauseGlyph
  /\ (0 < secs <-> In (OnFinish secs) (snd (StopwatchWidget.finish w)))
  /\ (secs <= 0 -> snd (StopwatchWidget.finish w) = [])
  /\ (0 < secs -> snd (StopwatchWidget.finish w) = [OnFinish secs])
  /\ (0 < secs <= 60 * 2 ^ 48 ->
      snd (StudyView._log_stopwatch secs now v) = []
      /\ map DataStore.session_minutes
           (DataStore.sessions
              (StudyView.store (fst (StudyView._log_stopwatch secs now v))))
         = map DataStore.session_minutes
             (DataStore.sessions (StudyView.store v)) ++ [minutes]
      /\ 60 * (minutes - 1) < secs <= 60 * minutes)
  /\ (1 <= secs <= 60 -> minutes = 1)
  /\ (secs = 125 -> minutes = 3).
Proof.
  intros Hsid Hnz Hi Hq secs minutes.
  unfold StopwatchWidget.finish. fold secs. cbn [fst snd].
  split; [reflexivity|]. split; [|split; [|split; [|split; [|split]]]].
  - destruct (Z.gtb_spec secs 0) as [Hgt|Hle]; split; intros H.
    + now left.
    + lia.
    + lia.
    + destruct H.
  - intros Hle. destruct (Z.gtb_spec secs 0); [lia | reflexivity].
  - intros Hpos. destruct (Z.gtb_spec secs 0); [reflexivity | lia].
  - intros Hr.
    rewrite (log_stopwatch_row secs sid now v Hsid Hnz Hi Hq Hr).
    cbn [fst snd StudyView.store StudyView.with_store DataStore.sessions].
    split; [reflexivity|]. split.
    + rewrite map_app. reflexivity.
    + apply ceil_div_bounds.
  - intros Hr. apply ceil_div_unique. lia.
  - intros ->. reflexivity.
Qed.

Lemma stopwatch_finish_minutes_witness :
  fst (StopwatchWidget.finish (StopwatchWidget.mk 125 true PauseGlyph))
  = StopwatchWidget.mk 0 false PauseGlyph
  /\ snd (StopwatchWidget.finish (StopwatchWidget.mk 125 true PauseGlyph))
     = [OnFinish 125]
  /\ map DataStore.session_minutes
       (DataStore.sessions
          (StudyView.store
             (fst (StudyView._log_stopwatch 125 Samples.noon Samples.view))))
     = [30; 45; 3].
Proof.
  destruct (stopwatch_finish_minutes
              (StopwatchWidget.mk 125 true PauseGlyph) Samples.view
              Samples.noon 1 eq_refl ltac:(discriminate) eq_refl eq_refl)
    as (H1 & _ & _ & H4 & H5 & _).
  split; [exact H1|]. split.
  - exact (H4 eq_refl).
  - exact (proj1 (proj2 (H5 ltac:(cbv; split; [reflexivity | discriminate])))).
Defined.

(** ** Countdown: configuring the duration *)

Section Configure.

Import CountdownWidget.

Lemma apply_time_zero (c : t) (h m s : Z) :
  h * 3600 + m * 60 + s <= 0 -> apply_time c (h, m, s) = c.
Proof.
  intros Hz. unfold apply_time.
  destruct (Z.gtb_spec (h * 3600 + m * 60 + s) 0); [lia | reflexivity].
Qed.

Lemma apply_time_positive (c : t) (h m s : Z) :
  0 < h * 3600 + m * 60 + s ->
  let c' := apply_time c (h, m, s) in
  hours c' = h /\ minutes c' = m /\ seconds c' = s
  /\ total_seconds c' = h * 3600 + m * 60 + s
  /\ remaining_seconds c' = h * 3600 + m * 60 + s
  /\ timer c' = false.
Proof.
  intros Hp. unfold apply_time.
  destruct (Z.gtb_spec (h * 3600 + m * 60 + s) 0); [|lia].
  cbn. repeat split.
Qed.

(** C8.  Whatever is typed into the hours, minutes and seconds fields of
    the editor, each committed field is clamped on its own (hours to
    0..23, minutes and seconds to 0..59).  When the dialog is saved with
    a clamped total of zero the countdown is left exactly as it was
    (configured duration, remaining time and timer state); otherwise the
    configured duration and the remaining time both become the clamped
    total. *)
Theorem configure_clamps_and_rejects_zero (c : t) (th tm ts : string) :
  let h := clamp 0 23 (TimerEditDialog.field_value th) in
  let m := clamp 0 59 (TimerEditDialog.field_value tm) in
  let s := clamp 0 59 (TimerEditDialog.field_value ts) in
  let total := h * 3600 + m * 60 + s in
  let c' := fst (open_editor (commit_all th tm ts) true c) in
  TimerEditDialog.result_time
    (commit_all th tm ts (TimerEditDialog.init (hours c) (minutes c) (seconds c)))
  = (h, m, s)
  /\ (0 <= h <= 23 /\ 0 <= m <= 59 /\ 0 <= s <= 59)
  /\ (total = 0 -> c' = c)
  /\ (total <> 0 ->
      _get_active_total_seconds c' = total
      /\ total_seconds c' = total
      /\ remaining_seconds c' = total).
Proof.
  intros h m s total c'.
  assert (Hr : 0 <= h <= 23 /\ 0 <= m <= 59 /\ 0 <= s <= 59).
  { subst h m s. repeat split; apply clamp_range; lia. }
  split; [reflexivity|]. split; [exact Hr|].
  assert (Hc : c' = apply_time c (h, m, s)) by reflexivity.
  split.
  - intros Hz. rewrite Hc. apply apply_time_zero. fold total. lia.
  - intros Hnz.
    destruct (apply_time_positive c h m s) as (Hh & Hm & Hs & Ht & Hrem & _).
    { fold total. lia. }
    rewrite Hc. unfold _get_active_total_seconds.
    rewrite Hh, Hm, Hs. auto.
Qed.

End Configure.

Lemma configure_clamps_and_rejects_zero_witness :
  CountdownWidget.remaining_seconds
    (fst (CountdownWidget.open_editor (CountdownWidget.commit_all "99" "75" "07") true
            Samples.timer30))
  = 23 * 3600 + 59 * 60 + 7.
Proof.
  destruct (configure_clamps_and_rejects_zero Samples.timer30 "99" "75" "07")
    as (_ & _ & _ & H).
  exact (proj2 (proj2 (H ltac:(discriminate)))).
Defined.

Example field_value_samples :
  TimerEditDialog.field_value "07" = 7
  /\ TimerEditDialog.field_value " 42 " = 42
  /\ TimerEditDialog.field_value EmptyString = 0
  /\ TimerEditDialog.field_value "1a" = 0.
Proof. repeat split. Qed.

(** ** Progress percentage *)

Lemma percent_agrees_upto_sound (total : Z) (n : nat) :
  percent_agrees_upto n total = true ->
  forall k, (k <= n)%nat ->
    StudyView.percent (Z.of_nat k) total = inr (100 * Z.of_nat k / total).
Proof.
  induction n as [|n IH]; cbn [percent_agrees_upto]; intros Hc k Hk;
    apply andb_prop in Hc; destruct Hc as [Hn Hrest].
  - replace k with 0%nat by lia.
    destruct (StudyView.percent (Z.of_nat 0) total); [discriminate|].
    f_equal. now apply Z.eqb_eq.
  - destruct (Nat.eq_dec k (S n)) as [->|Hne].
    + destruct (StudyView.percent (Z.of_nat (S n)) total); [discriminate|].
      f_equal. now apply Z.eqb_eq.
    + apply IH; [exact Hrest | lia].
Qed.

Lemma percent_agrees_below_sound (n : nat) :
  percent_agrees_below n = true ->
  forall t k, (1 <= t <= n)%nat -> (k <= t)%nat ->
    StudyView.percent (Z.of_nat k) (Z.of_nat t)
    = inr (100 * Z.of_nat k / Z.of_nat t).
Proof.
  induction n as [|n IH]; intros Hc t k Ht Hk; [lia|].
  cbn [percent_agrees_below] in Hc.
  apply andb_prop in Hc. destruct Hc as [Hn Hrest].
  destruct (Nat.eq_dec t (S n)) as [->|Hne].
  - now apply (percent_agrees_upto_sound _ (S n)).
  - apply IH; [exact Hrest | lia | exact Hk].
Qed.

(** With fewer than 50 chapters the displayed percentage is the exact
    floor of 100 done / total. *)
Lemma percent_exact_below_50 (done total : nat) :
  (1 <= total < 50)%nat -> (done <= total)%nat ->
  StudyView.percent (Z.of_nat done) (Z.of_nat total)
  = inr (100 * Z.of_nat done / Z.of_nat total).
Proof.
  intros Ht Hd.
  apply (percent_agrees_below_sound 49); [vm_compute; reflexivity | lia | exact Hd].
Qed.

(** C9 (evaluation of the code at the failing input).  With 29 chapters
    done out of 50 the exact percentage is floor(100 * 29 / 50) = 58, but
    the indicator shows 57: 29 / 50 and its product with 100 are rounded
    to binary64 and the product falls just below 58.  The two examples of
    the claim do hold: no chapters shows 0 and 1 done of 4 shows 25. *)
Theorem progress_29_of_50_shows_57 :
  let items := Samples.checklist 29 50 in
  List.length items = 50%nat
  /\ List.length (filter StudyView.item_checked items) = 29%nat
  /\ 100 * 29 / 50 = 58
  /\ shown (StudyView._update_progress (Samples.view_with items)) = Some 57
  /\ shown (StudyView._update_progress (Samples.view_with [])) = Some 0
  /\ shown (StudyView._update_progress
              (Samples.view_with (Samples.checklist 1 4))) = Some 25.
Proof. vm_compute. repeat split. Qed.

(** ** Logging sessions *)

Section Logging.

Import CountdownWidget.

Lemma minutes_ok_init lbl mins notify : minutes_ok (init lbl mins notify).
Proof. intros m H. discriminate. Qed.

Lemma minutes_ok_step (o : op) (c : t) :
  minutes_ok c -> minutes_ok (fst (step o c)).
Proof.
  intros Hc. destruct o as [| | | |edit accepted]; cbn [step].
  - unfold start. destruct (_ || _); [exact Hc|].
    intros m H. cbn in H. injection H as <-. lia.
  - exact Hc.
  - unfold toggle_pause. destruct (timer c); [exact Hc|].
    destruct (_paused c) as [[|]|]; exact Hc.
  - unfold _tick. destruct (_ <=? _); exact Hc.
  - unfold open_editor. destruct accepted; [|exact Hc].
    cbn [fst]. unfold apply_time.
    destruct (TimerEditDialog.result_time _) as [[h m'] s].
    destruct (_ >? _); [|exact Hc].
    intros m H. cbn in H. injection H as <-. lia.
Qed.

Lemma step_on_complete (o : op) (c : t) (m : Z) :
  In (OnComplete m) (snd (step o c)) -> total_minutes c = Some m.
Proof.
  destruct o as [| | | |edit accepted]; cbn [step].
  - unfold start. destruct (_ || _); intros [].
  - intros [].
  - unfold toggle_pause. destruct (timer c); [intros []|].
    destruct (_paused c) as [[|]|]; cbn; intros H;
      try destruct H as [H|[]]; try discriminate; destruct H.
  - unfold _tick. destruct (_ <=? _); [|intros []].
    destruct (total_minutes c) as [tm|]; cbn.
    + intros [H|[H|H]]; [now injection H as -> | discriminate |].
      destruct (notify_cb c); [destruct H as [H|[]]; discriminate | destruct H].
    + intros [H|[]]. discriminate.
  - unfold open_editor. destruct accepted; intros [].
Qed.

(** Whatever is done to a countdown, every completion it reports carries
    at least one minute. *)
Lemma run_on_complete_positive (ops : list op) :
  forall c m,
    minutes_ok c -> In (OnComplete m) (snd (run ops c)) -> 1 <= m.
Proof.
  induction ops as [|o ops IH]; intros c m Hc Hin; [destruct Hin|].
  cbn [run] in Hin.
  pose proof (minutes_ok_step o c Hc) as Hc1.
  pose proof (step_on_complete o c m) as Hs.
  destruct (step o c) as [c1 out1]. cbn [fst snd] in Hc1, Hs.
  specialize (IH c1 m Hc1).
  destruct (run ops c1) as [c2 out2]. cbn [snd] in Hin, IH.
  apply in_app_or in Hin. destruct Hin as [Hin|Hin]; [|auto].
  apply Hc. auto.
Qed.

End Logging.

(** C10 (as stated, refuted).  Not every integer is stored: the
    sessions table holds 64-bit integers, and for 2^63 minutes the
    binding raises [OverflowError] and nothing is inserted. *)
Lemma log_session_rejects_huge_minutes :
  9223372036854775808 = 2 ^ 63
  /\ DataStore.log_session 1 9223372036854775808 None Samples.noon
       Samples.one_subject
     = inl OverflowError
  /\ StudyView._log_session 9223372036854775808 Samples.noon Samples.view
     = (Samples.view, [Raise OverflowError]).
Proof. repeat split. Qed.

(** C10 (amended).  [log_session] does not validate its minutes
    argument: for every 64-bit integer m (zero and negative ones too) it
    appends a session row with minutes exactly m and raises nothing,
    when the subject id is a 64-bit integer as well and the table is not
    full.  That stored sessions are positive comes from the callers
    alone: every completion a countdown reports, whatever is done to it,
    carries at least 1 minute, which [_log_session] passes on unchanged;
    every row [_log_stopwatch] adds carries max(1, ...) minutes; and
    [finish] on a stopwatch that counted nothing reports nothing. *)
Theorem log_session_stores_any_minutes
    (sid m : Z) (when : option PyDatetime.datetime)
    (now : PyDatetime.datetime) (db : DataStore.database) :
  DataStore.INT64_MIN <= m <= DataStore.INT64_MAX ->
  DataStore.INT64_MIN <= sid <= DataStore.INT64_MAX ->
  DataStore.session_seq db < DataStore.INT64_MAX ->
  DataStore.log_session sid m when now db
  = inr (DataStore.mk_db
           (DataStore.subjects db)
           (DataStore.sessions db
              ++ [DataStore.mk_session (DataStore.session_seq db + 1) sid m
                    (PyDatetime.isoformat
                       (match when with Some t => t | None => now end))])
           (DataStore.chapters db)
           (DataStore.session_seq db + 1))
  /\ (forall v, StudyView.subject_id v = Some sid -> sid <> 0 ->
        DataStore.session_seq (StudyView.store v) < DataStore.INT64_MAX ->
        StudyView._log_session m now v
        = (StudyView.with_store v
             (DataStore.mk_db
                (DataStore.subjects (StudyView.store v))
                (DataStore.sessions (StudyView.store v)
                   ++ [DataStore.mk_session
                         (DataStore.session_seq (StudyView.store v) + 1)
                         sid m (PyDatetime.isoformat now)])
                (DataStore.chapters (StudyView.store v))
                (DataStore.session_seq (StudyView.store v) + 1)),
           []))
  /\ (forall ops lbl mins notify reported,
        In (OnComplete reported)
           (snd (CountdownWidget.run ops (CountdownWidget.init lbl mins notify))) ->
        1 <= reported)
  /\ (forall secs utcnow v r,
        In r (DataStore.sessions
                (StudyView.store
                   (fst (StudyView._log_stopwatch secs utcnow v)))) ->
        In r (DataStore.sessions (StudyView.store v))
        \/ 1 <= DataStore.session_minutes r)
  /\ (forall w, StopwatchWidget.elapsed_seconds w = 0 ->
        snd (StopwatchWidget.finish w) = []).
Proof.
  intros Hm Hs Hq.
  assert (Im : DataStore.int64 m = true).
  { unfold DataStore.int64. apply andb_true_iff. split; apply Z.leb_le; lia. }
  assert (Is : DataStore.int64 sid = true).
  { unfold DataStore.int64. apply andb_true_iff. split; apply Z.leb_le; lia. }
  split; [now apply log_session_returns|]. split; [|split; [|split]].
  - intros v Hsid Hnz Hqv. unfold StudyView._log_session. rewrite Hsid.
    destruct (Z.eqb_spec sid 0) as [|_]; [contradiction|].
    now rewrite (log_session_returns sid m (Some now) now _ Is Im Hqv).
  - intros ops lbl mins notify reported.
    apply run_on_complete_positive, minutes_ok_init.
  - intros secs utcnow v r. unfold StudyView._log_stopwatch.
    destruct (StudyView.subject_id v) as [k|]; [|now left].
    destruct (k =? 0); [now left|].
    destruct (StudyView.ceil_minutes_f64 secs) as [e|c]; [now left|].
    unfold DataStore.log_session, DataStore.sql_insert_session,
      DataStore.bind_int, DataStore.autoincrement.
    destruct (DataStore.int64 k); cbn [bind]; [|now left].
    destruct (DataStore.int64 (Z.max 1 c)); cbn [bind]; [|now left].
    cbn [DataStore._connect DataStore.foreign_keys andb].
    destruct (_ <=? _); cbn [bind StudyView.store_call fst]; [now left|].
    cbn [StudyView.store StudyView.with_store DataStore.sessions].
    intros Hin. apply in_app_or in Hin. destruct Hin as [Hin|[<-|[]]].
    + now left.
    + right. cbn. lia.
  - intros w Hw. unfold StopwatchWidget.finish. now rewrite Hw.
Qed.

Lemma log_session_stores_any_minutes_witness :
  map DataStore.session_minutes
    (DataStore.sessions
       (StudyView.store (fst (StudyView._log_session (-5) Samples.noon Samples.view))))
  = [30; 45; -5].
Proof.
  destruct (log_session_stores_any_minutes 1 (-5) None Samples.noon
              Samples.one_subject) as (_ & H & _).
  - cbv. split; discriminate.
  - cbv. split; discriminate.
  - reflexivity.
  - rewrite (H Samples.view eq_refl ltac:(discriminate) eq_refl). reflexivity.
Defined.

(** ** Calendar arithmetic *)

Section CalendarFacts.

Import PyDatetime Calendar.

Lemma check_fields_valid (d : datetime) : check_fields d = true -> valid d.
Proof.
  unfold check_fields, valid. rewrite !andb_true_iff, !Z.leb_le. tauto.
Qed.

Lemma is_leap_spec (y : Z) :
  _is_leap y = true <-> (y mod 4 = 0 /\ (y mod 100 <> 0 \/ y mod 400 = 0)).
Proof.
  unfold _is_leap.
  rewrite andb_true_iff, orb_true_iff, negb_true_iff, !Z.eqb_eq, Z.eqb_neq.
  reflexivity.
Qed.

Lemma days_before_year_succ (y : Z) :
  _days_before_year (y + 1)
  = _days_before_year y + 365 + (if _is_leap y then 1 else 0).
Proof.
  unfold _days_before_year.
  replace (y + 1 - 1) with y by lia.
  destruct (_is_leap y) eqn:E.
  - apply is_leap_spec in E. Z.to_euclidean_division_equations. lia.
  - assert (N : ~ (y mod 4 = 0 /\ (y mod 100 <> 0 \/ y mod 400 = 0))).
    { intros H. apply is_leap_spec in H. congruence. }
    Z.to_euclidean_division_equations. lia.
Qed.

Lemma days_before_year_mono (y1 y2 : Z) :
  y1 <= y2 -> _days_before_year y1 <= _days_before_year y2.
Proof.
  unfold _days_before_year. intros H.
  Z.to_euclidean_division_equations. lia.
Qed.

Lemma days_in_year_bounds (y m d : Z) :
  1 <= m <= 12 -> 1 <= d <= _days_in_month y m ->
  1 <= _days_before_month y m + d <= 365 + (if _is_leap y then 1 else 0).
Proof.
  intros Hm. unfold _days_before_month, _days_in_month.
  generalize (_is_leap y) as leap. intros leap Hd.
  destruct leap; month_cases m; month_tables; lia.
Qed.

Lemma days_in_month_bounds (y m : Z) :
  1 <= m <= 12 -> 28 <= _days_in_month y m <= 31.
Proof.
  intros Hm. unfold _days_in_month. generalize (_is_leap y) as leap.
  intros leap. destruct leap; month_cases m; month_tables; lia.
Qed.

Lemma days_before_month_next (y m1 m2 d : Z) :
  1 <= m1 -> m1 < m2 -> m2 <= 12 -> 1 <= d <= _days_in_month y m1 ->
  _days_before_month y m1 + d <= _days_before_month y m2.
Proof.
  intros H1 H12 H2. unfold _days_before_month, _days_in_month.
  generalize (_is_leap y) as leap. intros leap Hd.
  destruct leap; month_cases m1; month_cases m2; month_tables; lia.
Qed.

(** An earlier date has a smaller ordinal. *)
Lemma ymd2ord_lt (y1 m1 d1 y2 m2 d2 : Z) :
  valid_date y1 m1 d1 -> valid_date y2 m2 d2 ->
  date_compare y1 m1 d1 y2 m2 d2 = Lt ->
  _ymd2ord y1 m1 d1 < _ymd2ord y2 m2 d2.
Proof.
  intros (Hy1 & Hm1 & Hd1) (Hy2 & Hm2 & Hd2).
  unfold date_compare, lex, _ymd2ord.
  destruct (Z.compare_spec y1 y2) as [Ey|Ly|Gy]; [subst y2| |discriminate].
  - destruct (Z.compare_spec m1 m2) as [Em|Lm|Gm]; [subst m2| |discriminate].
    + intros Hc. rewrite Z.compare_lt_iff in Hc. lia.
    + intros _. pose proof (days_before_month_next y1 m1 m2 d1). lia.
  - intros _. pose proof (days_in_year_bounds y1 m1 d1 Hm1 Hd1).
    pose proof (days_in_year_bounds y2 m2 d2 Hm2 Hd2).
    pose proof (days_before_year_succ y1).
    pose proof (days_before_year_mono (y1 + 1) y2). lia.
Qed.

Lemma date_compare_antisym (y1 m1 d1 y2 m2 d2 : Z) :
  date_compare y2 m2 d2 y1 m1 d1 = CompOpp (date_compare y1 m1 d1 y2 m2 d2).
Proof.
  unfold date_compare, lex.
  rewrite (Z.compare_antisym y1 y2), (Z.compare_antisym m1 m2),
    (Z.compare_antisym d1 d2).
  destruct (y1 ?= y2), (m1 ?= m2), (d1 ?= d2); reflexivity.
Qed.

(** Ordinals order valid dates as the calendar does. *)
Lemma ymd2ord_compare (y1 m1 d1 y2 m2 d2 : Z) :
  valid_date y1 m1 d1 -> valid_date y2 m2 d2 ->
  (_ymd2ord y1 m1 d1 ?= _ymd2ord y2 m2 d2) = date_compare y1 m1 d1 y2 m2 d2.
Proof.
  intros V1 V2.
  destruct (date_compare y1 m1 d1 y2 m2 d2) eqn:E.
  - revert E. unfold date_compare, lex.
    destruct (Z.compare_spec y1 y2); try discriminate.
    destruct (Z.compare_spec m1 m2); try discriminate.
    intros E. apply Z.compare_eq in E. subst. apply Z.compare_refl.
  - apply Z.compare_lt_iff. now apply ymd2ord_lt.
  - apply Z.compare_gt_iff. apply ymd2ord_lt; try assumption.
    rewrite date_compare_antisym, E. reflexivity.
Qed.

End CalendarFacts.

Section OrdinalToDate.

Import PyDatetime Calendar.

Lemma month_day_ok_upto_sound (leapyear : bool) (n : nat) :
  month_day_ok_upto leapyear n = true ->
  forall k, 0 <= k <= Z.of_nat n -> month_day_ok leapyear k = true.
Proof.
  induction n as [|n IH]; cbn [month_day_ok_upto]; intros Hc k Hk;
    apply andb_prop in Hc; destruct Hc as [Hn Hrest].
  - now replace k with (Z.of_nat 0) by lia.
  - destruct (Z.eq_dec k (Z.of_nat (S n))) as [->|Hne]; [exact Hn|].
    apply IH; [exact Hrest | lia].
Qed.

(** From the number of a day within its year (counted from 0) the last
    step of [_ord2ymd] finds the month and the day of the month. *)
Lemma month_day_spec (leapyear : bool) (n : Z) :
  0 <= n <= 364 ->
  let '(m, d) := month_day leapyear n in
  1 <= m <= 12
  /\ 1 <= d <= (if (m =? 2) && leapyear then 29 else _DAYS_IN_MONTH m)
  /\ _DAYS_BEFORE_MONTH m + (if (m >? 2) && leapyear then 1 else 0) + d = n + 1.
Proof.
  intros Hn.
  assert (Hok : month_day_ok leapyear n = true).
  { apply (month_day_ok_upto_sound leapyear 364);
      [destruct leapyear; vm_compute; reflexivity | lia]. }
  unfold month_day_ok in Hok. destruct (month_day leapyear n) as [m d].
  rewrite !andb_true_iff, !Z.leb_le, Z.eqb_eq in Hok. lia.
Qed.

(** [_ord2ymd] written with [month_day] for its last step. *)
Lemma ord2ymd_unfold (n : Z) :
  _ord2ymd n =
  let n0 := n - 1 in
  let n400 := n0 / 146097 in
  let r1 := n0 mod 146097 in
  let n100 := r1 / 36524 in
  let r2 := r1 mod 36524 in
  let n4 := r2 / 1461 in
  let r3 := r2 mod 1461 in
  let n1 := r3 / 365 in
  let r4 := r3 mod 365 in
  let year := n400 * 400 + 1 + n100 * 100 + n4 * 4 + n1 in
  if (n1 =? 4) || (n100 =? 4) then (year - 1, 12, 31)
  else
    let leapyear := (n1 =? 3) && (negb (n4 =? 24) || (n100 =? 3)) in
    (year, fst (month_day leapyear r4), snd (month_day leapyear r4)).
Proof.
  unfold _ord2ymd, month_day, _DI400Y, _DI100Y, _DI4Y. cbv zeta.
  destruct (_ || _); [reflexivity|].
  destruct (_ >? _); reflexivity.
Qed.

(** [_ord2ymd] returns a date of the calendar, and that date has the
    ordinal it was computed from. *)
Lemma ord2ymd_spec (n : Z) :
  1 <= n <= _MAXORDINAL ->
  let '(y, m, d) := _ord2ymd n in
  valid_date y m d /\ _ymd2ord y m d = n.
Proof.
  intros Hn. unfold _MAXORDINAL in Hn. rewrite ord2ymd_unfold. cbv zeta.
  set (n0 := n - 1).
  set (a := n0 / 146097). set (r1 := n0 mod 146097).
  set (b := r1 / 36524). set (r2 := r1 mod 36524).
  set (c := r2 / 1461). set (r3 := r2 mod 1461).
  set (e := r3 / 365). set (r4 := r3 mod 365).
  assert (Hdec : n0 = 146097 * a + 36524 * b + 1461 * c + 365 * e + r4
                 /\ 0 <= a <= 24 /\ 0 <= b <= 4 /\ 0 <= c <= 24 /\ 0 <= e <= 4
                 /\ 0 <= r4 <= 364
                 /\ (b = 4 -> c = 0 /\ e = 0 /\ r4 = 0)
                 /\ (e = 4 -> r4 = 0 /\ c <= 23)
                 /\ (a = 24 -> 36524 * b + 1461 * c + 365 * e + r4 <= 145730)).
  { subst a r1 b r2 c r3 e r4 n0. Z.to_euclidean_division_equations. lia. }
  destruct Hdec as (Hn0 & Ha & Hb & Hc & He & Hr4 & Hb4 & He4 & Ha24).
  clearbody a b c e r4. clear r1 r2 r3.
  assert (Hnn : n = 146097 * a + 36524 * b + 1461 * c + 365 * e + r4 + 1)
    by (subst n0; lia).
  clear Hn0. clearbody n0.
  destruct ((e =? 4) || (b =? 4)) eqn:Especial.
  - (* the last day of a leap year *)
    apply orb_true_iff in Especial. rewrite !Z.eqb_eq in Especial.
    set (y := a * 400 + 1 + b * 100 + c * 4 + e - 1).
    assert (Hleap : _is_leap y = true).
    { apply is_leap_spec. subst y. Z.to_euclidean_division_equations. lia. }
    unfold valid_date, _ymd2ord, _days_in_month, _days_before_month,
      _days_before_year, MINYEAR, MAXYEAR.
    rewrite Hleap. month_tables. cbv [Z.leb].
    split; [subst y; lia|].
    subst y. Z.to_euclidean_division_equations. lia.
  - apply orb_false_iff in Especial. rewrite !Z.eqb_neq in Especial.
    set (y := a * 400 + 1 + b * 100 + c * 4 + e).
    set (leapyear := (e =? 3) && (negb (c =? 24) || (b =? 3))).
    assert (Hleap : _is_leap y = leapyear).
    { subst leapyear.
      destruct (Z.eqb_spec e 3), (Z.eqb_spec c 24), (Z.eqb_spec b 3);
        cbn [andb orb negb];
        try (apply is_leap_spec; subst y;
             Z.to_euclidean_division_equations; lia);
        (apply not_true_is_false; intros H; apply is_leap_spec in H;
         subst y; Z.to_euclidean_division_equations; lia). }
    pose proof (month_day_spec leapyear r4 Hr4) as Hmd.
    destruct (month_day leapyear r4) as [m d]. cbn [fst snd].
    destruct Hmd as (Hm & Hd & Hsum).
    unfold valid_date, _ymd2ord, _days_in_month, _days_before_month,
      MINYEAR, MAXYEAR.
    rewrite Hleap. split; [split; [|split; assumption]|].
    + subst y. lia.
    + unfold _days_before_year. subst y.
      Z.to_euclidean_division_equations. lia.
Qed.

End OrdinalToDate.

(** ** ISO 8601 text and the time line *)

Section IsoText.

Import PyDatetime Calendar.

Lemma lex_compare_spec (c rest : comparison) :
  lex c rest = match c with Eq => rest | Lt => Lt | Gt => Gt end.
Proof. destruct c; reflexivity. Qed.

Lemma ascii_compare_refl (c : ascii) : Ascii.compare c c = Eq.
Proof. unfold Ascii.compare. apply N.compare_refl. Qed.

(** Decimal digits are ordered as their characters. *)
Lemma digit_compare (a b : Z) :
  0 <= a <= 9 -> 0 <= b <= 9 ->
  Ascii.compare (digit a) (digit b) = (a ?= b).
Proof.
  intros Ha Hb.
  assert (Ca : a = 0 \/ a = 1 \/ a = 2 \/ a = 3 \/ a = 4 \/ a = 5 \/ a = 6
               \/ a = 7 \/ a = 8 \/ a = 9) by lia.
  assert (Cb : b = 0 \/ b = 1 \/ b = 2 \/ b = 3 \/ b = 4 \/ b = 5 \/ b = 6
               \/ b = 7 \/ b = 8 \/ b = 9) by lia.
  destruct Ca as [->|[->|[->|[->|[->|[->|[->|[->|[->| ->]]]]]]]]];
    destruct Cb as [->|[->|[->|[->|[->|[->|[->|[->|[->| ->]]]]]]]]];
    reflexivity.
Qed.

Lemma digit_mod (n : Z) : digit n = digit (n mod 10).
Proof. unfold digit. now rewrite Z.mod_mod by lia. Qed.

Lemma mod_pow10_succ (w : nat) (n : Z) :
  n mod 10 ^ Z.of_nat (S w)
  = n mod 10 ^ Z.of_nat w + (n / 10 ^ Z.of_nat w) mod 10 * 10 ^ Z.of_nat w.
Proof.
  rewrite Nat2Z.inj_succ, Z.pow_succ_r by lia.
  assert (0 < 10 ^ Z.of_nat w) by (apply Z.pow_pos_nonneg; lia).
  rewrite (Z.mul_comm 10), Z.rem_mul_r by lia. lia.
Qed.

(** [dec w] prints the last [w] digits. *)
Lemma dec_mod (w : nat) : forall n, dec w n = dec w (n mod 10 ^ Z.of_nat w).
Proof.
  induction w as [|w IHw]; intros n; [reflexivity|].
  assert (HQ : 0 < 10 ^ Z.of_nat w) by (apply Z.pow_pos_nonneg; lia).
  cbn [dec]. rewrite mod_pow10_succ. f_equal.
  - rewrite (digit_mod (n / _)), Z.div_add by lia.
    rewrite (Z.div_small (n mod _)) by (apply Z.mod_pos_bound; lia).
    reflexivity.
  - rewrite IHw, (IHw (_ + _)), Z.mod_add, Z.mod_mod by lia.
    reflexivity.
Qed.

(** Two numbers printed with the same number of digits compare as text
    the way they compare as numbers; on a tie the comparison moves on to
    what follows them. *)
Lemma dec_compare (w : nat) :
  forall a b s1 s2,
    0 <= a < 10 ^ Z.of_nat w -> 0 <= b < 10 ^ Z.of_nat w ->
    String.compare (dec w a ++ s1) (dec w b ++ s2)
    = lex (a ?= b) (String.compare s1 s2).
Proof.
  induction w as [|w IH]; intros a b s1 s2 Ha Hb.
  - cbn in Ha, Hb. replace a with 0 by lia. replace b with 0 by lia.
    reflexivity.
  - rewrite Nat2Z.inj_succ, Z.pow_succ_r in Ha, Hb by lia.
    set (P := 10 ^ Z.of_nat w) in *.
    assert (HP : 0 < P) by (apply Z.pow_pos_nonneg; lia).
    cbn [dec append String.compare]. fold P.
    assert (Hqa : 0 <= a / P <= 9).
    { split; [apply Z.div_pos; lia|].
      apply Z.lt_succ_r, Z.div_lt_upper_bound; lia. }
    assert (Hqb : 0 <= b / P <= 9).
    { split; [apply Z.div_pos; lia|].
      apply Z.lt_succ_r, Z.div_lt_upper_bound; lia. }
    rewrite digit_compare by assumption.
    assert (Ea := Z.div_mod a P ltac:(lia)).
    assert (Eb := Z.div_mod b P ltac:(lia)).
    assert (Ra := Z.mod_pos_bound a P HP).
    assert (Rb := Z.mod_pos_bound b P HP).
    rewrite (dec_mod w a), (dec_mod w b). fold P.
    rewrite IH by assumption.
    unfold lex.
    destruct (Z.compare_spec (a / P) (b / P)) as [Hq|Hq|Hq].
    + rewrite Hq in Ea.
      destruct (Z.compare_spec (a mod P) (b mod P)) as [Hr|Hr|Hr].
      * replace a with b by lia. now rewrite Z.compare_refl.
      * replace (a ?= b) with Lt; [reflexivity|].
        symmetry. apply Z.compare_lt_iff. lia.
      * replace (a ?= b) with Gt; [reflexivity|].
        symmetry. apply Z.compare_gt_iff. lia.
    + replace (a ?= b) with Lt; [reflexivity|].
      symmetry. apply Z.compare_lt_iff. nia.
    + replace (a ?= b) with Gt; [reflexivity|].
      symmetry. apply Z.compare_gt_iff. nia.
Qed.

Lemma append_empty_r (s : string) : (s ++ EmptyString)%string = s.
Proof. induction s as [|c s IH]; cbn; [reflexivity | now rewrite IH]. Qed.

Lemma sep_compare (c : ascii) (s1 s2 : string) :
  String.compare (String c s1) (String c s2) = String.compare s1 s2.
Proof. cbn [String.compare]. now rewrite ascii_compare_refl. Qed.

Lemma sep_app_compare (c : ascii) (s1 s2 : string) :
  String.compare (String c EmptyString ++ s1) (String c EmptyString ++ s2)
  = String.compare s1 s2.
Proof. cbn [append]. apply sep_compare. Qed.

(** The optional fraction: absent for 0 microseconds, so it sorts first. *)
Lemma fraction_compare (u1 u2 : Z) :
  0 <= u1 <= 999999 -> 0 <= u2 <= 999999 ->
  String.compare (if u1 =? 0 then EmptyString else "." ++ dec 6 u1)
                 (if u2 =? 0 then EmptyString else "." ++ dec 6 u2)
  = (u1 ?= u2).
Proof.
  intros H1 H2.
  destruct (Z.eqb_spec u1 0) as [->|N1], (Z.eqb_spec u2 0) as [->|N2].
  - reflexivity.
  - cbn [append String.compare]. symmetry. apply Z.compare_lt_iff. lia.
  - cbn [append String.compare]. symmetry. apply Z.compare_gt_iff. lia.
  - cbn [append]. rewrite sep_compare.
    rewrite <- (append_empty_r (dec 6 u1)), <- (append_empty_r (dec 6 u2)).
    rewrite (dec_compare 6) by (change (10 ^ Z.of_nat 6) with 1000000; lia).
    cbn [String.compare]. unfold lex. now destruct (u1 ?= u2).
Qed.

(** ISO texts of valid datetimes compare the way their fields do. *)
Lemma isoformat_compare (a b : datetime) :
  valid a -> valid b ->
  String.compare (isoformat a) (isoformat b) = fields_compare a b.
Proof.
  intros (Hy1 & Hm1 & Hd1 & Hh1 & Hmi1 & Hs1 & Hu1)
         (Hy2 & Hm2 & Hd2 & Hh2 & Hmi2 & Hs2 & Hu2).
  pose proof (days_in_month_bounds (year a) (month a) Hm1).
  pose proof (days_in_month_bounds (year b) (month b) Hm2).
  unfold MINYEAR, MAXYEAR in *.
  unfold isoformat, fields_compare.
  rewrite (dec_compare 4) by (change (10 ^ Z.of_nat 4) with 10000; lia).
  f_equal.
  do 5 (rewrite sep_app_compare, (dec_compare 2)
          by (change (10 ^ Z.of_nat 2) with 100; lia); f_equal).
  apply fraction_compare; assumption.
Qed.

(** Field by field, valid datetimes compare as their instants do. *)
Lemma fields_compare_instant (a b : datetime) :
  valid a -> valid b ->
  fields_compare a b = (instant a ?= instant b).
Proof.
  intros (Hy1 & Hm1 & Hd1 & Hh1 & Hmi1 & Hs1 & Hu1)
         (Hy2 & Hm2 & Hd2 & Hh2 & Hmi2 & Hs2 & Hu2).
  pose proof (ymd2ord_compare (year a) (month a) (day a)
                (year b) (month b) (day b)
                (conj Hy1 (conj Hm1 Hd1)) (conj Hy2 (conj Hm2 Hd2))) as Hord.
  assert (E : fields_compare a b
              = lex (date_compare (year a) (month a) (day a)
                       (year b) (month b) (day b))
                  (lex (hour a ?= hour b)
                     (lex (minute a ?= minute b)
                        (lex (second a ?= second b)
                           (microsecond a ?= microsecond b))))).
  { unfold fields_compare, date_compare, lex.
    destruct (year a ?= year b), (month a ?= month b), (day a ?= day b);
      reflexivity. }
  rewrite E, <- Hord. clear E Hord.
  unfold instant, toordinal.
  set (oa := _ymd2ord (year a) (month a) (day a)).
  set (ob := _ymd2ord (year b) (month b) (day b)).
  clearbody oa ob. unfold lex.
  destruct (Z.compare_spec oa ob);
    [destruct (Z.compare_spec (hour a) (hour b));
     [destruct (Z.compare_spec (minute a) (minute b));
      [destruct (Z.compare_spec (second a) (second b));
       [destruct (Z.compare_spec (microsecond a) (microsecond b))|..]|..]|..]|..];
    symmetry;
    first [ apply Z.compare_eq_iff; lia
          | apply Z.compare_lt_iff; lia
          | apply Z.compare_gt_iff; lia ].
Qed.

(** The comparisons the queries make on ISO texts are comparisons of
    instants. *)
Lemma text_ge_instant (a b : datetime) :
  valid a -> valid b ->
  DataStore.text_ge (isoformat a) (isoformat b) = (instant b <=? instant a).
Proof.
  intros Va Vb. unfold DataStore.text_ge, String.leb.
  rewrite (isoformat_compare b a Vb Va), (fields_compare_instant b a Vb Va).
  unfold Z.leb. now destruct (instant b ?= instant a).
Qed.

Lemma text_lt_instant (a b : datetime) :
  valid a -> valid b ->
  DataStore.text_lt (isoformat a) (isoformat b) = (instant a <? instant b).
Proof.
  intros Va Vb. unfold DataStore.text_lt, String.ltb.
  rewrite (isoformat_compare a b Va Vb), (fields_compare_instant a b Va Vb).
  unfold Z.ltb. now destruct (instant a ?= instant b).
Qed.

End IsoText.

(** ** Statistics *)

Section Statistics.

Import PyDatetime Calendar DataStore SessionLog.

Lemma instant_midnight (y m d : Z) :
  instant (midnight y m d) = day_start (_ymd2ord y m d).
Proof. unfold instant, midnight, toordinal, day_start, one_day. cbn. lia. Qed.

Lemma valid_midnight (y m d : Z) : valid_date y m d -> valid (midnight y m d).
Proof. intros (Hy & Hm & Hd). unfold valid, midnight. cbn. lia. Qed.

(** Adding days moves the ordinal and keeps the time of day. *)
Lemma add_days_spec (d : datetime) (k : Z) :
  valid d -> 1 <= toordinal d + k <= _MAXORDINAL ->
  exists d',
    add_days d k = inr d'
    /\ valid d'
    /\ toordinal d' = toordinal d + k
    /\ hour d' = hour d /\ minute d' = minute d
    /\ second d' = second d /\ microsecond d' = microsecond d.
Proof.
  intros (_ & _ & _ & Hh & Hmi & Hs & Hu) Hk. unfold add_days.
  destruct (Z.ltb_spec 0 (toordinal d + k)); [|lia].
  destruct (Z.leb_spec (toordinal d + k) _MAXORDINAL); [|lia].
  cbn [andb].
  pose proof (ord2ymd_spec (toordinal d + k) Hk) as Hspec.
  destruct (_ord2ymd (toordinal d + k)) as [[y m] dd].
  destruct Hspec as ((Hy & Hm & Hd) & Hord).
  eexists. split; [reflexivity|].
  unfold valid, toordinal. cbn. repeat split; try lia; exact Hord.
Qed.

Lemma add_days_midnight (y m d k : Z) :
  valid_date y m d -> 1 <= _ymd2ord y m d + k <= _MAXORDINAL ->
  exists y' m' d',
    add_days (midnight y m d) k = inr (midnight y' m' d')
    /\ valid_date y' m' d'
    /\ _ymd2ord y' m' d' = _ymd2ord y m d + k.
Proof.
  intros V Hk.
  destruct (add_days_spec (midnight y m d) k (valid_midnight y m d V) Hk)
    as (d' & E & (Hy & Hm & Hd & _) & Hord & Hh & Hmi & Hs & Hu).
  exists (year d'), (month d'), (day d').
  split; [|split; [exact (conj Hy (conj Hm Hd)) | exact Hord]].
  rewrite E. f_equal. destruct d'. cbn in *. subst. reflexivity.
Qed.

(** Years 2 to 9998 keep a year of margin on both sides. *)
Lemma ordinal_margin (y m d : Z) :
  valid_date y m d -> 2 <= y <= 9998 ->
  366 <= _ymd2ord y m d <= _MAXORDINAL - 365.
Proof.
  intros (Hy & Hm & Hd) Hr. unfold _ymd2ord, _MAXORDINAL.
  pose proof (days_in_year_bounds y m d Hm Hd).
  pose proof (days_before_year_succ y).
  pose proof (days_before_year_mono 2 y ltac:(lia)).
  pose proof (days_before_year_mono (y + 1) 9999 ltac:(lia)).
  change (_days_before_year 2) with 365 in *.
  change (_days_before_year 9999) with 3651694 in *.
  lia.
Qed.

Lemma replace_day1_spec (d : datetime) :
  valid d ->
  valid (replace_day1 d)
  /\ toordinal d - 30 <= toordinal (replace_day1 d) <= toordinal d.
Proof.
  intros (Hy & Hm & Hd & Hrest).
  pose proof (days_in_month_bounds (year d) (month d) Hm).
  unfold valid, replace_day1, toordinal, _ymd2ord. cbn. split; [|lia].
  repeat split; try lia; apply Hrest.
Qed.

(** *** The queries and the two loops *)

Lemma magnitude_nonneg (l : list entry) : 0 <= magnitude l.
Proof. induction l as [|e l IH]; cbn [magnitude]; lia. Qed.

(** No sum over rows of the log leaves the 64-bit integers. *)
Lemma sql_sum_selected (keep : session_row -> bool) (pick : entry -> bool)
    (total : list entry -> Z) :
  total [] = 0 ->
  (forall e l, total (e :: l) = (if pick e then entry_minutes e else 0) + total l) ->
  forall rows l,
    Forall2 (fun r e => session_minutes r = entry_minutes e /\ keep r = pick e)
            rows l ->
    forall acc,
      Z.abs acc + magnitude l <= INT64_MAX ->
      sql_sum acc (filter keep rows) = inr (acc + total l).
Proof.
  intros T0 TS rows l R.
  induction R as [|r e rows l (Hmin & Hk) R IH]; intros acc Hb.
  - cbn. now rewrite T0, Z.add_0_r.
  - cbn [filter magnitude] in *. rewrite TS, Hk.
    pose proof (magnitude_nonneg l) as Hl.
    destruct (pick e).
    + cbn [sql_sum]. rewrite Hmin.
      assert (I : int64 (acc + entry_minutes e) = true).
      { unfold int64, INT64_MIN, INT64_MAX in *.
        apply andb_true_iff. split; apply Z.leb_le; lia. }
      rewrite I, IH by lia. f_equal. lia.
    + rewrite IH by lia. f_equal.
Qed.

Lemma selected_rows (keep : session_row -> bool) (pick : entry -> bool)
    (rows : list session_row) (l : list entry) :
  (forall r e, row_of r e -> valid (entry_when e) -> keep r = pick e) ->
  Forall2 row_of rows l ->
  well_formed l ->
  Forall2 (fun r e => session_minutes r = entry_minutes e /\ keep r = pick e)
          rows l.
Proof.
  intros K R. induction R as [|r e rows l Hr R IH]; intros W; constructor;
    inversion W as [|? ? Ve W']; subst.
  - split; [apply Hr | now apply K].
  - now apply IH.
Qed.

Section Queries.

(** A store whose sessions table holds the rows of a log of valid
    datetimes. *)
Variable db : database.
Variable log : list entry.
Hypothesis db_records : records db log.
Hypothesis log_well_formed : well_formed log.
Hypothesis log_bounded : magnitude log <= INT64_MAX.

Lemma total_since_spec (ts : datetime) :
  valid ts -> total_since db ts = inr (minutes_from log (instant ts)).
Proof.
  intros V. unfold total_since.
  rewrite (sql_sum_selected _
             (fun e => instant ts <=? instant (entry_when e))
             (fun l => minutes_from l (instant ts))
             eq_refl (fun _ _ => eq_refl) (sessions db) log);
    [reflexivity | | cbn; lia].
  apply selected_rows; [|exact db_records|exact log_well_formed].
  intros r e (_ & _ & Hocc) Ve. now rewrite Hocc, (text_ge_instant _ _ Ve V).
Qed.

Lemma total_between_spec (start end_ : datetime) :
  valid start -> valid end_ ->
  total_between db start end_
  = inr (minutes_between log (instant start) (instant end_)).
Proof.
  intros Vs Ve. unfold total_between.
  rewrite (sql_sum_selected _
             (fun e => (instant start <=? instant (entry_when e))
                       && (instant (entry_when e) <? instant end_))
             (fun l => minutes_between l (instant start) (instant end_))
             eq_refl (fun _ _ => eq_refl) (sessions db) log);
    [reflexivity | | cbn; lia].
  apply selected_rows; [|exact db_records|exact log_well_formed].
  intros r e (_ & _ & Hocc) Vw.
  now rewrite Hocc, (text_ge_instant _ _ Vw Vs), (text_lt_instant _ _ Vw Ve).
Qed.

(** The bar of offset [o] is labelled with the week day of the day [o]
    days after [sunday_start] and sums the minutes logged on that day. *)
Lemma bars_loop_spec (y m d : Z) (offsets : list Z) :
  valid_date y m d ->
  1 <= _ymd2ord y m d -> _ymd2ord y m d + 7 <= _MAXORDINAL ->
  Forall (fun o => 0 <= o <= 6) offsets ->
  bars_loop db (midnight y m d) offsets
  = inr (map (fun o => (day_abbr ((_ymd2ord y m d + o + 6) mod 7),
                        minutes_on_day log (_ymd2ord y m d + o)))
             offsets).
Proof.
  intros V Hlo Hhi Hoff.
  induction Hoff as [|o offsets Ho _ IH]; [reflexivity|].
  cbn [bars_loop map].
  destruct (add_days_midnight y m d o V ltac:(lia))
    as (y1 & m1 & d1 & E1 & V1 & O1).
  rewrite E1. cbn [bind].
  destruct (add_days_midnight y1 m1 d1 1 V1 ltac:(lia))
    as (y2 & m2 & d2 & E2 & V2 & O2).
  rewrite E2. cbn [bind].
  rewrite (total_between_spec _ _
             (valid_midnight _ _ _ V1) (valid_midnight _ _ _ V2)).
  cbn [bind]. rewrite IH. cbn [bind].
  rewrite !instant_midnight, O2, O1.
  unfold strftime_a, weekday, toordinal, midnight. cbn [year month day].
  rewrite O1. reflexivity.
Qed.

(** Three months back and a month ahead stay inside the calendar when
    the start is far enough from its ends. *)
Lemma month_cards_loop_returns (rounds : nat) :
  forall m_start,
    valid m_start ->
    31 * Z.of_nat rounds < toordinal m_start <= _MAXORDINAL - 32 ->
    exists cards, month_cards_loop db m_start rounds = inr cards.
Proof.
  induction rounds as [|rounds IH]; intros m_start V Hr.
  - now exists [].
  - cbn [month_cards_loop].
    destruct (add_days_spec m_start 32 V ltac:(lia)) as (later & E1 & V1 & _).
    rewrite E1. cbn [bind].
    rewrite (total_between_spec _ _ V (proj1 (replace_day1_spec later V1))).
    cbn [bind].
    destruct (add_days_spec m_start (- 1) V ltac:(lia))
      as (earlier & E2 & V2 & O2 & _).
    rewrite E2. cbn [bind].
    destruct (replace_day1_spec earlier V2) as (V3 & O3).
    destruct (IH (replace_day1 earlier) V3 ltac:(lia)) as (cards & E3).
    rewrite E3. cbn [bind]. eexists. reflexivity.
Qed.

End Queries.

(** Every store written by [log_session] holds the rows of a log. *)
Lemma log_session_records (db db' : database) (log : list entry)
    (sid m : Z) (when now : datetime) :
  records db log ->
  log_session sid m (Some when) now db = inr db' ->
  records db' (log ++ [mk_entry sid m when]).
Proof.
  unfold records, log_session, sql_insert_session, bind_int, autoincrement.
  intros R E.
  destruct (int64 sid); cbn [bind] in E; [|discriminate].
  destruct (int64 m); cbn [bind] in E; [|discriminate].
  cbn [_connect foreign_keys andb] in E.
  destruct (_ <=? _); cbn [bind] in E; [discriminate|].
  injection E as <-. cbn [sessions].
  apply Forall2_app; [exact R|]. constructor; [|constructor].
  repeat split.
Qed.

End Statistics.

(** C6 (as stated, refuted).  Not for every log and every now: SQLite
    adds the minutes in 64-bit integers, and with two sessions of 2^62
    minutes in the week [get_stats] raises "integer overflow"; and on
    2 January of the year 1 the Sunday before lies outside the
    calendar. *)
Lemma get_stats_raises :
  (let* db := DataStore.log_session 1 (2 ^ 62) (Some Samples.noon) Samples.noon
                (DataStore.mk_db [] [] [] 0) in
   let* db := DataStore.log_session 1 (2 ^ 62) (Some Samples.noon) Samples.noon
                db in
   DataStore.get_stats Samples.noon db)
  = inl OperationalError
  /\ DataStore.get_stats (PyDatetime.mk 1 1 2 0 0 0 0) (DataStore.mk_db [] [] [] 0)
     = inl OverflowError.
Proof. split; vm_compute; reflexivity. Qed.

(** C6 (amended).  Let the sessions table hold the rows of a log of
    [log_session] calls whose minutes, added up without their signs, stay
    within 2^63 - 1, and let now fall in the years 2 to 9998.  Then
    [get_stats] returns, and there is a Sunday midnight, at most six days
    before the start of the current day and not after it, such that:
    "week" is the sum of the minutes of the sessions logged at or after
    that instant, and "bars" is exactly seven (label, total) pairs,
    labelled Sun, Mon, ..., Sat in this order, where the total of the
    i-th pair sums the sessions logged in the half-open interval from the
    start of the i-th day of that week to the start of the next day. *)
Theorem get_stats_week_and_bars
    (now : PyDatetime.datetime) (db : DataStore.database)
    (log : list SessionLog.entry) :
  PyDatetime.valid now ->
  2 <= PyDatetime.year now <= 9998 ->
  SessionLog.records db log ->
  SessionLog.well_formed log ->
  SessionLog.magnitude log <= DataStore.INT64_MAX ->
  exists (sunday : PyDatetime.datetime) (st : DataStore.stats),
    DataStore.get_stats now db = inr st
    /\ PyDatetime.valid sunday
    /\ PyDatetime.weekday sunday = 6
    /\ PyDatetime.instant sunday
       = SessionLog.day_start (PyDatetime.toordinal sunday)
    /\ PyDatetime.toordinal sunday <= PyDatetime.toordinal now
       < PyDatetime.toordinal sunday + 7
    /\ DataStore.stats_week st
       = SessionLog.minutes_from log (PyDatetime.instant sunday)
    /\ DataStore.stats_bars st
       = map (fun '(label, offset) =>
                (label,
                 SessionLog.minutes_between log
                   (PyDatetime.instant sunday + offset * PyDatetime.one_day)
                   (PyDatetime.instant sunday + offset * PyDatetime.one_day
                    + PyDatetime.one_day)))
             [("Sun", 0); ("Mon", 1); ("Tue", 2); ("Wed", 3);
              ("Thu", 4); ("Fri", 5); ("Sat", 6)].
Proof.
  intros V Hyear R W B.
  destruct V as (Hy & Hm & Hd & Htime).
  assert (Vd : Calendar.valid_date (PyDatetime.year now) (PyDatetime.month now)
                 (PyDatetime.day now)) by (repeat split; lia).
  pose proof (ordinal_margin _ _ _ Vd Hyear) as Hord.
  unfold PyDatetime._MAXORDINAL in Hord.
  unfold DataStore.get_stats.
  set (ds := PyDatetime.midnight _ _ _).
  set (today := PyDatetime._ymd2ord (PyDatetime.year now) (PyDatetime.month now)
                  (PyDatetime.day now)) in *.
  assert (Hwd : PyDatetime.weekday ds = (today + 6) mod 7) by reflexivity.
  rewrite Hwd.
  set (k := ((today + 6) mod 7 + 1) mod 7).
  assert (Hk : 0 <= k <= 6 /\ (today - k) mod 7 = 0).
  { subst k. Z.to_euclidean_division_equations. lia. }
  destruct (add_days_midnight _ _ _ (- k) Vd) as (y1 & m1 & d1 & E1 & V1 & O1).
  { fold today. unfold PyDatetime._MAXORDINAL. lia. }
  fold today in O1. fold ds in E1. rewrite E1. cbn [bind].
  assert (Vms : PyDatetime.valid
                  (PyDatetime.midnight (PyDatetime.year now)
                     (PyDatetime.month now) 1)).
  { apply valid_midnight. repeat split; lia. }
  rewrite (total_since_spec db log R W B ds) by now apply valid_midnight.
  cbn [bind].
  rewrite (total_since_spec db log R W B (PyDatetime.midnight y1 m1 d1))
    by now apply valid_midnight.
  cbn [bind].
  rewrite (total_since_spec db log R W B _ Vms). cbn [bind].
  assert (Hbars := bars_loop_spec db log R W B y1 m1 d1 [0; 1; 2; 3; 4; 5; 6] V1).
  rewrite Hbars; [| lia | unfold PyDatetime._MAXORDINAL; lia
                  | repeat constructor; lia ].
  cbn [bind].
  destruct (month_cards_loop_returns db log R W B 3
              (PyDatetime.midnight (PyDatetime.year now) (PyDatetime.month now) 1)
              Vms) as (cards & E3).
  { assert (Calendar.valid_date (PyDatetime.year now) (PyDatetime.month now) 1).
    { repeat split; lia. }
    pose proof (ordinal_margin _ _ _ H Hyear) as Hm1.
    unfold PyDatetime.toordinal, PyDatetime.midnight. cbn.
    unfold PyDatetime._MAXORDINAL in *. lia. }
  rewrite E3. cbn [bind].
  exists (PyDatetime.midnight y1 m1 d1). eexists. split; [reflexivity|].
  cbn [DataStore.stats_week DataStore.stats_bars].
  assert (Os : PyDatetime.toordinal (PyDatetime.midnight y1 m1 d1) = today - k)
    by (change (PyDatetime.toordinal (PyDatetime.midnight y1 m1 d1))
          with (PyDatetime._ymd2ord y1 m1 d1); lia).
  split; [now apply valid_midnight|].
  split; [unfold PyDatetime.weekday; rewrite Os;
          Z.to_euclidean_division_equations; lia|].
  split; [now rewrite instant_midnight|].
  split; [rewrite Os; fold today;
          change (PyDatetime.toordinal now) with today; lia|].
  split.
  - reflexivity.
  - rewrite instant_midnight. cbn [map]. rewrite O1.
    unfold SessionLog.minutes_on_day, SessionLog.day_start.
    repeat match goal with
    | |- context [PyDatetime.day_abbr ((today + - k + ?o + 6) mod 7)] =>
        let v := eval compute in ((o + 6) mod 7) in
        replace ((today + - k + o + 6) mod 7) with v
          by (Z.to_euclidean_division_equations; lia)
    end.
    cbn [PyDatetime.day_abbr].
    rewrite !Z.mul_add_distr_r, !Z.mul_1_l. reflexivity.
Qed.

Lemma get_stats_week_and_bars_witness :
  exists (sunday : PyDatetime.datetime) (st : DataStore.stats),
    DataStore.get_stats Samples.noon Samples.one_subject = inr st
    /\ PyDatetime.weekday sunday = 6
    /\ PyDatetime.toordinal sunday <= PyDatetime.toordinal Samples.noon
       < PyDatetime.toordinal sunday + 7
    /\ DataStore.stats_week st
       = SessionLog.minutes_from Samples.log (PyDatetime.instant sunday).
Proof.
  destruct (get_stats_week_and_bars Samples.noon Samples.one_subject Samples.log)
    as (sunday & st & E & _ & Hw & _ & Hr & Hweek & _).
  - apply check_fields_valid. reflexivity.
  - cbn. lia.
  - repeat constructor.
  - repeat constructor; apply check_fields_valid; reflexivity.
  - cbv. discriminate.
  - exists sunday, st. repeat split; try assumption; apply Hr.
Defined.

(** The statistics of the sample store at noon of Thursday 7 March 2024. *)
Example get_stats_sample :
  DataStore.get_stats Samples.noon Samples.one_subject
  = inr (DataStore.mk_stats 0 75 75
           [("Sun", 0); ("Mon", 0); ("Tue", 30); ("Wed", 45);
            ("Thu", 0); ("Fri", 0); ("Sat", 0)]
           [("Mar", 75); ("Feb", 0); ("Jan", 0)]).
Proof. vm_compute. reflexivity. Qed.

Example isoformat_sample :
  PyDatetime.isoformat (PyDatetime.mk 2024 3 9 7 5 0 1200)
  = "2024-03-09T07:05:00.001200"
  /\ PyDatetime.isoformat Samples.noon = "2024-03-07T12:00:00".
Proof. split; reflexivity. Qed.

Example ordinal_samples :
  PyDatetime._ymd2ord 2024 3 9 = 738954
  /\ PyDatetime._ord2ymd 738954 = (2024, 3, 9)
  /\ PyDatetime._ord2ymd 730179 = (2000, 2, 29)
  /\ PyDatetime._ord2ymd 730485 = (2000, 12, 31)
  /\ PyDatetime._ord2ymd 1 = (1, 1, 1)
  /\ PyDatetime._ord2ymd 3652059 = (9999, 12, 31).
Proof. repeat split. Qed.

(* ================================================================== *)
(** * Part III: the rest of the store and of the views *)
(* ================================================================== *)

(** ** Chapters: order of [list_chapters] *)

Section ChapterOrder.

Import DataStore DataStoreOps.

Lemma chapter_leb_total (a b : chapter_row) :
  chapter_leb a b = false -> chapter_leb b a = true.
Proof.
  unfold chapter_leb. rewrite orb_false_iff, andb_false_iff, orb_true_iff,
    andb_true_iff, !Z.ltb_ge, !Z.ltb_lt, !Z.eqb_eq, Z.eqb_neq, Z.leb_gt, Z.leb_le.
  lia.
Qed.

Lemma chapter_leb_trans (a b c : chapter_row) :
  chapter_leb a b = true -> chapter_leb b c = true -> chapter_leb a c = true.
Proof.
  unfold chapter_leb. rewrite !orb_true_iff, !andb_true_iff,
    !Z.ltb_lt, !Z.eqb_eq, !Z.leb_le.
  lia.
Qed.

Lemma insert_chapter_perm (r : chapter_row) (l : list chapter_row) :
  Permutation (insert_chapter r l) (r :: l).
Proof.
  induction l as [|x l IH]; cbn; [reflexivity|].
  destruct (chapter_leb r x); [reflexivity|].
  rewrite IH. apply perm_swap.
Qed.

Lemma order_chapters_perm (l : list chapter_row) :
  Permutation (order_chapters l) l.
Proof.
  induction l as [|r l IH]; cbn; [reflexivity|].
  rewrite insert_chapter_perm. now constructor.
Qed.

Lemma insert_chapter_sorted (r : chapter_row) (l : list chapter_row) :
  StronglySorted (fun a b => chapter_leb a b = true) l ->
  StronglySorted (fun a b => chapter_leb a b = true) (insert_chapter r l).
Proof.
  induction 1 as [|x l Hs IH Hx]; cbn.
  - repeat constructor.
  - destruct (chapter_leb r x) eqn:E.
    + constructor; [now constructor|].
      constructor; [exact E|].
      eapply Forall_impl; [|exact Hx].
      intros c Hc. now apply (chapter_leb_trans r x c).
    + constructor; [exact IH|].
      eapply Permutation_Forall; [symmetry; apply insert_chapter_perm|].
      constructor; [now apply chapter_leb_total | exact Hx].
Qed.

Lemma order_chapters_sorted (l : list chapter_row) :
  StronglySorted (fun a b => chapter_leb a b = true) (order_chapters l).
Proof.
  induction l as [|r l IH]; cbn; [constructor|].
  now apply insert_chapter_sorted.
Qed.

(** X1.  [list_chapters] returns the chapters of the subject and nothing
    else, each as often as the table holds it, ordered by position and,
    at equal position, by id. *)
Theorem list_chapters_sorted_permutation (subject_id : Z) (d : database) :
  Permutation (list_chapters subject_id d)
              (filter (fun r => chapter_subject_id r =? subject_id) (chapters d))
  /\ StronglySorted
       (fun a b =>
          chapter_position a < chapter_position b
          \/ (chapter_position a = chapter_position b
              /\ chapter_id a <= chapter_id b))
       (list_chapters subject_id d)
  /\ (forall r, In r (list_chapters subject_id d) <->
                In r (chapters d) /\ chapter_subject_id r = subject_id).
Proof.
  unfold list_chapters, chapters_of. split; [apply order_chapters_perm|]. split.
  - generalize (order_chapters_sorted
                  (filter (fun r => chapter_subject_id r =? subject_id)
                          (chapters d))).
    induction 1 as [|x l Hs IH Hx]; constructor; [exact IH|].
    eapply Forall_impl; [|exact Hx].
    intros b. unfold chapter_leb.
    rewrite orb_true_iff, andb_true_iff, Z.ltb_lt, Z.eqb_eq, Z.leb_le. tauto.
  - intros r. rewrite (Permutation_in' (eq_refl r) (order_chapters_perm _)).
    rewrite filter_In, Z.eqb_eq. reflexivity.
Qed.

End ChapterOrder.

(** ** Chapters: adding, updating, deleting *)

Section ChapterWrites.

Import DataStore DataStoreOps.

Lemma next_id_above (ids : list Z) (seq : Z) :
  seq < next_id ids seq /\ Forall (fun i => i < next_id ids seq) ids.
Proof.
  unfold next_id, largest_id. induction ids as [|i ids [IH1 IH2]]; cbn.
  - split; [lia | constructor].
  - split; [lia|]. constructor; [lia|].
    eapply Forall_impl; [|exact IH2]. cbn. lia.
Qed.

(** With every id at most the counter, the counter is the largest. *)
Lemma largest_id_counter (ids : list Z) (seq : Z) :
  Forall (fun i => i <= seq) ids -> largest_id ids seq = seq.
Proof.
  unfold largest_id. induction 1 as [|i ids Hi _ IH]; cbn; [reflexivity|].
  rewrite IH. lia.
Qed.

Lemma int64_range (n : Z) :
  int64 n = true <-> INT64_MIN <= n <= INT64_MAX.
Proof.
  unfold int64. rewrite andb_true_iff, !Z.leb_le. tauto.
Qed.

(** After an insertion the new id is the largest. *)
Lemma largest_id_app (ids : list Z) (seq : Z) :
  largest_id (ids ++ [next_id ids seq]) (next_id ids seq) = next_id ids seq.
Proof.
  destruct (next_id_above ids seq) as [_ H].
  generalize dependent (next_id ids seq). intros n H. unfold largest_id.
  induction H as [|i ids Hi _ IH]; cbn [app fold_right]; [lia|].
  unfold largest_id in IH. rewrite IH. lia.
Qed.

(** Whenever [create_subject] returns, the table was not full and the
    name was free. *)
Lemma create_subject_inr (name color : string) (utcnow : PyDatetime.datetime)
    (s s' : store) (id : Z) :
  create_subject name color utcnow s = inr (s', id) ->
  largest_id (map subject_rowid (subjects (db s))) (subject_seq s) < INT64_MAX
  /\ name_taken (strip name) None (subjects (db s)) = false
  /\ id = next_id (map subject_rowid (subjects (db s))) (subject_seq s)
  /\ s' = mk_store
            (mk_db (subjects (db s)
                      ++ [mk_subject id (strip name) (strip color)
                            (current_timestamp utcnow)])
                   (sessions (db s)) (chapters (db s)) (session_seq (db s)))
            id (chapter_seq s).
Proof.
  unfold create_subject, sql_insert_subject, autoincrement. intros E.
  destruct (Z.leb_spec INT64_MAX
              (largest_id (map subject_rowid (subjects (db s))) (subject_seq s)));
    cbn [bind] in E; [discriminate|].
  destruct (name_taken (strip name) None (subjects (db s)));
    [discriminate|].
  injection E as <- <-. repeat split. assumption.
Qed.

(** Whenever [rename_subject] returns, the id was bound and the update
    met no other row of that name. *)
Lemma rename_subject_inr (subject_id : Z) (new_name : string) (s s' : store) :
  rename_subject subject_id new_name s = inr s' ->
  int64 subject_id = true
  /\ existsb (fun r => subject_rowid r =? subject_id) (subjects (db s))
     && name_taken (strip new_name) (Some subject_id) (subjects (db s))
     = false
  /\ s' = with_subjects s
            (map (fun r => if subject_rowid r =? subject_id
                           then set_name (strip new_name) r else r)
                 (subjects (db s))).
Proof.
  unfold rename_subject, sql_rename_subject, bind_int. intros E.
  destruct (int64 subject_id); cbn [bind] in E; [|discriminate].
  destruct (_ && _); [discriminate|].
  injection E as <-. repeat split.
Qed.

(** Whenever [log_session] returns, it appended one session. *)
Lemma log_session_inr (subject_id minutes : Z)
    (when : option PyDatetime.datetime) (utcnow : PyDatetime.datetime)
    (s s' : store) :
  DataStoreOps.log_session subject_id minutes when utcnow s = inr s' ->
  exists row,
    s' = mk_store
           (mk_db (subjects (db s)) (sessions (db s) ++ [row])
                  (chapters (db s)) (session_id row))
           (subject_seq s) (chapter_seq s).
Proof.
  unfold DataStoreOps.log_session, DataStore.log_session, sql_insert_session,
    bind_int, autoincrement.
  intros E.
  destruct (int64 subject_id); cbn [bind] in E; [|discriminate].
  destruct (int64 minutes); cbn [bind] in E; [|discriminate].
  destruct (_ <=? _); cbn [bind] in E; [discriminate|].
  cbn [_connect foreign_keys andb bind with_db] in E. injection E as <-.
  exists (mk_session (session_seq (db s) + 1) subject_id minutes
            (PyDatetime.isoformat
               match when with Some w => w | None => utcnow end)).
  reflexivity.
Qed.

(** When [add_chapter] returns: the ints were bound and the table was
    not full. *)
Lemma add_chapter_returns (subject_id : Z) (title : string) (s : store) :
  int64 subject_id = true ->
  int64 (max_position (chapters_of subject_id (db s)) + 1) = true ->
  largest_id (map chapter_id (chapters (db s))) (chapter_seq s) < INT64_MAX ->
  add_chapter subject_id title s
  = inr (mk_store
           (mk_db (subjects (db s)) (sessions (db s))
                  (chapters (db s)
                     ++ [mk_chapter
                           (next_id (map chapter_id (chapters (db s)))
                                    (chapter_seq s))
                           subject_id (strip title)
                           (max_position (chapters_of subject_id (db s)) + 1)
                           0 EmptyString])
                  (session_seq (db s)))
           (subject_seq s)
           (next_id (map chapter_id (chapters (db s))) (chapter_seq s))).
Proof.
  intros Hs Hp Hq.
  unfold add_chapter, sql_insert_chapter, bind_int, autoincrement.
  rewrite Hs. cbn [bind]. rewrite Hs, Hp. cbn [bind].
  destruct (Z.leb_spec INT64_MAX
              (largest_id (map chapter_id (chapters (db s))) (chapter_seq s)));
    [lia|].
  reflexivity.
Qed.

(** Whenever [add_chapter] returns, it returns that store. *)
Lemma add_chapter_inr (subject_id : Z) (title : string) (s s' : store) :
  add_chapter subject_id title s = inr s' ->
  int64 subject_id = true
  /\ int64 (max_position (chapters_of subject_id (db s)) + 1) = true
  /\ largest_id (map chapter_id (chapters (db s))) (chapter_seq s) < INT64_MAX
  /\ s' = mk_store
            (mk_db (subjects (db s)) (sessions (db s))
                   (chapters (db s)
                      ++ [mk_chapter
                            (next_id (map chapter_id (chapters (db s)))
                                     (chapter_seq s))
                            subject_id (strip title)
                            (max_position (chapters_of subject_id (db s)) + 1)
                            0 EmptyString])
                   (session_seq (db s)))
            (subject_seq s)
            (next_id (map chapter_id (chapters (db s))) (chapter_seq s)).
Proof.
  unfold add_chapter, sql_insert_chapter, bind_int, autoincrement. intros E.
  destruct (int64 subject_id) eqn:Hs; cbn [bind] in E; [|discriminate].
  rewrite Hs in E. cbn [bind] in E.
  destruct (int64 (max_position (chapters_of subject_id (db s)) + 1));
    cbn [bind] in E; [|discriminate].
  destruct (Z.leb_spec INT64_MAX
              (largest_id (map chapter_id (chapters (db s))) (chapter_seq s)));
    cbn [bind] in E; [discriminate|].
  cbn [_connect foreign_keys andb] in E. injection E as <-.
  repeat split. assumption.
Qed.

Lemma fold_max_position_above (p0 : Z) (rest : list chapter_row) :
  let top := fold_right (fun x acc => Z.max (chapter_position x) acc) p0 rest in
  p0 <= top /\ Forall (fun x => chapter_position x <= top) rest.
Proof.
  induction rest as [|x rest [IH1 IH2]]; cbn.
  - split; [lia | constructor].
  - split; [lia|]. constructor; [lia|].
    eapply Forall_impl; [|exact IH2]. cbn. lia.
Qed.

Lemma max_position_above (rows : list chapter_row) :
  Forall (fun r => chapter_position r <= max_position rows) rows.
Proof.
  destruct rows as [|r rest]; [constructor|]. cbn [max_position].
  destruct (fold_max_position_above (chapter_position r) rest) as [H1 H2].
  now constructor.
Qed.

Lemma insert_chapter_before_last (a x : chapter_row) (l : list chapter_row) :
  chapter_leb a x = true ->
  insert_chapter a (l ++ [x]) = insert_chapter a l ++ [x].
Proof.
  intros Hax. induction l as [|y l IH]; cbn.
  - now rewrite Hax.
  - destruct (chapter_leb a y); [reflexivity|]. now rewrite IH.
Qed.

(** A row that sorts after all the others stays last. *)
Lemma order_chapters_last (x : chapter_row) (l : list chapter_row) :
  Forall (fun a => chapter_leb a x = true) l ->
  order_chapters (l ++ [x]) = order_chapters l ++ [x].
Proof.
  induction 1 as [|a l Ha _ IH]; cbn; [reflexivity|].
  rewrite IH. now apply insert_chapter_before_last.
Qed.

Lemma insert_chapter_first (r : chapter_row) (l : list chapter_row) :
  Forall (fun y => chapter_leb r y = true) l -> insert_chapter r l = r :: l.
Proof.
  destruct 1 as [|y l Hy _]; cbn; [reflexivity|]. now rewrite Hy.
Qed.

Lemma filter_insert_chapter (p : chapter_row -> bool) (r : chapter_row)
    (l : list chapter_row) :
  StronglySorted (fun a b => chapter_leb a b = true) l ->
  filter p (insert_chapter r l)
  = if p r then insert_chapter r (filter p l) else filter p l.
Proof.
  induction 1 as [|x l Hs IH Hx]; cbn.
  - now destruct (p r).
  - destruct (chapter_leb r x) eqn:E.
    + cbn [filter]. destruct (p r); [|reflexivity].
      symmetry. apply insert_chapter_first.
      assert (Hall : Forall (fun y => chapter_leb r y = true) (x :: l)).
      { constructor; [exact E|].
        eapply Forall_impl; [|exact Hx].
        intros c Hc. now apply (chapter_leb_trans r x c). }
      apply Forall_forall. intros y Hy.
      destruct (p x); [|apply filter_In in Hy; destruct Hy as [Hy _];
                        rewrite Forall_forall in Hall; apply Hall; now right].
      rewrite Forall_forall in Hall. apply Hall.
      destruct Hy as [<-|Hy]; [now left|].
      apply filter_In in Hy. right. apply Hy.
    + cbn [filter]. rewrite IH.
      destruct (p x), (p r); cbn [insert_chapter]; rewrite ?E; reflexivity.
Qed.

(** Selecting rows commutes with ordering them. *)
Lemma filter_order_chapters (p : chapter_row -> bool) (l : list chapter_row) :
  filter p (order_chapters l) = order_chapters (filter p l).
Proof.
  induction l as [|r l IH]; cbn; [reflexivity|].
  rewrite filter_insert_chapter by apply order_chapters_sorted.
  destruct (p r); cbn; now rewrite IH.
Qed.

(** Rewriting columns other than position and id commutes with ordering. *)
Lemma map_order_chapters (g : chapter_row -> chapter_row)
    (l : list chapter_row) :
  (forall r, chapter_position (g r) = chapter_position r
             /\ chapter_id (g r) = chapter_id r) ->
  order_chapters (map g l) = map g (order_chapters l).
Proof.
  intros Hg.
  assert (Hleb : forall a b, chapter_leb (g a) (g b) = chapter_leb a b).
  { intros a b. unfold chapter_leb.
    destruct (Hg a) as [-> ->], (Hg b) as [-> ->]. reflexivity. }
  assert (Hins : forall r m,
             insert_chapter (g r) (map g m) = map g (insert_chapter r m)).
  { intros r m. induction m as [|x m IHm]; cbn; [reflexivity|].
    rewrite Hleb. destruct (chapter_leb r x); cbn; [reflexivity|].
    now rewrite IHm. }
  induction l as [|r l IH]; cbn; [reflexivity|].
  now rewrite IH, Hins.
Qed.

Lemma update_chapter_keys (f : chapter_row -> chapter_row) (id : Z) :
  (forall r, chapter_position (f r) = chapter_position r
             /\ chapter_id (f r) = chapter_id r
             /\ chapter_subject_id (f r) = chapter_subject_id r) ->
  forall r,
    let g := fun r => if chapter_id r =? id then f r else r in
    chapter_position (g r) = chapter_position r
    /\ chapter_id (g r) = chapter_id r
    /\ chapter_subject_id (g r) = chapter_subject_id r.
Proof.
  intros Hf r. cbn. destruct (chapter_id r =? id); [apply Hf | auto].
Qed.

Lemma list_chapters_update (f : chapter_row -> chapter_row) (id sid : Z)
    (s : store) :
  (forall r, chapter_position (f r) = chapter_position r
             /\ chapter_id (f r) = chapter_id r
             /\ chapter_subject_id (f r) = chapter_subject_id r) ->
  list_chapters sid
    (db (with_chapters s (update_chapter f id (chapters (db s)))))
  = update_chapter f id (list_chapters sid (db s)).
Proof.
  intros Hf. unfold list_chapters, chapters_of, update_chapter. cbn [db chapters with_chapters].
  pose proof (update_chapter_keys f id Hf) as Hg. cbn in Hg.
  rewrite <- map_order_chapters by (intros r; split; apply Hg).
  f_equal.
  induction (chapters (db s)) as [|r l IH]; cbn; [reflexivity|].
  destruct (Hg r) as (_ & _ & ->).
  destruct (chapter_subject_id r =? sid); cbn; now rewrite IH.
Qed.

Lemma update_chapter_missing (f : chapter_row -> chapter_row) (id : Z)
    (rows : list chapter_row) :
  ~ In id (map chapter_id rows) -> update_chapter f id rows = rows.
Proof.
  unfold update_chapter. induction rows as [|r l IH]; cbn; intros Hn;
    [reflexivity|].
  destruct (Z.eqb_spec (chapter_id r) id) as [E|_]; [tauto|].
  rewrite IH by tauto. reflexivity.
Qed.

Lemma with_chapters_same (s : store) : with_chapters s (chapters (db s)) = s.
Proof. destruct s as [[? ? ? ?] ? ?]. reflexivity. Qed.

End ChapterWrites.

(** ** Chapters: what the writes do to the list *)

Section ChapterList.

Import DataStore DataStoreOps.

Lemma chapters_of_app (sid : Z) (d : database) (r : chapter_row) :
  chapters_of sid (mk_db (subjects d) (sessions d) (chapters d ++ [r])
                         (session_seq d))
  = chapters_of sid d
      ++ (if chapter_subject_id r =? sid then [r] else []).
Proof.
  unfold chapters_of. cbn [chapters]. rewrite filter_app. reflexivity.
Qed.

(** The row [add_chapter] inserts and the lists it leaves. *)
Lemma add_chapter_spec (subject_id : Z) (title : string) (s : store) :
  let id := next_id (map chapter_id (chapters (db s))) (chapter_seq s) in
  let pos := max_position (chapters_of subject_id (db s)) + 1 in
  let new := mk_chapter id subject_id (strip title) pos 0 EmptyString in
  let s' := mk_store
              (mk_db (subjects (db s)) (sessions (db s))
                     (chapters (db s) ++ [new]) (session_seq (db s)))
              (subject_seq s) id in
  list_chapters subject_id (db s') = list_chapters subject_id (db s) ++ [new]
  /\ ~ In id (map chapter_id (chapters (db s)))
  /\ chapter_seq s < id
  /\ (forall other, other <> subject_id ->
        list_chapters other (db s') = list_chapters other (db s)).
Proof.
  cbv zeta.
  set (id := next_id (map chapter_id (chapters (db s))) (chapter_seq s)).
  set (pos := max_position (chapters_of subject_id (db s)) + 1).
  set (new := mk_chapter id subject_id (strip title) pos 0 EmptyString).
  destruct (next_id_above (map chapter_id (chapters (db s))) (chapter_seq s))
    as [Hseq Hids]. fold id in Hseq, Hids.
  split; [|split; [|split]].
  - unfold list_chapters. cbn [db]. rewrite chapters_of_app.
    cbn [new chapter_subject_id]. rewrite Z.eqb_refl.
    apply order_chapters_last.
    eapply Forall_impl; [|apply max_position_above].
    intros a Ha. unfold chapter_leb. cbn [new chapter_position].
    apply orb_true_iff. left. apply Z.ltb_lt. cbv beta in Ha.
    unfold pos. lia.
  - intros Hin. rewrite Forall_forall in Hids. apply Hids in Hin. lia.
  - exact Hseq.
  - intros other Hother. unfold list_chapters. cbn [db].
    rewrite chapters_of_app. cbn [new chapter_subject_id].
    destruct (Z.eqb_spec subject_id other) as [E|_]; [congruence|].
    now rewrite app_nil_r.
Qed.

(** X2.  Given a subject id and a next position that are 64-bit
    integers and a chapters table whose ids have not reached the largest
    one, [add_chapter] returns and puts the new chapter at the end of the
    subject's list: the list after the call is the list before it
    followed by one row, whose title is the stripped title, which is not
    done, has empty notes and an id that is in no row of the table and
    above every id handed out before.  The lists of the other subjects
    stay as they were.  Outside that range the call raises and nothing is
    stored: [OverflowError] for a subject id that is no 64-bit
    integer. *)
Theorem add_chapter_appends_last (subject_id : Z) (title : string) (s : store) :
  (INT64_MIN <= subject_id <= INT64_MAX ->
   INT64_MIN <= max_position (chapters_of subject_id (db s)) + 1 <= INT64_MAX ->
   largest_id (map chapter_id (chapters (db s))) (chapter_seq s) < INT64_MAX ->
   exists (s' : store) (new : chapter_row),
     add_chapter subject_id title s = inr s'
     /\ list_chapters subject_id (db s')
        = list_chapters subject_id (db s) ++ [new]
     /\ chapter_subject_id new = subject_id
     /\ chapter_title new = strip title
     /\ chapter_done new = 0
     /\ chapter_notes new = EmptyString
     /\ ~ In (chapter_id new) (map chapter_id (chapters (db s)))
     /\ chapter_seq s < chapter_id new
     /\ (forall other, other <> subject_id ->
           list_chapters other (db s') = list_chapters other (db s)))
  /\ (~ INT64_MIN <= subject_id <= INT64_MAX ->
      add_chapter subject_id title s = inl OverflowError).
Proof.
  split.
  - intros Hs Hp Hq.
    destruct (add_chapter_spec subject_id title s) as (L & F & Q & O).
    eexists. eexists.
    split; [apply add_chapter_returns; [now apply int64_range.. | exact Hq]|].
    split; [exact L|]. repeat split; assumption.
  - intros Hs. unfold add_chapter, bind_int.
    destruct (int64 subject_id) eqn:E; [|reflexivity].
    apply int64_range in E. contradiction.
Qed.

Lemma add_chapter_appends_last_witness :
  (exists (s' : store) (new : chapter_row),
     add_chapter 1 " Ideals " PanelSamples.store = inr s'
     /\ list_chapters 1 (db s')
        = list_chapters 1 (db PanelSamples.store) ++ [new]
     /\ chapter_title new = "Ideals"
     /\ chapter_id new = 4)
  /\ add_chapter (2 ^ 63) "Ideals" PanelSamples.store = inl OverflowError.
Proof.
  destruct (add_chapter_appends_last 1 " Ideals " PanelSamples.store)
    as (H & _).
  destruct (add_chapter_appends_last (2 ^ 63) "Ideals" PanelSamples.store)
    as (_ & H').
  split.
  - destruct H as (s' & new & A & L & _ & T & _); [cbv; split; discriminate..
                                                    | reflexivity |].
    exists s', new. split; [exact A|]. split; [exact L|].
    split; [exact T|].
    injection A as <-. vm_compute in L. injection L as <-. reflexivity.
  - apply H'. cbv. intros [_ H1]. now apply H1.
Defined.

(** X3.  [toggle_chapter] and [update_notes] change one column of the
    row with the given id and nothing else: every subject's list keeps
    its rows and their order, the row with that id now carries the flag
    (1 for true, 0 for false) or the notes, and all other rows are the
    rows they were. *)
Theorem chapter_updates_keep_the_list (id subject_id : Z) (done : bool)
    (notes : string) (s : store) :
  list_chapters subject_id (db (toggle_chapter id done s))
  = map (fun r => if chapter_id r =? id
                  then mk_chapter (chapter_id r) (chapter_subject_id r)
                         (chapter_title r) (chapter_position r)
                         (if done then 1 else 0) (chapter_notes r)
                  else r)
        (list_chapters subject_id (db s))
  /\ list_chapters subject_id (db (update_notes id notes s))
     = map (fun r => if chapter_id r =? id
                     then mk_chapter (chapter_id r) (chapter_subject_id r)
                            (chapter_title r) (chapter_position r)
                            (chapter_done r) notes
                     else r)
           (list_chapters subject_id (db s)).
Proof.
  split.
  - apply (list_chapters_update (set_done done)). intros r. now cbn.
  - apply (list_chapters_update (set_notes notes)). intros r. now cbn.
Qed.

(** X4.  A write to an id that no chapter has changes nothing, whatever
    the table holds: for such a 64-bit id the stores that
    [toggle_chapter], [update_notes] and [delete_chapter] leave are the
    store they were given, every row as it was. *)
Theorem chapter_writes_missing_id (id : Z) (done : bool) (notes : string)
    (s : store) :
  INT64_MIN <= id <= INT64_MAX ->
  ~ In id (map chapter_id (chapters (db s))) ->
  toggle_chapter id done s = s
  /\ update_notes id notes s = s
  /\ delete_chapter id s = s.
Proof.
  intros _ Hn. unfold toggle_chapter, update_notes, delete_chapter.
  rewrite !update_chapter_missing by exact Hn.
  replace (filter (fun r => negb (chapter_id r =? id)) (chapters (db s)))
    with (chapters (db s)).
  - now rewrite with_chapters_same.
  - symmetry. apply forallb_filter_id. apply forallb_forall. intros r Hr.
    apply negb_true_iff, Z.eqb_neq. intros E. apply Hn. rewrite <- E.
    now apply in_map.
Qed.

Lemma chapter_writes_missing_id_witness :
  map chapter_id (chapters (db PanelSamples.store)) = [1; 2; 3]
  /\ toggle_chapter 7 true PanelSamples.store = PanelSamples.store
  /\ update_notes 7 "x" PanelSamples.store = PanelSamples.store
  /\ delete_chapter 7 PanelSamples.store = PanelSamples.store.
Proof.
  split; [reflexivity|].
  apply (chapter_writes_missing_id 7 true "x" PanelSamples.store).
  - cbv. split; discriminate.
  - cbn. intros [H|[H|[H|[]]]]; discriminate.
Defined.

(** X5.  [delete_chapter] removes the rows with the given id from every
    subject's list and leaves the others in their order; the subjects
    and sessions tables and the id counters are untouched, so the id is
    not handed out again. *)
Theorem delete_chapter_list (id subject_id : Z) (s : store) :
  list_chapters subject_id (db (delete_chapter id s))
  = filter (fun r => negb (chapter_id r =? id))
           (list_chapters subject_id (db s))
  /\ ~ In id (map chapter_id (chapters (db (delete_chapter id s))))
  /\ subjects (db (delete_chapter id s)) = subjects (db s)
  /\ sessions (db (delete_chapter id s)) = sessions (db s)
  /\ chapter_seq (delete_chapter id s) = chapter_seq s.
Proof.
  unfold delete_chapter, list_chapters, chapters_of.
  cbn [db with_chapters chapters subjects sessions chapter_seq].
  repeat split.
  - rewrite filter_order_chapters. f_equal.
    induction (chapters (db s)) as [|r l IH]; cbn [filter]; [reflexivity|].
    destruct (chapter_id r =? id) eqn:E1,
             (chapter_subject_id r =? subject_id) eqn:E2;
      cbn [negb filter]; rewrite ?E1, ?E2; cbn [negb]; now rewrite IH.
  - rewrite in_map_iff. intros (r & E & Hr).
    apply filter_In in Hr. destruct Hr as [_ Hr].
    apply negb_true_iff, Z.eqb_neq in Hr. contradiction.
Qed.

End ChapterList.

(** ** [str.strip()] *)

Section StripFacts.

Import TimerEditDialog.

Lemma rev_string_twice (s : string) :
  forall acc acc',
    rev_string (rev_string s acc) acc' = rev_string acc (s ++ acc')%string.
Proof.
  induction s as [|c s IH]; intros acc acc'; cbn [rev_string append];
    [reflexivity|].
  rewrite IH. reflexivity.
Qed.

Lemma rev_string_involutive (s : string) :
  rev_string (rev_string s EmptyString) EmptyString = s.
Proof.
  rewrite rev_string_twice. cbn [rev_string]. apply append_empty_r.
Qed.

Lemma string_append_assoc (a b c : string) :
  ((a ++ b) ++ c = a ++ (b ++ c))%string.
Proof. induction a as [|x a IH]; cbn; [reflexivity | now rewrite IH]. Qed.

Lemma rev_string_acc (s : string) :
  forall acc, rev_string s acc = (rev_string s EmptyString ++ acc)%string.
Proof.
  induction s as [|c s IH]; intros acc; cbn [rev_string]; [reflexivity|].
  rewrite IH, (IH (String c EmptyString)).
  rewrite string_append_assoc. reflexivity.
Qed.

Lemma rev_string_app (x y : string) :
  rev_string (x ++ y)%string EmptyString
  = (rev_string y EmptyString ++ rev_string x EmptyString)%string.
Proof.
  induction x as [|c x IH]; cbn [append rev_string].
  - now rewrite append_empty_r.
  - rewrite (rev_string_acc (x ++ y)), IH,
      (rev_string_acc x (String c EmptyString)).
    now rewrite string_append_assoc.
Qed.

Section Drop.

Variable p1 : ascii -> bool.
Variable p2 : ascii -> ascii -> bool.
Variable p3 : ascii -> ascii -> ascii -> bool.

Lemma drop_spaces_clean (s : string) :
  starts_with_space p1 p2 p3 s = false -> drop_spaces p1 p2 p3 s = s.
Proof.
  destruct s as [|c [|d [|e r]]]; cbn; try reflexivity;
    destruct (p1 c); cbn; try discriminate; try reflexivity;
    destruct (p2 c d); cbn; try discriminate; try reflexivity;
    destruct (p3 c d e); cbn; try discriminate; reflexivity.
Qed.

(** What is left starts with no white space and is the end of the
    text. *)
Lemma drop_spaces_spec (n : nat) :
  forall s,
    (String.length s <= n)%nat ->
    starts_with_space p1 p2 p3 (drop_spaces p1 p2 p3 s) = false
    /\ exists pre, s = (pre ++ drop_spaces p1 p2 p3 s)%string.
Proof.
  induction n as [|n IH]; intros s Hn.
  - destruct s; [|cbn in Hn; lia]. split; [reflexivity|].
    now exists EmptyString.
  - destruct s as [|c rest]; [split; [reflexivity | now exists EmptyString]|].
    cbn [String.length] in Hn. cbn [drop_spaces].
    destruct (p1 c) eqn:E1.
    { destruct (IH rest ltac:(lia)) as (H & pre & E). split; [exact H|].
      exists (String c pre). cbn [append]. now rewrite <- E. }
    destruct rest as [|d rest2].
    { split; [cbn; now rewrite E1 | now exists EmptyString]. }
    cbn [String.length] in Hn.
    destruct (p2 c d) eqn:E2.
    { destruct (IH rest2 ltac:(lia)) as (H & pre & E). split; [exact H|].
      exists (String c (String d pre)). cbn [append]. now rewrite <- E. }
    destruct rest2 as [|e rest3].
    { split; [cbn; now rewrite E1, E2 | now exists EmptyString]. }
    cbn [String.length] in Hn.
    destruct (p3 c d e) eqn:E3.
    { destruct (IH rest3 ltac:(lia)) as (H & pre & E). split; [exact H|].
      exists (String c (String d (String e pre))). cbn [append].
      now rewrite <- E. }
    split; [cbn; now rewrite E1, E2, E3 | now exists EmptyString].
Qed.

Lemma starts_with_space_app (p q : string) :
  starts_with_space p1 p2 p3 p = true ->
  starts_with_space p1 p2 p3 (p ++ q) = true.
Proof.
  destruct p as [|c [|d [|e r]]]; cbn; try discriminate;
    destruct (p1 c); cbn; try discriminate; try reflexivity;
    destruct (p2 c d); cbn; try discriminate; try reflexivity;
    destruct (p3 c d e); cbn; try discriminate; try reflexivity;
    destruct q as [|x [|y z]]; cbn; try discriminate.
Qed.

End Drop.

(** What [strip] returns has nothing left to strip. *)
Lemma strip_idempotent (s : string) : strip (strip s) = strip s.
Proof.
  unfold strip.
  set (a := lstrip s).
  set (b := lstrip_reversed (rev_string a EmptyString)).
  destruct (drop_spaces_spec is_space is_space2 is_space3 _ s (le_n _))
    as (Ha & _). fold (lstrip s) in Ha. fold a in Ha.
  destruct (drop_spaces_spec is_space (fun c d => is_space2 d c)
              (fun c d e => is_space3 e d c) _ (rev_string a EmptyString)
              (le_n _)) as (Hb & pre & Eb).
  fold (lstrip_reversed (rev_string a EmptyString)) in Hb, Eb. fold b in Hb, Eb.
  assert (Ea : a = (rev_string b EmptyString ++ rev_string pre EmptyString)%string).
  { rewrite <- rev_string_app, <- Eb. symmetry. apply rev_string_involutive. }
  assert (Ht : lstrip (rev_string b EmptyString) = rev_string b EmptyString).
  { apply drop_spaces_clean.
    destruct (starts_with_space is_space is_space2 is_space3
                (rev_string b EmptyString)) eqn:H; [|reflexivity].
    apply (starts_with_space_app _ _ _ _ (rev_string pre EmptyString)) in H.
    rewrite <- Ea in H. congruence. }
  rewrite Ht, rev_string_involutive.
  unfold lstrip_reversed at 1. now rewrite (drop_spaces_clean _ _ _ b Hb).
Qed.

(** A no-break space (U+00A0, bytes C2 A0) before the text and an
    ideographic space (U+3000, bytes E3 80 80) after it are stripped like
    the ASCII blanks; the no-break space inside stays. *)
Example strip_unicode_sample :
  let nbsp := String (ascii_of_nat 194) (String (ascii_of_nat 160) EmptyString) in
  let wide := String (ascii_of_nat 227)
                (String (ascii_of_nat 128)
                   (String (ascii_of_nat 128) EmptyString)) in
  strip (nbsp ++ " Linear" ++ nbsp ++ "Algebra " ++ wide)%string
  = ("Linear" ++ nbsp ++ "Algebra")%string
  /\ strip (nbsp ++ wide)%string = EmptyString.
Proof. split; reflexivity. Qed.

End StripFacts.

(** ** Histories of calls *)

Section Histories.

Import PyDatetime DataStore DataStoreOps.

Lemma StronglySorted_app_last {A : Type} (R : A -> A -> Prop)
    (l : list A) (x : A) :
  StronglySorted R l -> Forall (fun a => R a x) l ->
  StronglySorted R (l ++ [x]).
Proof.
  induction 1 as [|a l Hs IH Ha]; intros Hx; cbn.
  - repeat constructor.
  - inversion Hx as [|? ? Hax Hlx]; subst.
    constructor; [now apply IH|].
    apply Forall_app. split; [exact Ha | now repeat constructor].
Qed.

Lemma StronglySorted_filter {A : Type} (R : A -> A -> Prop)
    (p : A -> bool) (l : list A) :
  StronglySorted R l -> StronglySorted R (filter p l).
Proof.
  induction 1 as [|a l Hs IH Ha]; cbn; [constructor|].
  destruct (p a); [|exact IH].
  constructor; [exact IH|].
  apply Forall_forall. intros x Hx. apply filter_In in Hx.
  rewrite Forall_forall in Ha. now apply Ha.
Qed.

Lemma StronglySorted_map_keys {A : Type} (R : A -> A -> Prop)
    (g : A -> A) (l : list A) :
  (forall a b, R a b -> R (g a) (g b)) ->
  StronglySorted R l -> StronglySorted R (map g l).
Proof.
  intros Hg. induction 1 as [|a l Hs IH Ha]; cbn; constructor; [exact IH|].
  apply Forall_map. eapply Forall_impl; [|exact Ha]. intros b. apply Hg.
Qed.

Lemma StronglySorted_lt_NoDup {A : Type} (key : A -> Z) (l : list A) :
  StronglySorted (fun a b => key a < key b) l -> NoDup (map key l).
Proof.
  induction 1 as [|a l Hs IH Ha]; cbn; constructor; [|exact IH].
  rewrite in_map_iff. intros (b & E & Hb).
  rewrite Forall_forall in Ha. specialize (Ha b Hb). lia.
Qed.

(** A sorted list is listed as it stands. *)
Lemma order_chapters_sorted_id (l : list chapter_row) :
  StronglySorted (fun a b => chapter_leb a b = true) l -> order_chapters l = l.
Proof.
  induction 1 as [|a l Hs IH Ha]; cbn; [reflexivity|].
  rewrite IH. now apply insert_chapter_first.
Qed.

Lemma chapters_grow_update (f : chapter_row -> chapter_row) (id : Z)
    (s : store) :
  (forall r, chapter_position (f r) = chapter_position r
             /\ chapter_id (f r) = chapter_id r
             /\ chapter_subject_id (f r) = chapter_subject_id r) ->
  chapters_grow s ->
  chapters_grow (with_chapters s (update_chapter f id (chapters (db s)))).
Proof.
  intros Hf (H1 & H2 & H3 & H4).
  pose proof (update_chapter_keys f id Hf) as Hg. cbn in Hg.
  unfold chapters_grow, update_chapter. cbn [db with_chapters chapters chapter_seq].
  repeat split.
  - apply StronglySorted_map_keys; [|exact H1].
    intros a b. destruct (Hg a) as (_ & -> & _), (Hg b) as (_ & -> & _). auto.
  - apply StronglySorted_map_keys; [|exact H2].
    intros a b. destruct (Hg a) as (-> & _ & ->), (Hg b) as (-> & _ & ->). auto.
  - apply Forall_map. eapply Forall_impl; [|exact H3].
    intros a. cbv beta. now destruct (Hg a) as (_ & -> & _).
  - exact H4.
Qed.

Lemma chapters_grow_add (sid : Z) (title : string) (s s' : store) :
  chapters_grow s -> add_chapter sid title s = inr s' -> chapters_grow s'.
Proof.
  intros (H1 & H2 & H3 & H4) E.
  apply add_chapter_inr in E. destruct E as (_ & _ & _ & ->).
  destruct (next_id_above (map chapter_id (chapters (db s))) (chapter_seq s))
    as [Hseq Hids].
  set (id := next_id _ _) in *.
  unfold chapters_grow. cbn [db chapters chapter_seq]. repeat split.
  - apply StronglySorted_app_last; [exact H1|].
    rewrite Forall_map in Hids. exact Hids.
  - apply StronglySorted_app_last; [exact H2|].
    pose proof (max_position_above (chapters_of sid (db s))) as Hmax.
    rewrite Forall_forall in Hmax. apply Forall_forall. intros a Ha.
    cbn [chapter_subject_id chapter_position]. intros Ea.
    assert (Hin : In a (chapters_of sid (db s))).
    { unfold chapters_of. apply filter_In. split; [exact Ha|].
      now apply Z.eqb_eq. }
    specialize (Hmax a Hin). cbv beta in Hmax. lia.
  - apply Forall_app. split.
    + eapply Forall_impl; [|exact H3]. cbv beta. intros a. lia.
    + repeat constructor; cbn [chapter_id]; lia.
  - lia.
Qed.

Lemma chapters_grow_delete (id : Z) (s : store) :
  chapters_grow s -> chapters_grow (delete_chapter id s).
Proof.
  intros (H1 & H2 & H3 & H4). unfold chapters_grow, delete_chapter.
  cbn [db with_chapters chapters chapter_seq]. repeat split.
  - now apply StronglySorted_filter.
  - now apply StronglySorted_filter.
  - apply Forall_forall. intros r Hr. apply filter_In in Hr.
    rewrite Forall_forall in H3. now apply H3.
  - exact H4.
Qed.

Lemma name_taken_spec (name : string) (rows : list subject_row) :
  name_taken name None rows = true <-> In name (map subject_name rows).
Proof.
  unfold name_taken. rewrite existsb_exists, in_map_iff.
  split; intros (r & A & B); exists r.
  - rewrite andb_true_r in B. apply String.eqb_eq in B. tauto.
  - split; [exact B|]. rewrite andb_true_r. now apply String.eqb_eq.
Qed.

Lemma name_taken_but_spec (name : string) (id : Z) (rows : list subject_row) :
  name_taken name (Some id) rows = true
  <-> exists r, In r rows /\ subject_name r = name /\ subject_rowid r <> id.
Proof.
  unfold name_taken. rewrite existsb_exists.
  split; intros (r & A & B); exists r.
  - apply andb_true_iff in B. destruct B as [B1 B2].
    apply String.eqb_eq in B1. apply negb_true_iff, Z.eqb_neq in B2. tauto.
  - split; [exact A|]. destruct B as [B1 B2]. apply andb_true_iff.
    split; [now apply String.eqb_eq | now apply negb_true_iff, Z.eqb_neq].
Qed.

Lemma subjects_grow_create (name color : string) (now : datetime)
    (s s' : store) (id : Z) :
  subjects_grow s -> create_subject name color now s = inr (s', id) ->
  subjects_grow s'.
Proof.
  intros (H1 & H2 & H3 & H4) E.
  apply create_subject_inr in E. destruct E as (_ & T & -> & ->).
  destruct (next_id_above (map subject_rowid (subjects (db s))) (subject_seq s))
    as [Hseq Hids].
  set (id := next_id _ _) in *.
  unfold subjects_grow. cbn [db subjects subject_seq]. repeat split.
  - apply StronglySorted_app_last; [exact H1|].
    rewrite Forall_map in Hids. exact Hids.
  - apply Forall_app. split.
    + eapply Forall_impl; [|exact H2]. cbv beta. intros a. lia.
    + repeat constructor; cbn [subject_rowid]; lia.
  - rewrite map_app. cbn [map subject_name].
    apply NoDup_app_remove_l with (l := []). cbn [app].
    apply NoDup_rev in H3. rewrite <- (rev_involutive (_ ++ _)).
    apply NoDup_rev. rewrite rev_app_distr. cbn [rev app].
    constructor; [|exact H3].
    rewrite <- in_rev. intros Hin.
    apply name_taken_spec in Hin. congruence.
  - lia.
Qed.

Lemma subjects_grow_rename (sid : Z) (new_name : string) (s s' : store) :
  subjects_grow s -> rename_subject sid new_name s = inr s' -> subjects_grow s'.
Proof.
  intros (H1 & H2 & H3 & H4) E.
  apply rename_subject_inr in E. destruct E as (_ & T & ->).
  set (name := strip new_name) in *.
  set (g := fun r => if subject_rowid r =? sid then set_name name r else r).
  assert (Hid : forall r, subject_rowid (g r) = subject_rowid r).
  { intros r. unfold g. now destruct (subject_rowid r =? sid). }
  unfold subjects_grow. cbn [db with_subjects subjects subject_seq].
  repeat split.
  - apply StronglySorted_map_keys; [|exact H1].
    intros a b. now rewrite !Hid.
  - apply Forall_map. eapply Forall_impl; [|exact H2].
    intros a. cbv beta. now rewrite Hid.
  - apply andb_false_iff in T.
    assert (Hfree : (forall r, In r (subjects (db s)) ->
                               subject_rowid r <> sid)
                    \/ (forall r, In r (subjects (db s)) ->
                                  subject_name r = name ->
                                  subject_rowid r = sid)).
    { destruct T as [T|T].
      - left. intros r Hr E.
        assert (existsb (fun r => subject_rowid r =? sid) (subjects (db s))
                = true); [|congruence].
        apply existsb_exists. exists r. split; [exact Hr|now apply Z.eqb_eq].
      - right. intros r Hr En.
        destruct (Z.eq_dec (subject_rowid r) sid) as [|Hne]; [assumption|].
        assert (name_taken name (Some sid) (subjects (db s)) = true);
          [|congruence].
        apply name_taken_but_spec. now exists r. }
    clear T H2. revert H1 H3 Hfree.
    induction (subjects (db s)) as [|a l IH]; cbn [map]; intros S1 N1 Hfree;
      [constructor|].
    inversion S1 as [|? ? S1' Fa]; subst.
    inversion N1 as [|? ? Na N1']; subst.
    constructor.
    + rewrite map_map, in_map_iff. intros (b & Eb & Hb).
      rewrite Forall_forall in Fa. specialize (Fa b Hb).
      unfold g in Eb.
      destruct (Z.eqb_spec (subject_rowid b) sid) as [Eb1|Nb1],
               (Z.eqb_spec (subject_rowid a) sid) as [Ea1|Na1];
        cbn [set_name subject_name] in Eb.
      * lia.
      * destruct Hfree as [Hfree|Hfree].
        -- apply (Hfree b); [now right | exact Eb1].
        -- apply Na1. apply Hfree; [now left | congruence].
      * destruct Hfree as [Hfree|Hfree].
        -- apply (Hfree a); [now left | exact Ea1].
        -- apply Nb1. apply Hfree; [now right | exact Eb].
      * apply Na. rewrite <- Eb. now apply in_map.
    + apply IH; try assumption.
      destruct Hfree as [Hfree|Hfree]; [left|right]; intros r Hr;
        apply Hfree; now right.
  - exact H4.
Qed.

Lemma subjects_grow_delete (id : Z) (s : store) :
  subjects_grow s -> subjects_grow (DataStoreOps.delete_subject id s).
Proof.
  intros (H1 & H2 & H3 & H4).
  unfold subjects_grow, DataStoreOps.delete_subject, DataStore.delete_subject,
    sql_delete_subject.
  cbn [_connect foreign_keys with_db db subjects subject_seq]. repeat split.
  - now apply StronglySorted_filter.
  - apply Forall_forall. intros r Hr. apply filter_In in Hr.
    rewrite Forall_forall in H2. now apply H2.
  - clear H1 H2. induction (subjects (db s)) as [|a l IH]; cbn; [constructor|].
    inversion H3 as [|? ? Na N']; subst.
    destruct (negb (subject_rowid a =? id)); cbn; [|now apply IH].
    constructor; [|now apply IH].
    rewrite in_map_iff. intros (b & Eb & Hb). apply filter_In in Hb.
    apply Na. rewrite <- Eb. apply in_map. apply Hb.
  - exact H4.
Qed.

Lemma apply_call_grow (c : call) (s s' : store) :
  chapters_grow s /\ subjects_grow s ->
  apply_call c s = inr s' ->
  chapters_grow s' /\ subjects_grow s'.
Proof.
  intros [Hc Hs]. destruct c; cbn [apply_call].
  - destruct (create_subject name color utcnow s) as [e|[s1 id]] eqn:E;
      cbn [bind fst]; [discriminate|].
    intros E'. injection E' as <-.
    split; [|now apply (subjects_grow_create name color utcnow s s1 id)].
    apply create_subject_inr in E. destruct E as (_ & _ & _ & ->).
    exact Hc.
  - intros E. injection E as <-. split; [exact Hc|].
    now apply subjects_grow_delete.
  - intros E. split; [|now apply (subjects_grow_rename subject_id new_name s)].
    apply rename_subject_inr in E. destruct E as (_ & _ & ->). exact Hc.
  - intros E. apply log_session_inr in E. destruct E as (row & ->).
    split; [exact Hc | exact Hs].
  - intros E. split; [now apply (chapters_grow_add subject_id title s)|].
    apply add_chapter_inr in E. destruct E as (_ & _ & _ & ->). exact Hs.
  - intros E. injection E as <-. split; [|exact Hs].
    apply chapters_grow_update; [|exact Hc]. intros r. now cbn.
  - intros E. injection E as <-. split; [|exact Hs].
    apply chapters_grow_update; [|exact Hc]. intros r. now cbn.
  - intros E. injection E as <-. split; [|exact Hs].
    now apply chapters_grow_delete.
Qed.

Lemma apply_calls_grow (cs : list call) :
  forall s, chapters_grow s /\ subjects_grow s ->
            chapters_grow (apply_calls cs s)
            /\ subjects_grow (apply_calls cs s).
Proof.
  induction cs as [|c cs IH]; intros s H; cbn [apply_calls]; [exact H|].
  destruct (apply_call c s) as [e|s'] eqn:E; [now apply IH|].
  apply IH. now apply (apply_call_grow c s).
Qed.

Lemma empty_grow : chapters_grow DataStoreOps.empty /\ subjects_grow DataStoreOps.empty.
Proof.
  unfold chapters_grow, subjects_grow. cbn.
  repeat split; try constructor; lia.
Qed.

Lemma chapters_grow_listed (sid : Z) (s : store) :
  chapters_grow s ->
  list_chapters sid (db s) = chapters_of sid (db s).
Proof.
  intros (_ & H2 & _). unfold list_chapters. apply order_chapters_sorted_id.
  unfold chapters_of.
  assert (G : forall l,
             StronglySorted
               (fun a b => chapter_subject_id a = chapter_subject_id b ->
                           chapter_position a < chapter_position b) l ->
             StronglySorted (fun a b => chapter_leb a b = true)
               (filter (fun r => chapter_subject_id r =? sid) l)).
  { induction 1 as [|a l Hs IH Ha]; cbn; [constructor|].
    destruct (Z.eqb_spec (chapter_subject_id a) sid) as [Ea|_]; [|exact IH].
    constructor; [exact IH|].
    apply Forall_forall. intros b Hb. apply filter_In in Hb.
    destruct Hb as [Hb Eb]. apply Z.eqb_eq in Eb.
    rewrite Forall_forall in Ha. specialize (Ha b Hb ltac:(congruence)).
    unfold chapter_leb. apply orb_true_iff. left. now apply Z.ltb_lt. }
  now apply G.
Qed.

End Histories.

(** X6.  In a store that was created empty and written only through the
    methods of [DataStore], whatever the calls were and whether or not
    they raised: [list_chapters] returns the chapters of a subject in
    the order in which they were added, with ids that grow along the
    list; every chapter id is at least 1 and no two rows of the table
    share one. *)
Theorem chapters_listed_in_order_added
    (cs : list DataStoreOps.call) (subject_id : Z) :
  let s := DataStoreOps.apply_calls cs DataStoreOps.empty in
  DataStoreOps.list_chapters subject_id (DataStoreOps.db s)
  = filter (fun r => DataStore.chapter_subject_id r =? subject_id)
           (DataStore.chapters (DataStoreOps.db s))
  /\ StronglySorted
       (fun a b => DataStore.chapter_id a < DataStore.chapter_id b
                   /\ DataStore.chapter_position a
                      < DataStore.chapter_position b)
       (DataStoreOps.list_chapters subject_id (DataStoreOps.db s))
  /\ NoDup (map DataStore.chapter_id (DataStore.chapters (DataStoreOps.db s)))
  /\ Forall (fun r => 1 <= DataStore.chapter_id r)
            (DataStore.chapters (DataStoreOps.db s)).
Proof.
  intros s.
  destruct (apply_calls_grow cs DataStoreOps.empty empty_grow) as [Hc _].
  fold s in Hc. pose proof (chapters_grow_listed subject_id s Hc) as L.
  destruct Hc as (H1 & H2 & H3 & H4).
  split; [exact L|]. split; [|split].
  - rewrite L. unfold DataStoreOps.chapters_of.
    revert H1 H2. generalize (DataStore.chapters (DataStoreOps.db s)) as l.
    intros l S1. induction S1 as [|a l Hs IH Ha]; intros S2; cbn;
      [constructor|].
    inversion S2 as [|? ? S2' Fa]; subst.
    destruct (Z.eqb_spec (DataStore.chapter_subject_id a) subject_id)
      as [Ea|_]; [|now apply IH].
    constructor; [now apply IH|].
    apply Forall_forall. intros b Hb. apply filter_In in Hb.
    destruct Hb as [Hb Eb]. apply Z.eqb_eq in Eb.
    rewrite Forall_forall in Ha, Fa. split; [now apply Ha|].
    apply Fa; [exact Hb | congruence].
  - now apply StronglySorted_lt_NoDup.
  - eapply Forall_impl; [|exact H3]. cbv beta. intros a. lia.
Qed.

(** X7.  In such a store no two subjects share a name or an id, and
    every subject id is at least 1, whatever was created, renamed and
    deleted. *)
Theorem subjects_stay_distinct (cs : list DataStoreOps.call) :
  let s := DataStoreOps.apply_calls cs DataStoreOps.empty in
  NoDup (map DataStore.subject_name (DataStore.subjects (DataStoreOps.db s)))
  /\ NoDup (map DataStore.subject_rowid
                (DataStore.subjects (DataStoreOps.db s)))
  /\ Forall (fun r => 1 <= DataStore.subject_rowid r)
            (DataStore.subjects (DataStoreOps.db s)).
Proof.
  intros s.
  destruct (apply_calls_grow cs DataStoreOps.empty empty_grow)
    as [_ (H1 & H2 & H3 & H4)].
  fold s in H1, H2, H3. split; [exact H3|]. split.
  - now apply StronglySorted_lt_NoDup.
  - eapply Forall_impl; [|exact H2]. cbv beta. intros a. lia.
Qed.

(** ** Subjects *)

(** X8.  When [create_subject] returns, the table has one more row, the
    last, with the returned id, the stripped name and the stripped
    colour; the id is in no other row and above every id handed out
    before, and no subject had that name.  From then on creating a
    subject whose name strips to the same text raises: [IntegrityError],
    or [OperationalError] when the id was the largest 64-bit integer and
    the table is full. *)
Theorem create_subject_then_duplicate_fails
    (name color : string) (utcnow : PyDatetime.datetime)
    (s s' : DataStoreOps.store) (id : Z) :
  DataStoreOps.create_subject name color utcnow s = inr (s', id) ->
  DataStore.subjects (DataStoreOps.db s')
  = DataStore.subjects (DataStoreOps.db s)
      ++ [DataStore.mk_subject id (DataStoreOps.strip name)
            (DataStoreOps.strip color)
            (DataStoreOps.current_timestamp utcnow)]
  /\ ~ In id (map DataStore.subject_rowid
                  (DataStore.subjects (DataStoreOps.db s)))
  /\ DataStoreOps.subject_seq s < id <= DataStore.INT64_MAX
  /\ ~ In (DataStoreOps.strip name)
          (map DataStore.subject_name (DataStore.subjects (DataStoreOps.db s)))
  /\ (forall name' color' utcnow',
        DataStoreOps.strip name' = DataStoreOps.strip name ->
        DataStoreOps.create_subject name' color' utcnow' s'
        = inl (if id =? DataStore.INT64_MAX then OperationalError
               else IntegrityError)).
Proof.
  intros E. apply create_subject_inr in E. destruct E as (Q & T & -> & ->).
  destruct (next_id_above
              (map DataStore.subject_rowid
                   (DataStore.subjects (DataStoreOps.db s)))
              (DataStoreOps.subject_seq s)) as [Hseq Hids].
  cbn [DataStoreOps.db DataStore.subjects].
  split; [reflexivity|]. split; [|split; [|split]].
  - intros Hin. rewrite Forall_forall in Hids. apply Hids in Hin. lia.
  - split; [exact Hseq|]. unfold DataStoreOps.next_id. lia.
  - intros Hin. apply name_taken_spec in Hin. congruence.
  - intros name' color' utcnow' En.
    unfold DataStoreOps.create_subject, DataStoreOps.sql_insert_subject,
      DataStore.autoincrement.
    cbn [DataStoreOps.db DataStore.subjects DataStoreOps.subject_seq].
    rewrite map_app. cbn [map DataStore.subject_rowid].
    rewrite largest_id_app, En.
    destruct (Z.eqb_spec
                (DataStoreOps.next_id
                   (map DataStore.subject_rowid
                        (DataStore.subjects (DataStoreOps.db s)))
                   (DataStoreOps.subject_seq s))
                DataStore.INT64_MAX) as [Ei|Ni].
    + rewrite Ei, Z.leb_refl. reflexivity.
    + destruct (Z.leb_spec DataStore.INT64_MAX
                  (DataStoreOps.next_id
                     (map DataStore.subject_rowid
                          (DataStore.subjects (DataStoreOps.db s)))
                     (DataStoreOps.subject_seq s))) as [Hge|_].
      * unfold DataStoreOps.next_id in *. lia.
      * cbn [bind].
        replace (DataStoreOps.name_taken (DataStoreOps.strip name) None _)
          with true; [reflexivity|].
        symmetry. apply name_taken_spec. rewrite map_app. apply in_or_app.
        right. now left.
Qed.

Lemma create_subject_then_duplicate_fails_witness :
  exists s' id,
    DataStoreOps.create_subject " Algebra " "#7ac7ff" Samples.noon
      DataStoreOps.empty = inr (s', id)
    /\ map DataStore.subject_name (DataStore.subjects (DataStoreOps.db s'))
       = ["Algebra"]
    /\ DataStoreOps.create_subject "Algebra  " "#ffffff" Samples.noon s'
       = inl IntegrityError.
Proof.
  eexists. eexists. split; [reflexivity|].
  destruct (create_subject_then_duplicate_fails " Algebra " "#7ac7ff"
              Samples.noon DataStoreOps.empty _ _ eq_refl)
    as (H1 & _ & _ & _ & H5).
  split; [rewrite H1; reflexivity|].
  apply (H5 "Algebra  " "#ffffff" Samples.noon). reflexivity.
Defined.

(** X9.  [rename_subject] raises in exactly two cases: with
    [OverflowError] when the id is no 64-bit integer, and with
    [IntegrityError] when the subject exists and another subject already
    has the stripped new name.  Otherwise it returns, every row with the
    given id now carries the stripped name, all other rows and the two
    other tables are as before; for an id that no subject has the store
    is returned unchanged, whether or not the name is taken. *)
Theorem rename_subject_outcomes
    (subject_id : Z) (new_name : string) (s : DataStoreOps.store) :
  match DataStoreOps.rename_subject subject_id new_name s with
  | inl e =>
      (e = OverflowError
       /\ ~ DataStore.INT64_MIN <= subject_id <= DataStore.INT64_MAX)
      \/ (e = IntegrityError
          /\ DataStore.INT64_MIN <= subject_id <= DataStore.INT64_MAX
          /\ exists r other,
               In r (DataStore.subjects (DataStoreOps.db s))
               /\ DataStore.subject_rowid r = subject_id
               /\ In other (DataStore.subjects (DataStoreOps.db s))
               /\ DataStore.subject_rowid other <> subject_id
               /\ DataStore.subject_name other = DataStoreOps.strip new_name)
  | inr s' =>
      DataStore.INT64_MIN <= subject_id <= DataStore.INT64_MAX
      /\ DataStore.subjects (DataStoreOps.db s')
         = map (fun r =>
                  if DataStore.subject_rowid r =? subject_id
                  then DataStore.mk_subject (DataStore.subject_rowid r)
                         (DataStoreOps.strip new_name)
                         (DataStore.subject_color r)
                         (DataStore.subject_created_at r)
                  else r)
               (DataStore.subjects (DataStoreOps.db s))
      /\ DataStore.chapters (DataStoreOps.db s')
         = DataStore.chapters (DataStoreOps.db s)
      /\ DataStore.sessions (DataStoreOps.db s')
         = DataStore.sessions (DataStoreOps.db s)
      /\ (forall r other,
            In r (DataStore.subjects (DataStoreOps.db s)) ->
            DataStore.subject_rowid r = subject_id ->
            In other (DataStore.subjects (DataStoreOps.db s)) ->
            DataStore.subject_rowid other <> subject_id ->
            DataStore.subject_name other <> DataStoreOps.strip new_name)
      /\ (~ In subject_id
              (map DataStore.subject_rowid
                   (DataStore.subjects (DataStoreOps.db s))) ->
          s' = s)
  end.
Proof.
  unfold DataStoreOps.rename_subject, DataStoreOps.sql_rename_subject,
    DataStore.bind_int.
  destruct (DataStore.int64 subject_id) eqn:I; cbn [bind].
  2:{ left. split; [reflexivity|]. intros H. apply int64_range in H.
      congruence. }
  apply int64_range in I.
  destruct (existsb _ _) eqn:X; cbn [andb].
  - apply existsb_exists in X. destruct X as (r & Hr & Er).
    apply Z.eqb_eq in Er.
    destruct (DataStoreOps.name_taken _ _ _) eqn:T.
    + right. split; [reflexivity|]. split; [exact I|].
      apply name_taken_but_spec in T. destruct T as (o & Ho & En & Eo).
      now exists r, o.
    + cbn [DataStoreOps.db DataStoreOps.with_subjects DataStore.subjects
           DataStore.chapters DataStore.sessions].
      split; [exact I|].
      split; [reflexivity|]. split; [reflexivity|]. split; [reflexivity|].
      split.
      * intros r0 o _ _ Ho Eo En.
        assert (DataStoreOps.name_taken (DataStoreOps.strip new_name)
                  (Some subject_id) (DataStore.subjects (DataStoreOps.db s))
                = true); [|congruence].
        apply name_taken_but_spec. now exists o.
      * intros Hn. exfalso. apply Hn. rewrite <- Er. now apply in_map.
  - cbn [DataStoreOps.db DataStoreOps.with_subjects DataStore.subjects
         DataStore.chapters DataStore.sessions].
    split; [exact I|].
    split; [reflexivity|]. split; [reflexivity|]. split; [reflexivity|].
    assert (N : forall r, In r (DataStore.subjects (DataStoreOps.db s)) ->
                          DataStore.subject_rowid r <> subject_id).
    { intros r Hr E.
      assert (existsb (fun r => DataStore.subject_rowid r =? subject_id)
                (DataStore.subjects (DataStoreOps.db s)) = true);
        [|congruence].
      apply existsb_exists. exists r. split; [exact Hr | now apply Z.eqb_eq]. }
    split.
    + intros r o Hr Er. exfalso. now apply (N r).
    + intros _.
      assert (G : forall l,
                 (forall r, In r l -> DataStore.subject_rowid r <> subject_id) ->
                 map (fun r =>
                        if DataStore.subject_rowid r =? subject_id
                        then DataStoreOps.set_name
                               (DataStoreOps.strip new_name) r
                        else r) l = l).
      { induction l as [|a l IH]; intros Hl; cbn [map]; [reflexivity|].
        destruct (Z.eqb_spec (DataStore.subject_rowid a) subject_id) as [E|_].
        - exfalso. apply (Hl a); [now left | exact E].
        - f_equal. apply IH. intros r Hr. apply Hl. now right. }
      rewrite (G _ N). destruct s as [[subs sess chaps sseq] q1 q2].
      reflexivity.
Qed.

(** ** Statistics: day, month and the monthly cards *)

Section MonthlyStatistics.

Import PyDatetime Calendar DataStore SessionLog Months.

Lemma date_compare_eq (y1 m1 d1 y2 m2 d2 : Z) :
  date_compare y1 m1 d1 y2 m2 d2 = Eq -> y1 = y2 /\ m1 = m2 /\ d1 = d2.
Proof.
  unfold date_compare, lex.
  destruct (Z.compare_spec y1 y2); try discriminate.
  destruct (Z.compare_spec m1 m2); try discriminate.
  destruct (Z.compare_spec d1 d2); try discriminate. auto.
Qed.

(** Two dates of the calendar with the same ordinal are the same date. *)
Lemma ymd2ord_inj (y1 m1 d1 y2 m2 d2 : Z) :
  valid_date y1 m1 d1 -> valid_date y2 m2 d2 ->
  _ymd2ord y1 m1 d1 = _ymd2ord y2 m2 d2 ->
  y1 = y2 /\ m1 = m2 /\ d1 = d2.
Proof.
  intros V1 V2 E. apply date_compare_eq.
  rewrite <- (ymd2ord_compare _ _ _ _ _ _ V1 V2). now apply Z.compare_eq_iff.
Qed.

Lemma ymd2ord_day (y m d : Z) : _ymd2ord y m d = _ymd2ord y m 1 + d - 1.
Proof. unfold _ymd2ord. lia. Qed.

(** The first of the next month comes one month length later. *)
Lemma ymd2ord_next_month (y m : Z) :
  1 <= m <= 12 ->
  _ymd2ord (fst (next_month (y, m))) (snd (next_month (y, m))) 1
  = _ymd2ord y m 1 + _days_in_month y m.
Proof.
  intros Hm. unfold next_month.
  destruct (Z.eqb_spec m 12) as [->|Hne]; cbn [fst snd].
  - unfold _ymd2ord, _days_before_month, _days_in_month.
    rewrite days_before_year_succ. destruct (_is_leap y); month_tables; lia.
  - unfold _ymd2ord, _days_before_month, _days_in_month.
    generalize (_is_leap y) as leap. intros leap.
    destruct leap; month_cases m; try lia;
      match goal with
      | |- context [Z.add (Zpos ?p) 1] =>
          let v := eval compute in (Z.add (Zpos p) 1) in
          change (Z.add (Zpos p) 1) with v
      end; month_tables; lia.
Qed.

Lemma next_prev_month (y m : Z) :
  1 <= m <= 12 -> next_month (prev_month (y, m)) = (y, m).
Proof.
  intros Hm. unfold prev_month, next_month.
  destruct (Z.eqb_spec m 1) as [->|H1]; [cbn; f_equal; lia|].
  destruct (Z.eqb_spec (m - 1) 12); [lia|]. f_equal. lia.
Qed.

Lemma next_month_range (y m : Z) :
  1 <= m <= 12 ->
  y <= fst (next_month (y, m)) <= y + 1 /\ 1 <= snd (next_month (y, m)) <= 12.
Proof.
  intros Hm. unfold next_month. destruct (Z.eqb_spec m 12); cbn; lia.
Qed.

Lemma prev_month_range (y m : Z) :
  1 <= m <= 12 ->
  y - 1 <= fst (prev_month (y, m)) <= y /\ 1 <= snd (prev_month (y, m)) <= 12.
Proof.
  intros Hm. unfold prev_month. destruct (Z.eqb_spec m 1); cbn; lia.
Qed.

Lemma prev_month_index (y m : Z) :
  1 <= m <= 12 ->
  12 * (fst (prev_month (y, m)) - 1) + (snd (prev_month (y, m)) - 1)
  = 12 * (y - 1) + (m - 1) - 1.
Proof.
  intros Hm. unfold prev_month. destruct (Z.eqb_spec m 1); cbn [fst snd]; lia.
Qed.

(** [(m_start + timedelta(days=32)).replace(day=1)] is the first of the
    next month. *)
Lemma month_end_spec (y m : Z) :
  1 <= y <= 9998 -> 1 <= m <= 12 ->
  exists later,
    add_days (midnight y m 1) 32 = inr later
    /\ replace_day1 later
       = midnight (fst (next_month (y, m))) (snd (next_month (y, m))) 1.
Proof.
  intros Hy Hm.
  pose proof (days_in_month_bounds y m Hm) as Hdim.
  pose proof (next_month_range y m Hm) as [Hny Hnm].
  pose proof (ymd2ord_next_month y m Hm) as Hnext.
  set (ny := fst (next_month (y, m))) in *.
  set (nm := snd (next_month (y, m))) in *.
  pose proof (days_in_month_bounds ny nm Hnm) as Hndim.
  assert (V : valid_date y m 1) by (unfold valid_date, MINYEAR, MAXYEAR; lia).
  assert (Vn : valid_date ny nm (33 - _days_in_month y m))
    by (unfold valid_date, MINYEAR, MAXYEAR; lia).
  assert (Vl : valid_date 9999 12 31)
    by (unfold valid_date, MINYEAR, MAXYEAR; cbn; lia).
  assert (Hmax : _ymd2ord ny nm (33 - _days_in_month y m) <= _MAXORDINAL).
  { change _MAXORDINAL with (_ymd2ord 9999 12 31).
    pose proof (ymd2ord_compare _ _ _ _ _ _ Vn Vl) as C.
    destruct (date_compare ny nm (33 - _days_in_month y m) 9999 12 31) eqn:D.
    - rewrite Z.compare_eq_iff in C. lia.
    - rewrite Z.compare_lt_iff in C. lia.
    - exfalso. revert D. unfold date_compare, lex.
      destruct (Z.compare_spec ny 9999); try lia; try discriminate.
      destruct (Z.compare_spec nm 12); try lia; try discriminate.
      destruct (Z.compare_spec (33 - _days_in_month y m) 31); try lia;
        discriminate. }
  assert (Hlo : 1 <= _ymd2ord y m 1).
  { pose proof (days_in_year_bounds y m 1 Hm ltac:(lia)).
    pose proof (days_before_year_mono 1 y ltac:(lia)).
    change (_days_before_year 1) with 0 in *. unfold _ymd2ord. lia. }
  rewrite (ymd2ord_day ny nm) in Hmax.
  destruct (add_days_midnight y m 1 32 V ltac:(lia))
    as (y' & m' & d' & E & V' & O).
  destruct (ymd2ord_inj y' m' d' ny nm (33 - _days_in_month y m) V' Vn)
    as (-> & -> & ->).
  { rewrite O, (ymd2ord_day ny nm). lia. }
  eexists. split; [exact E|]. reflexivity.
Qed.

(** [(m_start - timedelta(days=1)).replace(day=1)] is the first of the
    previous month. *)
Lemma month_before_spec (y m : Z) :
  1 <= y <= 9999 -> 1 <= m <= 12 -> 1 <= 12 * (y - 1) + (m - 1) ->
  exists earlier,
    add_days (midnight y m 1) (- 1) = inr earlier
    /\ replace_day1 earlier
       = midnight (fst (prev_month (y, m))) (snd (prev_month (y, m))) 1.
Proof.
  intros Hy Hm Hidx.
  pose proof (prev_month_range y m Hm) as [Hpy Hpm].
  pose proof (prev_month_index y m Hm) as Hpi.
  pose proof (next_prev_month y m Hm) as Hnp.
  destruct (prev_month (y, m)) as [py pm] eqn:P. cbn [fst snd] in *.
  pose proof (ymd2ord_next_month py pm Hpm) as Hnext.
  rewrite Hnp in Hnext. cbn [fst snd] in Hnext.
  pose proof (days_in_month_bounds py pm Hpm) as Hdim.
  pose proof (days_in_month_bounds y m Hm) as Hdim'.
  assert (V : valid_date y m 1) by (unfold valid_date, MINYEAR, MAXYEAR; lia).
  assert (Vp : valid_date py pm (_days_in_month py pm))
    by (unfold valid_date, MINYEAR, MAXYEAR; lia).
  assert (Hlo : 1 <= _ymd2ord py pm 1).
  { pose proof (days_in_year_bounds py pm 1 Hpm ltac:(lia)).
    pose proof (days_before_year_mono 1 py ltac:(lia)).
    change (_days_before_year 1) with 0 in *. unfold _ymd2ord. lia. }
  assert (Hhi : _ymd2ord y m 1 <= _MAXORDINAL).
  { pose proof (days_in_year_bounds y m 1 Hm ltac:(lia)) as B.
    unfold _ymd2ord, _MAXORDINAL.
    destruct (Z.eq_dec y 9999) as [->|Hne].
    - change (_is_leap 9999) with false in B.
      change (_days_before_year 9999) with 3651694. lia.
    - pose proof (days_before_year_succ y).
      pose proof (days_before_year_mono (y + 1) 9999 ltac:(lia)).
      change (_days_before_year 9999) with 3651694 in *. lia. }
  destruct (add_days_midnight y m 1 (- 1) V ltac:(lia))
    as (y' & m' & d' & E & V' & O).
  destruct (ymd2ord_inj y' m' d' py pm (_days_in_month py pm) V' Vp)
    as (-> & -> & ->).
  { rewrite O, (ymd2ord_day py pm). lia. }
  eexists. split; [exact E|]. reflexivity.
Qed.

Lemma months_back_years (n : nat) :
  forall y m, 1 <= m <= 12 ->
    Forall (fun ym => y - Z.of_nat n <= fst ym <= y /\ 1 <= snd ym <= 12)
           (months_back n (y, m)).
Proof.
  induction n as [|n IH]; intros y m Hm; cbn [months_back]; [constructor|].
  constructor; [cbn; lia|].
  pose proof (prev_month_range y m Hm) as [Hpy Hpm].
  destruct (prev_month (y, m)) as [py pm]. cbn [fst snd] in *.
  eapply Forall_impl; [|apply (IH py pm Hpm)]. cbv beta. intros a. lia.
Qed.

Section Cards.

Variable db : database.
Variable log : list entry.
Hypothesis db_records : records db log.
Hypothesis log_well_formed : well_formed log.
Hypothesis log_bounded : magnitude log <= INT64_MAX.

(** The monthly cards: one per month, latest first, each with the minutes
    logged from the start of the month to the start of the next. *)
Lemma month_cards_loop_spec (rounds : nat) :
  forall y m,
    1 <= y <= 9998 -> 1 <= m <= 12 ->
    Z.of_nat rounds <= 12 * (y - 1) + (m - 1) ->
    month_cards_loop db (midnight y m 1) rounds
    = inr (map (fun ym => (month_abbr ym, minutes_in_month log ym))
               (months_back rounds (y, m))).
Proof.
  induction rounds as [|rounds IH]; intros y m Hy Hm Hidx; [reflexivity|].
  cbn [month_cards_loop months_back map].
  destruct (month_end_spec y m ltac:(lia) Hm) as (later & E1 & R1).
  rewrite E1. cbn [bind].
  destruct (month_before_spec y m ltac:(lia) Hm ltac:(lia))
    as (earlier & E2 & R2).
  rewrite R1.
  pose proof (prev_month_range y m Hm) as [Hpy Hpm].
  pose proof (prev_month_index y m Hm) as Hpi.
  pose proof (next_month_range y m Hm) as [Hny Hnm].
  rewrite (total_between_spec db log db_records log_well_formed log_bounded).
  - cbn [bind]. rewrite E2. cbn [bind]. rewrite R2.
    destruct (prev_month (y, m)) as [py pm]. cbn [fst snd] in *.
    rewrite (IH py pm) by lia. cbn [bind]. do 2 f_equal.
    unfold month_abbr, minutes_in_month, month_start. cbn [fst snd]. f_equal.
    now rewrite !instant_midnight.
  - apply valid_midnight. unfold valid_date, MINYEAR, MAXYEAR.
    pose proof (days_in_month_bounds y m Hm). lia.
  - apply valid_midnight. unfold valid_date, MINYEAR, MAXYEAR.
    pose proof (days_in_month_bounds (fst (next_month (y, m)))
                  (snd (next_month (y, m))) Hnm). lia.
Qed.

End Cards.

Lemma minutes_from_split (log : list entry) (lo hi : Z) :
  lo <= hi ->
  minutes_from log lo = minutes_between log lo hi + minutes_from log hi.
Proof.
  intros H. induction log as [|e log IH]; cbn [minutes_from minutes_between];
    [reflexivity|].
  rewrite IH.
  destruct (Z.leb_spec lo (instant (entry_when e))),
           (Z.ltb_spec (instant (entry_when e)) hi),
           (Z.leb_spec hi (instant (entry_when e))); cbn [andb]; lia.
Qed.

Lemma minutes_between_split (log : list entry) (lo mid hi : Z) :
  lo <= mid -> mid <= hi ->
  minutes_between log lo hi
  = minutes_between log lo mid + minutes_between log mid hi.
Proof.
  intros H1 H2. induction log as [|e log IH]; cbn [minutes_between];
    [reflexivity|].
  rewrite IH.
  destruct (Z.leb_spec lo (instant (entry_when e))),
           (Z.ltb_spec (instant (entry_when e)) hi),
           (Z.leb_spec mid (instant (entry_when e))),
           (Z.ltb_spec (instant (entry_when e)) mid); cbn [andb]; lia.
Qed.

(** What [get_stats] returns, in terms of the log: [k] is the number of
    days since Sunday. *)
Lemma get_stats_shape (now : datetime) (db : database) (log : list entry) :
  valid now -> 2 <= year now <= 9998 ->
  records db log -> well_formed log -> magnitude log <= INT64_MAX ->
  exists k,
    0 <= k <= 6
    /\ (toordinal now - k) mod 7 = 0
    /\ get_stats now db
       = inr (mk_stats
                (minutes_from log (day_start (toordinal now)))
                (minutes_from log (day_start (toordinal now - k)))
                (minutes_from log (month_start (year now, month now)))
                (map (fun o =>
                        (day_abbr ((toordinal now - k + o + 6) mod 7),
                         minutes_on_day log (toordinal now - k + o)))
                     [0; 1; 2; 3; 4; 5; 6])
                (map (fun ym => (month_abbr ym, minutes_in_month log ym))
                     (months_back 3 (year now, month now)))).
Proof.
  intros V Hyear R W B.
  destruct V as (Hy & Hm & Hd & Htime).
  assert (Vd : valid_date (year now) (month now) (day now))
    by (repeat split; lia).
  pose proof (ordinal_margin _ _ _ Vd Hyear) as Hord.
  unfold _MAXORDINAL in Hord.
  unfold get_stats.
  set (ds := midnight _ _ _).
  change (toordinal now) with (_ymd2ord (year now) (month now) (day now)).
  set (today := _ymd2ord (year now) (month now) (day now)) in *.
  assert (Hwd : weekday ds = (today + 6) mod 7) by reflexivity.
  rewrite Hwd.
  set (k := ((today + 6) mod 7 + 1) mod 7).
  assert (Hk : 0 <= k <= 6 /\ (today - k) mod 7 = 0).
  { subst k. Z.to_euclidean_division_equations. lia. }
  exists k. split; [apply Hk|]. split; [apply Hk|].
  destruct (add_days_midnight _ _ _ (- k) Vd) as (y1 & m1 & d1 & E1 & V1 & O1).
  { fold today. unfold _MAXORDINAL. lia. }
  fold today in O1. fold ds in E1. rewrite E1. cbn [bind].
  assert (Vms : valid (midnight (year now) (month now) 1)).
  { apply valid_midnight.
    pose proof (days_in_month_bounds (year now) (month now) Hm).
    repeat split; lia. }
  rewrite (total_since_spec db log R W B ds) by now apply valid_midnight.
  cbn [bind].
  rewrite (total_since_spec db log R W B (midnight y1 m1 d1))
    by now apply valid_midnight.
  cbn [bind].
  rewrite (total_since_spec db log R W B _ Vms). cbn [bind].
  rewrite (bars_loop_spec db log R W B y1 m1 d1 [0; 1; 2; 3; 4; 5; 6] V1);
    [| lia | unfold _MAXORDINAL; lia | repeat constructor; lia ].
  cbn [bind].
  rewrite (month_cards_loop_spec db log R W B 3 (year now) (month now))
    by (try change (Z.of_nat 3) with 3; lia).
  cbn [bind].
  rewrite !instant_midnight, O1. unfold ds. rewrite instant_midnight.
  reflexivity.
Qed.

Lemma sum_totals_map {A : Type} (f : A -> string) (g : A -> Z) (l : list A) :
  sum_totals (map (fun a => (f a, g a)) l)
  = fold_right (fun a acc => g a + acc) 0 l.
Proof. induction l as [|a l IH]; cbn; [reflexivity | now rewrite IH]. Qed.

End MonthlyStatistics.

(** X10.  Let the sessions table hold the rows of a log of [log_session]
    calls whose minutes, added up without their signs, stay within
    2^63 - 1, and let now fall in the years 2 to 9998.  Then [get_stats]
    returns, "day" is the sum of the minutes logged at or after the start
    of the current day, "month" the sum of those logged at or after the
    start of the current month, neither with an upper limit, and
    "month_cards" is exactly three pairs: the current month, the month
    before it and the month before that, in this order, each labelled
    with the abbreviated month name and carrying the minutes logged from
    the start of that month up to the start of the following one. *)
Theorem get_stats_day_month_and_cards
    (now : PyDatetime.datetime) (db : DataStore.database)
    (log : list SessionLog.entry) :
  PyDatetime.valid now ->
  2 <= PyDatetime.year now <= 9998 ->
  SessionLog.records db log ->
  SessionLog.well_formed log ->
  SessionLog.magnitude log <= DataStore.INT64_MAX ->
  exists st : DataStore.stats,
    DataStore.get_stats now db = inr st
    /\ DataStore.stats_day st
       = SessionLog.minutes_from log
           (SessionLog.day_start (PyDatetime.toordinal now))
    /\ DataStore.stats_month st
       = SessionLog.minutes_from log
           (Months.month_start (PyDatetime.year now, PyDatetime.month now))
    /\ DataStore.stats_month_cards st
       = map (fun ym =>
                (Months.month_abbr ym,
                 SessionLog.minutes_between log
                   (Months.month_start ym)
                   (Months.month_start (Months.next_month ym))))
             (let this := (PyDatetime.year now, PyDatetime.month now) in
              [this; Months.prev_month this;
               Months.prev_month (Months.prev_month this)]).
Proof.
  intros V Hy R W B.
  destruct (get_stats_shape now db log V Hy R W B) as (k & _ & _ & E).
  eexists. split; [exact E|]. cbn [DataStore.stats_day DataStore.stats_month
                                   DataStore.stats_month_cards].
  repeat split.
Qed.

Lemma get_stats_day_month_and_cards_witness :
  exists st : DataStore.stats,
    DataStore.get_stats Samples.noon Samples.one_subject = inr st
    /\ DataStore.stats_day st
       = SessionLog.minutes_from Samples.log
           (SessionLog.day_start (PyDatetime.toordinal Samples.noon))
    /\ DataStore.stats_month st
       = SessionLog.minutes_from Samples.log
           (Months.month_start (PyDatetime.year Samples.noon,
                                PyDatetime.month Samples.noon))
    /\ DataStore.stats_month_cards st
       = map (fun ym =>
                (Months.month_abbr ym,
                 SessionLog.minutes_between Samples.log
                   (Months.month_start ym)
                   (Months.month_start (Months.next_month ym))))
             (let this := (PyDatetime.year Samples.noon,
                           PyDatetime.month Samples.noon) in
              [this; Months.prev_month this;
               Months.prev_month (Months.prev_month this)]).
Proof.
  apply (get_stats_day_month_and_cards Samples.noon Samples.one_subject
           Samples.log).
  - apply check_fields_valid. reflexivity.
  - cbn. lia.
  - repeat constructor.
  - repeat constructor; apply check_fields_valid; reflexivity.
  - cbv. discriminate.
Defined.

(** X11.  Under the same conditions the numbers of [get_stats] add up:
    "week" is the sum of the seven bars plus the minutes logged at or
    after the end of the week, "month" is the total of the first monthly
    card plus the minutes logged at or after the start of the next
    month, and "day" is never more than "week" or "month" when no session
    has negative minutes. *)
Theorem get_stats_totals_add_up
    (now : PyDatetime.datetime) (db : DataStore.database)
    (log : list SessionLog.entry) :
  PyDatetime.valid now ->
  2 <= PyDatetime.year now <= 9998 ->
  SessionLog.records db log ->
  SessionLog.well_formed log ->
  SessionLog.magnitude log <= DataStore.INT64_MAX ->
  exists (st : DataStore.stats) (sunday : Z) (card : string * Z),
    DataStore.get_stats now db = inr st
    /\ sunday <= PyDatetime.toordinal now < sunday + 7
    /\ DataStore.stats_week st
       = sum_totals (DataStore.stats_bars st)
         + SessionLog.minutes_from log (SessionLog.day_start (sunday + 7))
    /\ hd_error (DataStore.stats_month_cards st) = Some card
    /\ DataStore.stats_month st
       = snd card
         + SessionLog.minutes_from log
             (Months.month_start
                (Months.next_month
                   (PyDatetime.year now, PyDatetime.month now)))
    /\ (Forall (fun e => 0 <= SessionLog.entry_minutes e) log ->
        DataStore.stats_day st <= DataStore.stats_week st
        /\ DataStore.stats_day st <= DataStore.stats_month st).
Proof.
  intros V Hy R W B.
  destruct (get_stats_shape now db log V Hy R W B) as (k & Hk & Hmod & E).
  eexists. exists (PyDatetime.toordinal now - k). eexists.
  split; [exact E|].
  cbn [DataStore.stats_day DataStore.stats_week DataStore.stats_month
       DataStore.stats_bars DataStore.stats_month_cards].
  set (sun := PyDatetime.toordinal now - k).
  split; [lia|]. split; [|split; [reflexivity|split]].
  - cbn [map sum_totals]. unfold SessionLog.minutes_on_day.
    assert (D : forall a b, a <= b ->
                  SessionLog.day_start a <= SessionLog.day_start b).
    { intros a b. unfold SessionLog.day_start, PyDatetime.one_day. lia. }
    rewrite (minutes_from_split log (SessionLog.day_start sun)
               (SessionLog.day_start (sun + 7))) by (apply D; lia).
    rewrite (minutes_between_split log _ (SessionLog.day_start (sun + 1)) _)
      by (apply D; lia).
    rewrite (minutes_between_split log (SessionLog.day_start (sun + 1))
               (SessionLog.day_start (sun + 2)) _) by (apply D; lia).
    rewrite (minutes_between_split log (SessionLog.day_start (sun + 2))
               (SessionLog.day_start (sun + 3)) _) by (apply D; lia).
    rewrite (minutes_between_split log (SessionLog.day_start (sun + 3))
               (SessionLog.day_start (sun + 4)) _) by (apply D; lia).
    rewrite (minutes_between_split log (SessionLog.day_start (sun + 4))
               (SessionLog.day_start (sun + 5)) _) by (apply D; lia).
    rewrite (minutes_between_split log (SessionLog.day_start (sun + 5))
               (SessionLog.day_start (sun + 6)) _) by (apply D; lia).
    replace (sun + 0) with sun by lia.
    replace (sun + 1 + 1) with (sun + 2) by lia.
    replace (sun + 2 + 1) with (sun + 3) by lia.
    replace (sun + 3 + 1) with (sun + 4) by lia.
    replace (sun + 4 + 1) with (sun + 5) by lia.
    replace (sun + 5 + 1) with (sun + 6) by lia.
    replace (sun + 6 + 1) with (sun + 7) by lia.
    lia.
  - cbn [snd]. unfold Months.minutes_in_month.
    apply minutes_from_split.
    destruct V as (_ & Hm & _).
    pose proof (ymd2ord_next_month (PyDatetime.year now) (PyDatetime.month now)
                  Hm) as N.
    pose proof (days_in_month_bounds (PyDatetime.year now)
                  (PyDatetime.month now) Hm).
    unfold Months.month_start, SessionLog.day_start, PyDatetime.one_day.
    cbn [fst snd] in *. lia.
  - intros Pos.
    assert (M : forall lo hi, lo <= hi ->
                  SessionLog.minutes_from log hi
                  <= SessionLog.minutes_from log lo).
    { intros lo hi Hl. clear - Pos Hl.
      induction Pos as [|e l He _ IH]; cbn [SessionLog.minutes_from]; [lia|].
      destruct (Z.leb_spec lo (PyDatetime.instant (SessionLog.entry_when e))),
               (Z.leb_spec hi (PyDatetime.instant (SessionLog.entry_when e)));
        lia. }
    split; apply M.
    + unfold SessionLog.day_start, PyDatetime.one_day. lia.
    + destruct V as (_ & Hm & Hd & _).
      unfold Months.month_start, SessionLog.day_start, PyDatetime.one_day,
        PyDatetime.toordinal, PyDatetime._ymd2ord.
      cbn [fst snd]. lia.
Qed.

Lemma get_stats_totals_add_up_witness :
  exists (st : DataStore.stats) (sunday : Z) (card : string * Z),
    DataStore.get_stats Samples.noon Samples.one_subject = inr st
    /\ sunday <= PyDatetime.toordinal Samples.noon < sunday + 7
    /\ DataStore.stats_week st
       = sum_totals (DataStore.stats_bars st)
         + SessionLog.minutes_from Samples.log
             (SessionLog.day_start (sunday + 7))
    /\ hd_error (DataStore.stats_month_cards st) = Some card
    /\ DataStore.stats_month st
       = snd card
         + SessionLog.minutes_from Samples.log
             (Months.month_start
                (Months.next_month
                   (PyDatetime.year Samples.noon,
                    PyDatetime.month Samples.noon)))
    /\ (Forall (fun e => 0 <= SessionLog.entry_minutes e) Samples.log ->
        DataStore.stats_day st <= DataStore.stats_week st
        /\ DataStore.stats_day st <= DataStore.stats_month st).
Proof.
  apply (get_stats_totals_add_up Samples.noon Samples.one_subject Samples.log).
  - apply check_fields_valid. reflexivity.
  - cbn. lia.
  - repeat constructor.
  - repeat constructor; apply check_fields_valid; reflexivity.
  - cbv. discriminate.
Defined.

(** ** The timers in use *)

Section DialogActions.

Import TimerEditDialog DialogUse.

Lemma act_in_range (a : action) (d : t) :
  in_range (pending_hours d) (pending_minutes d) (pending_seconds d) ->
  in_range (pending_hours (act a d)) (pending_minutes (act a d))
           (pending_seconds (act a d)).
Proof.
  unfold in_range. intros H.
  destruct a as [f up|f text]; destruct f; cbn; unfold clamp; lia.
Qed.

Lemma perform_in_range (acts : list action) :
  forall d,
    in_range (pending_hours d) (pending_minutes d) (pending_seconds d) ->
    in_range (pending_hours (perform acts d)) (pending_minutes (perform acts d))
             (pending_seconds (perform acts d)).
Proof.
  unfold perform.
  induction acts as [|a acts IH]; intros d H; cbn [fold_left]; [exact H|].
  apply IH. now apply act_in_range.
Qed.

Lemma nudges_up (f : field) (n : nat) :
  forall d,
    perform (repeat (Nudge f true) n) d
    = match f with
      | FieldH => mk (if (0 <? Z.of_nat n)
                      then clamp 0 23 (Z.max (-1 + Z.of_nat n)
                                             (pending_hours d + Z.of_nat n))
                      else pending_hours d)
                     (pending_minutes d) (pending_seconds d)
      | FieldM => mk (pending_hours d)
                     (if (0 <? Z.of_nat n)
                      then clamp 0 59 (Z.max (-1 + Z.of_nat n)
                                             (pending_minutes d + Z.of_nat n))
                      else pending_minutes d)
                     (pending_seconds d)
      | FieldS => mk (pending_hours d) (pending_minutes d)
                     (if (0 <? Z.of_nat n)
                      then clamp 0 59 (Z.max (-1 + Z.of_nat n)
                                             (pending_seconds d + Z.of_nat n))
                      else pending_seconds d)
      end.
Proof.
  unfold perform.
  induction n as [|n IH]; intros d.
  - destruct f, d; reflexivity.
  - cbn [repeat fold_left]. rewrite IH. rewrite Nat2Z.inj_succ.
    destruct (Z.ltb_spec 0 (Z.succ (Z.of_nat n))); [|lia].
    destruct f; cbn [act _nudge pending_hours pending_minutes pending_seconds];
      f_equal; destruct (Z.ltb_spec 0 (Z.of_nat n)); unfold clamp; lia.
Qed.

Lemma nudges_down (f : field) (n : nat) :
  forall d,
    perform (repeat (Nudge f false) n) d
    = match f with
      | FieldH => mk (if (0 <? Z.of_nat n)
                      then clamp 0 23 (Z.min (24 - Z.of_nat n)
                                             (pending_hours d - Z.of_nat n))
                      else pending_hours d)
                     (pending_minutes d) (pending_seconds d)
      | FieldM => mk (pending_hours d)
                     (if (0 <? Z.of_nat n)
                      then clamp 0 59 (Z.min (60 - Z.of_nat n)
                                             (pending_minutes d - Z.of_nat n))
                      else pending_minutes d)
                     (pending_seconds d)
      | FieldS => mk (pending_hours d) (pending_minutes d)
                     (if (0 <? Z.of_nat n)
                      then clamp 0 59 (Z.min (60 - Z.of_nat n)
                                             (pending_seconds d - Z.of_nat n))
                      else pending_seconds d)
      end.
Proof.
  unfold perform.
  induction n as [|n IH]; intros d.
  - destruct f, d; reflexivity.
  - cbn [repeat fold_left]. rewrite IH. rewrite Nat2Z.inj_succ.
    destruct (Z.ltb_spec 0 (Z.succ (Z.of_nat n))); [|lia].
    destruct f; cbn [act _nudge pending_hours pending_minutes pending_seconds];
      f_equal; destruct (Z.ltb_spec 0 (Z.of_nat n)); unfold clamp; lia.
Qed.

End DialogActions.

(** X12.  The arrow buttons of the editor saturate: on a dialog opened
    on a time of day, [n] presses of an up arrow add [n] to that field up
    to its maximum (23 for hours, 59 for minutes and seconds), [n]
    presses of a down arrow subtract [n] down to 0, and the two other
    fields keep their values: nothing wraps around and nothing carries
    over. *)
Theorem nudges_saturate (h m s : Z) (n : nat) :
  DialogUse.in_range h m s ->
  let d := TimerEditDialog.init h m s in
  let press f up := TimerEditDialog.result_time
                      (DialogUse.perform (repeat (DialogUse.Nudge f up) n) d) in
  press TimerEditDialog.FieldH true = (Z.min 23 (h + Z.of_nat n), m, s)
  /\ press TimerEditDialog.FieldM true = (h, Z.min 59 (m + Z.of_nat n), s)
  /\ press TimerEditDialog.FieldS true = (h, m, Z.min 59 (s + Z.of_nat n))
  /\ press TimerEditDialog.FieldH false = (Z.max 0 (h - Z.of_nat n), m, s)
  /\ press TimerEditDialog.FieldM false = (h, Z.max 0 (m - Z.of_nat n), s)
  /\ press TimerEditDialog.FieldS false = (h, m, Z.max 0 (s - Z.of_nat n)).
Proof.
  intros (Hh & Hm & Hs) d press. unfold press.
  rewrite !nudges_up, !nudges_down. unfold d, TimerEditDialog.init.
  cbn [TimerEditDialog.result_time TimerEditDialog.pending_hours
       TimerEditDialog.pending_minutes TimerEditDialog.pending_seconds].
  destruct (Z.ltb_spec 0 (Z.of_nat n));
    repeat split; unfold TimerEditDialog.result_time;
    cbn [TimerEditDialog.pending_hours TimerEditDialog.pending_minutes
         TimerEditDialog.pending_seconds];
    repeat match goal with |- (_, _) = (_, _) => f_equal end;
    unfold clamp; lia.
Qed.

Lemma nudges_saturate_witness :
  let d := TimerEditDialog.init 22 58 1 in
  let press f up := TimerEditDialog.result_time
                      (DialogUse.perform (repeat (DialogUse.Nudge f up) 3) d) in
  press TimerEditDialog.FieldH true = (23, 58, 1)
  /\ press TimerEditDialog.FieldS false = (22, 58, 0).
Proof.
  destruct (nudges_saturate 22 58 1 3) as (H1 & _ & _ & _ & _ & H6).
  - unfold DialogUse.in_range. lia.
  - split; [exact H1 | exact H6].
Defined.

Section StopwatchHistories.

Import StopwatchWidget StopwatchUse.

Lemma reported_app (a b : list event) :
  reported (a ++ b) = reported a + reported b.
Proof.
  induction a as [|ev a IH]; cbn [app reported]; [reflexivity|].
  destruct ev; rewrite IH; lia.
Qed.

Lemma stopwatch_run_accounts (ops : list op) :
  forall w,
    0 <= elapsed_seconds w ->
    let ticks := Z.of_nat (List.length (filter is_tick ops)) in
    let w' := fst (run ops w) in
    let out := snd (run ops w) in
    0 <= elapsed_seconds w'
    /\ reported out + elapsed_seconds w' <= elapsed_seconds w + ticks
    /\ (existsb is_reset ops = false ->
        reported out + elapsed_seconds w' = elapsed_seconds w + ticks)
    /\ Forall (fun ev => exists secs, ev = OnFinish secs /\ 1 <= secs) out.
Proof.
  induction ops as [|o ops IH]; intros w Hw; cbn zeta.
  - cbn. repeat split; try lia. constructor.
  - cbn [run].
    assert (S1 : 0 <= elapsed_seconds (fst (step o w))
                 /\ reported (snd (step o w)) + elapsed_seconds (fst (step o w))
                    <= elapsed_seconds w + (if is_tick o then 1 else 0)
                 /\ (is_reset o = false ->
                     reported (snd (step o w))
                     + elapsed_seconds (fst (step o w))
                     = elapsed_seconds w + (if is_tick o then 1 else 0))
                 /\ Forall (fun ev => exists secs, ev = OnFinish secs /\ 1 <= secs)
                           (snd (step o w))).
    { destruct o; cbn [step is_tick is_reset];
        unfold start, toggle_pause, reset, finish, _tick;
        try destruct (timer w);
        try destruct (Z.gtb_spec (elapsed_seconds w) 0);
        cbn; repeat split; try lia; try discriminate;
        try (constructor; [|constructor]); try constructor;
        try (eexists; split; [reflexivity | lia]). }
    destruct (step o w) as [w1 out1]. cbn [fst snd] in S1.
    destruct S1 as (A1 & A2 & A3 & A4).
    specialize (IH w1 A1). cbn zeta in IH.
    destruct (run ops w1) as [w2 out2]. cbn [fst snd] in *.
    destruct IH as (B1 & B2 & B3 & B4).
    rewrite reported_app. cbn [filter existsb].
    assert (T : Z.of_nat (List.length (if is_tick o
                                       then o :: filter is_tick ops
                                       else filter is_tick ops))
                = (if is_tick o then 1 else 0)
                  + Z.of_nat (List.length (filter is_tick ops))).
    { destruct (is_tick o); cbn [List.length]; lia. }
    rewrite T. repeat split; try lia.
    + intros Hr. apply orb_false_iff in Hr. destruct Hr as [R1 R2].
      specialize (A3 R1). specialize (B3 R2). lia.
    + apply Forall_app. now split.
Qed.

End StopwatchHistories.

(** X13.  Whatever is done to a new stopwatch, it never reports time
    that did not elapse: the seconds handed to [on_finish] so far, plus
    the seconds showing, are at most the number of ticks, and exactly
    that number when Reset was never pressed.  Every call of [on_finish]
    carries at least one second, and nothing else is emitted. *)
Theorem stopwatch_reports_elapsed_time (ops : list StopwatchUse.op) :
  let ticks := Z.of_nat (List.length (filter StopwatchUse.is_tick ops)) in
  let w := fst (StopwatchUse.run ops StopwatchWidget.init) in
  let out := snd (StopwatchUse.run ops StopwatchWidget.init) in
  StopwatchUse.reported out + StopwatchWidget.elapsed_seconds w <= ticks
  /\ (existsb StopwatchUse.is_reset ops = false ->
      StopwatchUse.reported out + StopwatchWidget.elapsed_seconds w = ticks)
  /\ Forall (fun ev => exists secs, ev = OnFinish secs /\ 1 <= secs) out.
Proof.
  destruct (stopwatch_run_accounts ops StopwatchWidget.init)
    as (_ & H2 & H3 & H4); [cbn; lia|].
  cbn zeta. cbn [StopwatchWidget.init StopwatchWidget.elapsed_seconds] in *.
  split; [lia|]. split; [|exact H4].
  intros Hr. specialize (H3 Hr). lia.
Qed.

Section CountdownHistories.

Import CountdownWidget CountdownUse.

Lemma init_steady (lbl : string) (dm : Z) (notify : bool) :
  1 <= dm <= 1439 -> steady (init lbl dm notify).
Proof.
  intros Hdm. unfold steady, DialogUse.in_range, init, _get_active_total_seconds.
  cbn. repeat split; try discriminate;
    try (Z.to_euclidean_division_equations; lia).
Qed.

Lemma step_steady (o : op) (c : t) :
  steady c ->
  (o = Tick -> timer c = true) ->
  steady (fst (step o c)).
Proof.
  intros Hs Hposs. pose proof Hs as (Hr & Ha & Ht & Hrem & Hrun & Hbtn & Hp).
  destruct o as [| | | |acts accepted]; cbn [step to_op CountdownWidget.step].
  - (* start *)
    unfold start. rewrite Ha.
    destruct (Z.leb_spec (total_seconds c) 0); [lia|].
    destruct (timer c) eqn:T; cbn [orb fst];
      [exact Hs|].
    unfold steady, _get_active_total_seconds in *. cbn.
    repeat split; try apply Hr; try lia; try discriminate.
  - (* reset *)
    unfold reset, steady, _get_active_total_seconds in *. cbn.
    repeat split; try apply Hr; try lia; try discriminate.
  - (* toggle_pause *)
    unfold toggle_pause.
    destruct (timer c) eqn:T; cbn [fst].
    + destruct (Hrun eq_refl) as [R1 R2].
      unfold steady, set_pause, _get_active_total_seconds in *. cbn.
      repeat split; try apply Hr; try lia; try discriminate; assumption.
    + destruct (_paused c) as [[|]|] eqn:P; cbn [fst];
        try exact Hs.
      destruct (Hp eq_refl) as [R1 R2].
      unfold steady, set_pause, _get_active_total_seconds in *. cbn.
      repeat split; try apply Hr; try lia; try discriminate; assumption.
  - (* _tick *)
    specialize (Hposs eq_refl).
    destruct (Hrun Hposs) as [R1 R2]. destruct (Hbtn Hposs) as [B1 B2].
    unfold _tick.
    destruct (Z.leb_spec (remaining_seconds c - 1) 0); cbn [fst].
    + unfold steady, set_remaining, _get_active_total_seconds in *. cbn.
      rewrite B1.
      repeat split; try apply Hr; try lia; try discriminate.
    + unfold steady, set_remaining, _get_active_total_seconds in *. cbn.
      rewrite B1.
      repeat split; try apply Hr; try lia; try discriminate; assumption.
  - (* open_editor *)
    unfold open_editor. destruct accepted; cbn [fst];
      [|exact Hs].
    pose proof (perform_in_range acts
                  (TimerEditDialog.init (hours c) (minutes c) (seconds c)) Hr)
      as Hd.
    unfold TimerEditDialog.result_time, apply_time.
    set (d := DialogUse.perform acts _) in *.
    destruct (Z.gtb_spec
                (TimerEditDialog.pending_hours d * 3600
                 + TimerEditDialog.pending_minutes d * 60
                 + TimerEditDialog.pending_seconds d) 0);
      [|exact Hs].
    unfold steady, _get_active_total_seconds. cbn.
    repeat split; try apply Hd; try lia; try discriminate.
Qed.

Lemma completions_app (a b : list event) :
  completions (a ++ b) = completions a + completions b.
Proof. unfold completions. rewrite filter_app, length_app. lia. Qed.

Lemma step_trace (o : op) (c : t) :
  steady c ->
  (o = Tick -> timer c = true) ->
  let c' := fst (step o c) in
  let out := snd (step o c) in
  completions out + pending c' <= pending c + (if is_start o then 1 else 0)
  /\ Forall (fun ev =>
               match ev with
               | Raise e => e = AttributeError "_paused" /\ _paused c = None
               | OnComplete m => 1 <= m <= 1439
               | _ => True
               end) out
  /\ (_paused c <> None -> _paused c' <> None).
Proof.
  intros (Hr & Ha & Ht & Hrem & Hrun & Hbtn & Hp) Hposs.
  assert (P0 : 0 <= pending c <= 1).
  { unfold pending. destruct (timer c), (_paused c) as [[|]|]; lia. }
  destruct o as [| | | |acts accepted];
    cbn [step to_op CountdownWidget.step is_start]; cbn zeta.
  - unfold start.
    destruct ((_get_active_total_seconds c <=? 0) || timer c); cbn [fst snd].
    + split; [unfold completions; cbn; lia|]. split; [constructor | auto].
    + split; [unfold completions, pending in *; cbn; lia|].
      split; [constructor | cbn; discriminate].
  - unfold reset. cbn [fst snd].
    split; [unfold completions, pending in *; cbn; lia|].
    split; [constructor | cbn; discriminate].
  - unfold toggle_pause.
    destruct (timer c) eqn:T; cbn [fst snd].
    + split; [unfold completions, pending; cbn; rewrite T; lia|].
      split; [constructor | cbn; discriminate].
    + destruct (_paused c) as [[|]|] eqn:P; cbn [fst snd].
      * split; [unfold completions, pending; cbn; rewrite T, P; lia|].
        split; [constructor | cbn; discriminate].
      * split; [unfold completions; cbn; lia|].
        split; [constructor | rewrite P; discriminate].
      * split; [unfold completions; cbn; lia|].
        split; [|tauto]. constructor; [|constructor]. split; reflexivity.
  - specialize (Hposs eq_refl).
    destruct (Hrun Hposs) as [R1 R2]. destruct (Hbtn Hposs) as [B1 B2].
    assert (P1 : pending c = 1) by (unfold pending; now rewrite Hposs).
    unfold _tick.
    destruct (Z.leb_spec (remaining_seconds c - 1) 0); cbn [fst snd].
    + rewrite R2. split; [|split].
      * rewrite P1. unfold completion_events, completions, pending, set_remaining.
        cbn [timer _paused]. rewrite B1.
        destruct (notify_cb c); cbn; lia.
      * assert (M : 1 <= Z.max 1 (total_seconds c / 60) <= 1439).
        { destruct Hr as (Hh & Hm & Hs).
          unfold _get_active_total_seconds in Ha.
          Z.to_euclidean_division_equations; lia. }
        unfold completion_events.
        destruct (notify_cb c); cbn; repeat constructor; apply M.
      * unfold set_remaining. cbn. rewrite B1. discriminate.
    + split; [|split; [constructor|]].
      * rewrite P1. unfold completions, pending, set_remaining.
        cbn [timer _paused]. rewrite Hposs. cbn. lia.
      * unfold set_remaining. cbn. rewrite B1. discriminate.
  - unfold open_editor.
    destruct accepted; cbn [fst snd];
      [|split; [unfold completions; cbn; lia | split; [constructor|auto]]].
    unfold TimerEditDialog.result_time, apply_time.
    set (d := DialogUse.perform acts _).
    destruct (Z.gtb_spec
                (TimerEditDialog.pending_hours d * 3600
                 + TimerEditDialog.pending_minutes d * 60
                 + TimerEditDialog.pending_seconds d) 0).
    + split; [unfold completions, pending in *; cbn; lia|].
      split; [constructor | cbn; discriminate].
    + split; [unfold completions; cbn; lia | split; [constructor|auto]].
Qed.

Lemma run_cons (o : op) (ops : list op) (c : t) :
  run (o :: ops) c
  = (fst (run ops (fst (step o c))),
     snd (step o c) ++ snd (run ops (fst (step o c)))).
Proof.
  unfold run, step. cbn [map CountdownWidget.run].
  destruct (CountdownWidget.step (to_op o) c) as [c1 out1]. cbn [fst snd].
  destruct (CountdownWidget.run (map to_op ops) c1) as [c2 out2]. reflexivity.
Qed.

Lemma run_steady (ops : list op) :
  forall c,
    steady c -> possible ops c = true ->
    let c' := fst (run ops c) in
    let out := snd (run ops c) in
    steady c'
    /\ completions out + pending c'
       <= pending c + Z.of_nat (List.length (filter is_start ops))
    /\ Forall (fun ev =>
                 match ev with
                 | Raise e => e = AttributeError "_paused" /\ _paused c = None
                 | OnComplete m => 1 <= m <= 1439
                 | _ => True
                 end) out.
Proof.
  induction ops as [|o ops IH]; intros c Hs Hp; cbn zeta.
  - cbn. split; [exact Hs|]. split; [unfold completions; cbn; lia|constructor].
  - cbn [possible] in Hp. apply andb_true_iff in Hp. destruct Hp as [P1 P2].
    assert (Hposs : o = Tick -> timer c = true) by (intros ->; exact P1).
    pose proof (step_steady o c Hs Hposs) as S1.
    destruct (step_trace o c Hs Hposs) as (T1 & T2 & T3).
    destruct (IH _ S1 P2) as (I1 & I2 & I3).
    rewrite run_cons. cbn [fst snd]. split; [exact I1|]. split.
    + rewrite completions_app. cbn [filter].
      destruct (is_start o); cbn [List.length]; lia.
    + apply Forall_app. split; [exact T2|].
      eapply Forall_impl; [|exact I3].
      intros ev. destruct ev; auto.
      intros [E N]. split; [exact E|].
      destruct (_paused c) eqn:P; [|reflexivity].
      exfalso. apply T3; [discriminate | exact N].
Qed.

End CountdownHistories.

(** X14.  A countdown created for 1 to 1439 minutes, whatever is done to
    it (buttons, editor, ticks while its timer is active), keeps its
    numbers consistent: the configured duration is a time of day of at
    least one second and equals the total, the remaining time lies
    between 0 and the total, and while the timer is active at least one
    second remains. *)
Theorem countdown_stays_consistent
    (lbl : string) (default_minutes : Z) (notify : bool)
    (ops : list CountdownUse.op) :
  1 <= default_minutes <= 1439 ->
  CountdownUse.possible ops (CountdownWidget.init lbl default_minutes notify)
  = true ->
  let c := fst (CountdownUse.run ops
                  (CountdownWidget.init lbl default_minutes notify)) in
  0 <= CountdownWidget.hours c <= 23
  /\ 0 <= CountdownWidget.minutes c <= 59
  /\ 0 <= CountdownWidget.seconds c <= 59
  /\ CountdownWidget.total_seconds c
     = CountdownWidget.hours c * 3600 + CountdownWidget.minutes c * 60
       + CountdownWidget.seconds c
  /\ 1 <= CountdownWidget.total_seconds c
  /\ 0 <= CountdownWidget.remaining_seconds c <= CountdownWidget.total_seconds c
  /\ (CountdownWidget.timer c = true -> 1 <= CountdownWidget.remaining_seconds c).
Proof.
  intros Hdm Hp.
  destruct (run_steady ops _ (init_steady lbl default_minutes notify Hdm) Hp)
    as (((Hh & Hm & Hs) & Ha & Ht & Hrem & Hrun & _) & _).
  cbn zeta. unfold CountdownWidget._get_active_total_seconds in Ha.
  repeat split; try lia. intros T. apply (Hrun T).
Qed.

Lemma countdown_stays_consistent_witness :
  let c := fst (CountdownUse.run
                  [CountdownUse.Start; CountdownUse.Tick;
                   CountdownUse.TogglePause;
                   CountdownUse.Edit
                     [DialogUse.Nudge TimerEditDialog.FieldM false] true;
                   CountdownUse.Start; CountdownUse.Tick]
                  (CountdownWidget.init "30 min focus" 30 true)) in
  0 <= CountdownWidget.hours c <= 23
  /\ 0 <= CountdownWidget.minutes c <= 59
  /\ 0 <= CountdownWidget.seconds c <= 59
  /\ CountdownWidget.total_seconds c
     = CountdownWidget.hours c * 3600 + CountdownWidget.minutes c * 60
       + CountdownWidget.seconds c
  /\ 1 <= CountdownWidget.total_seconds c
  /\ 0 <= CountdownWidget.remaining_seconds c <= CountdownWidget.total_seconds c
  /\ (CountdownWidget.timer c = true -> 1 <= CountdownWidget.remaining_seconds c).
Proof.
  apply (countdown_stays_consistent "30 min focus" 30 true
           [CountdownUse.Start; CountdownUse.Tick;
            CountdownUse.TogglePause;
            CountdownUse.Edit
              [DialogUse.Nudge TimerEditDialog.FieldM false] true;
            CountdownUse.Start; CountdownUse.Tick]).
  - lia.
  - reflexivity.
Defined.

(** X15.  On such a countdown [on_complete] is called at most once per
    press of Start, always with 1 to 1439 minutes, and the completing
    tick never fails for want of [total_minutes]: the only exception a
    history can raise is the [AttributeError] for [_paused], and it is
    raised only while no Start, Reset or saved edit has assigned
    [_paused]. *)
Theorem countdown_completes_at_most_once_per_start
    (lbl : string) (default_minutes : Z) (notify : bool)
    (ops : list CountdownUse.op) :
  1 <= default_minutes <= 1439 ->
  CountdownUse.possible ops (CountdownWidget.init lbl default_minutes notify)
  = true ->
  let out := snd (CountdownUse.run ops
                    (CountdownWidget.init lbl default_minutes notify)) in
  (List.length (filter is_on_complete out)
   <= List.length (filter CountdownUse.is_start ops))%nat
  /\ Forall (fun ev =>
               match ev with
               | Raise e => e = AttributeError "_paused"
               | OnComplete m => 1 <= m <= 1439
               | _ => True
               end) out.
Proof.
  intros Hdm Hp.
  destruct (run_steady ops _ (init_steady lbl default_minutes notify Hdm) Hp)
    as (_ & H2 & H3).
  cbn zeta. split.
  - unfold CountdownUse.completions, CountdownUse.pending in H2.
    cbn [CountdownWidget.init
      CountdownWidget.timer CountdownWidget._paused] in H2.
    set (c' := fst _) in H2.
    destruct (CountdownWidget.timer c'), (CountdownWidget._paused c')
      as [[|]|]; lia.
  - eapply Forall_impl; [|exact H3]. intros ev. destruct ev; tauto.
Qed.

Lemma countdown_completes_at_most_once_per_start_witness :
  let out := snd (CountdownUse.run
                    [CountdownUse.TogglePause; CountdownUse.Start;
                     CountdownUse.Tick; CountdownUse.Reset]
                    Samples.timer30) in
  (List.length (filter is_on_complete out) <= 1)%nat
  /\ Forall (fun ev =>
               match ev with
               | Raise e => e = AttributeError "_paused"
               | OnComplete m => 1 <= m <= 1439
               | _ => True
               end) out.
Proof.
  apply (countdown_completes_at_most_once_per_start "30 min focus" 30 true
           [CountdownUse.TogglePause; CountdownUse.Start;
            CountdownUse.Tick; CountdownUse.Reset]).
  - lia.
  - reflexivity.
Defined.

(** X16.  Pausing and resuming a running countdown of such a history
    gives back the very same widget and emits nothing; in between the
    timer is inactive, so no tick can fall into the pause. *)
Theorem countdown_pause_resume_restores
    (lbl : string) (default_minutes : Z) (notify : bool)
    (ops : list CountdownUse.op) :
  1 <= default_minutes <= 1439 ->
  CountdownUse.possible ops (CountdownWidget.init lbl default_minutes notify)
  = true ->
  let c := fst (CountdownUse.run ops
                  (CountdownWidget.init lbl default_minutes notify)) in
  CountdownWidget.timer c = true ->
  CountdownWidget.timer (fst (CountdownWidget.toggle_pause c)) = false
  /\ CountdownUse.possible [CountdownUse.TogglePause; CountdownUse.Tick] c
     = false
  /\ CountdownUse.run [CountdownUse.TogglePause; CountdownUse.TogglePause] c
     = (c, []).
Proof.
  intros Hdm Hp.
  destruct (run_steady ops _ (init_steady lbl default_minutes notify Hdm) Hp)
    as ((_ & _ & _ & _ & _ & Hbtn & _) & _).
  cbn zeta. set (c := fst _) in *. intros T.
  destruct (Hbtn T) as [P B].
  unfold CountdownUse.run, CountdownUse.possible, CountdownUse.step.
  cbn [map CountdownUse.to_op CountdownWidget.run CountdownWidget.step].
  unfold CountdownWidget.toggle_pause. rewrite T. cbn.
  repeat split. f_equal.
  destruct c. cbn in *. subst. reflexivity.
Qed.

Lemma countdown_pause_resume_restores_witness :
  let c := fst (CountdownUse.run [CountdownUse.Start; CountdownUse.Tick]
                  Samples.timer30) in
  CountdownUse.run [CountdownUse.TogglePause; CountdownUse.TogglePause] c
  = (c, []).
Proof.
  exact (proj2 (proj2 (countdown_pause_resume_restores "30 min focus" 30 true
                         [CountdownUse.Start; CountdownUse.Tick]
                         ltac:(lia) eq_refl eq_refl))).
Defined.

(** ** StudyView: the chapter list and the note editor *)

Section Panel.

Import DataStore DataStoreOps StudyChapters.

Lemma update_progress_fields (v : t) :
  let v' := fst (_update_progress v) in
  store v' = store v /\ subject_id v' = subject_id v /\ title v' = title v
  /\ chapter_list v' = chapter_list v /\ selected v' = selected v
  /\ chapter_input v' = chapter_input v /\ note_editor v' = note_editor v
  /\ _editing_chapter_id v' = _editing_chapter_id v
  /\ _loading_chapters v' = _loading_chapters v.
Proof.
  unfold _update_progress. destruct (StudyView._update_progress _); cbn;
    repeat split.
Qed.

(** What [refresh_chapters] leaves behind: the store as [_save_notes]
    wrote it with an empty editor, and the list as the store had it. *)
Lemma refresh_chapters_fields (v : t) :
  let v' := fst (refresh_chapters v) in
  store v'
  = store (_save_notes (with_editor v EmptyString))
  /\ subject_id v' = subject_id v /\ title v' = title v
  /\ chapter_list v'
     = map item_of_row (list_chapters_of (subject_id v) (store v))
  /\ selected v' = None
  /\ chapter_input v' = chapter_input v
  /\ note_editor v' = EmptyString
  /\ _editing_chapter_id v' = None
  /\ _loading_chapters v' = false.
Proof.
  unfold refresh_chapters. cbv zeta.
  match goal with |- context [_update_progress ?w] =>
    destruct (update_progress_fields w)
      as (E1 & E2 & E3 & E4 & E5 & E6 & E7 & E8 & E9)
  end.
  cbv zeta in *. rewrite E1, E2, E3, E4, E5, E6, E7, E8, E9.
  unfold set_editor_text, _save_notes. cbn.
  destruct (_editing_chapter_id v) as [id|]; [destruct (id =? 0)|]; cbn;
    repeat split.
Qed.

Lemma stored_notes_update (id : Z) (notes : string) (v : t) :
  stored_notes id (with_store v (update_notes id notes (store v)))
  = map (fun _ => notes) (stored_notes id v).
Proof.
  unfold stored_notes, update_notes, update_chapter.
  cbn [store with_store db with_chapters chapters].
  induction (chapters (db (store v))) as [|r l IH]; cbn [map filter];
    [reflexivity|].
  destruct (chapter_id r =? id) eqn:E.
  - cbn [set_notes chapter_id]. rewrite E. cbn [map chapter_notes].
    now rewrite IH.
  - rewrite E. exact IH.
Qed.

Lemma stored_notes_store (id : Z) (v w : t) :
  store v = store w -> stored_notes id v = stored_notes id w.
Proof. unfold stored_notes. now intros ->. Qed.

Lemma refresh_wipes (id : Z) (v : t) :
  _editing_chapter_id v = Some id -> id <> 0 ->
  stored_notes id (fst (refresh_chapters v))
  = map (fun _ => EmptyString) (stored_notes id v).
Proof.
  intros E N.
  destruct (refresh_chapters_fields v) as (S & _). cbv zeta in S.
  rewrite (stored_notes_store id _ (_save_notes (with_editor v EmptyString)) S).
  unfold _save_notes. cbn [_editing_chapter_id with_editor]. rewrite E.
  destruct (Z.eqb_spec id 0) as [|_]; [contradiction|].
  cbn [note_editor with_editor store].
  exact (stored_notes_update id EmptyString (with_editor v EmptyString)).
Qed.

End Panel.

(** X17.  While a chapter is being edited, every path that empties the
    note editor writes the empty text over that chapter's stored notes:
    [refresh_chapters] clears the editor before it forgets which
    chapter is edited, and so does the branch of
    [_load_notes_for_selected] for an empty selection.  The notes are
    lost when a subject is loaded, when the selection is cleared and
    when [_add_chapter] adds a chapter (a title that is not blank, a
    subject, and a store that takes the chapter). *)
Theorem refresh_overwrites_edited_notes
    (v : StudyChapters.t) (id sid : Z) :
  StudyChapters._editing_chapter_id v = Some id ->
  id <> 0 ->
  let wiped v' :=
    StudyChapters.stored_notes id v'
    = map (fun _ => EmptyString) (StudyChapters.stored_notes id v) in
  wiped (fst (StudyChapters.refresh_chapters v))
  /\ wiped (fst (StudyChapters.load_subject sid v))
  /\ wiped (StudyChapters.select None v)
  /\ (forall c rest s',
        DataStoreOps.strip (StudyChapters.chapter_input v) = String c rest ->
        StudyChapters.subject_id v = Some sid -> sid <> 0 ->
        DataStoreOps.add_chapter sid (String c rest) (StudyChapters.store v)
        = inr s' ->
        Forall (fun notes => notes = EmptyString)
               (StudyChapters.stored_notes id
                  (fst (StudyChapters._add_chapter v)))).
Proof.
  intros E N wiped. unfold wiped. split; [now apply refresh_wipes|].
  split; [|split].
  - unfold StudyChapters.load_subject. cbv zeta.
    rewrite refresh_wipes; [reflexivity | exact E | exact N].
  - unfold StudyChapters.select, StudyChapters._load_notes_for_selected,
      StudyChapters.selected_item.
    cbn [StudyChapters.selected StudyChapters.with_list].
    unfold StudyChapters.set_editor_text, StudyChapters._save_notes.
    cbn [StudyChapters._editing_chapter_id StudyChapters.with_editor
         StudyChapters.with_list].
    rewrite E. destruct (Z.eqb_spec id 0) as [|_]; [contradiction|].
    cbn [StudyChapters.note_editor StudyChapters.with_editor].
    exact (stored_notes_update id EmptyString
             (StudyChapters.with_editor
                (StudyChapters.with_list v (StudyChapters.chapter_list v) None)
                EmptyString)).
  - intros c rest s' Ht Es Ns A. unfold StudyChapters._add_chapter.
    rewrite Ht, Es. destruct (Z.eqb_spec sid 0) as [|_]; [contradiction|].
    rewrite A. rewrite refresh_wipes; [|exact E|exact N].
    apply Forall_map. apply Forall_forall. reflexivity.
Qed.

Lemma refresh_overwrites_edited_notes_witness :
  let v := StudyChapters.with_input PanelSamples.editing " Modules " in
  StudyChapters.stored_notes 1 v = ["cosets and quotients"]
  /\ StudyChapters.stored_notes 1 (fst (StudyChapters.refresh_chapters v))
     = [EmptyString]
  /\ StudyChapters.stored_notes 1 (fst (StudyChapters.load_subject 1 v))
     = [EmptyString]
  /\ StudyChapters.stored_notes 1 (StudyChapters.select None v)
     = [EmptyString]
  /\ Forall (fun notes => notes = EmptyString)
            (StudyChapters.stored_notes 1
               (fst (StudyChapters._add_chapter v))).
Proof.
  intros v.
  destruct (refresh_overwrites_edited_notes v 1 1 eq_refl)
    as (H1 & H2 & H3 & H4).
  - discriminate.
  - split; [reflexivity|]. split; [exact H1|]. split; [exact H2|].
    split; [exact H3|].
    apply (H4 "M"%char "odules" _ eq_refl eq_refl ltac:(discriminate) eq_refl).
Defined.

Section PanelWrites.

Import DataStore DataStoreOps StudyChapters.

Lemma list_chapters_of_update_notes (sid : option Z) (id : Z)
    (notes : string) (s : DataStoreOps.store) :
  list_chapters_of sid (update_notes id notes s)
  = update_chapter (set_notes notes) id (list_chapters_of sid s).
Proof.
  destruct sid as [sid|]; [|reflexivity]. cbn [list_chapters_of].
  apply (list_chapters_update (set_notes notes)). intros r. now cbn.
Qed.

Lemma item_of_row_update_notes (id : Z) (notes : string)
    (l : list chapter_row) :
  map item_of_row (update_chapter (set_notes notes) id l) = map item_of_row l.
Proof.
  unfold update_chapter. rewrite map_map. apply map_ext. intros r.
  now destruct (chapter_id r =? id).
Qed.

Lemma save_notes_list (sid : option Z) (v : t) :
  map item_of_row (list_chapters_of sid (store (_save_notes v)))
  = map item_of_row (list_chapters_of sid (store v)).
Proof.
  unfold _save_notes. destruct (_editing_chapter_id v) as [id|]; [|reflexivity].
  destruct (id =? 0); [reflexivity|]. cbn [store with_store].
  now rewrite list_chapters_of_update_notes, item_of_row_update_notes.
Qed.

(** After [refresh_chapters] the list shows what the store holds. *)
Lemma refresh_shows_store (v : t) :
  let v' := fst (refresh_chapters v) in
  chapter_list v'
  = map item_of_row (list_chapters_of (subject_id v') (store v')).
Proof.
  destruct (refresh_chapters_fields v) as (S & Sid & _ & L & _).
  cbv zeta in *. rewrite L, S, Sid.
  rewrite save_notes_list. reflexivity.
Qed.

Lemma find_update_chapter (f : chapter_row -> chapter_row) (id key : Z)
    (l : list chapter_row) :
  (forall r, chapter_id (f r) = chapter_id r) ->
  find (fun r => chapter_id r =? key) (update_chapter f id l)
  = option_map (fun r => if chapter_id r =? id then f r else r)
               (find (fun r => chapter_id r =? key) l).
Proof.
  intros Hf. unfold update_chapter.
  induction l as [|r l IH]; cbn [map find option_map]; [reflexivity|].
  assert (E : chapter_id (if chapter_id r =? id then f r else r)
              = chapter_id r).
  { destruct (chapter_id r =? id); [apply Hf | reflexivity]. }
  rewrite E. destruct (chapter_id r =? key); [reflexivity | exact IH].
Qed.

Lemma find_some_in (key : Z) (l : list chapter_row) :
  In key (map chapter_id l) ->
  exists r, find (fun r => chapter_id r =? key) l = Some r
            /\ chapter_id r = key.
Proof.
  induction l as [|a l IH]; cbn [map In find]; [tauto|].
  intros H. destruct (Z.eqb_spec (chapter_id a) key) as [E|N].
  - now exists a.
  - apply IH. destruct H; [contradiction | assumption].
Qed.

(** Selecting a row writes nothing when a row was selected before. *)
Lemma select_some_fields (i : nat) (it : StudyView.item) (v : t) :
  nth_error (chapter_list v) i = Some it ->
  let v' := select (Some i) v in
  store v' = store v
  /\ subject_id v' = subject_id v
  /\ chapter_list v' = chapter_list v
  /\ _editing_chapter_id v' = Some (StudyView.item_id it)
  /\ note_editor v'
     = match find (fun r => chapter_id r =? StudyView.item_id it)
                  (list_chapters_of (subject_id v) (store v)) with
       | Some r => chapter_notes r
       | None => note_editor v
       end.
Proof.
  intros Hn. unfold select, _load_notes_for_selected, selected_item.
  cbn [selected with_list chapter_list]. rewrite Hn.
  cbn [subject_id store with_editing with_list].
  destruct (find _ _) as [r|]; cbn; repeat split.
Qed.

End PanelWrites.

(** X18.  Deleting the selected chapter, once confirmed, removes the
    rows with its id and writes nothing else: the notes of the other
    chapters stay, because the slot forgets which chapter is edited
    before it refreshes.  Afterwards the list shows the chapters the
    store holds for the subject, nothing is selected and the editor is
    empty.  Without a selection, or when the question is answered with
    no, nothing changes. *)
Theorem delete_selected_removes_only_that_chapter
    (v : StudyChapters.t) (it : StudyView.item) :
  StudyChapters.selected_item v = Some it ->
  let v' := fst (StudyChapters._delete_selected_chapter true v) in
  StudyChapters.store v'
  = DataStoreOps.delete_chapter (StudyView.item_id it) (StudyChapters.store v)
  /\ StudyChapters.chapter_list v'
     = map StudyChapters.item_of_row
         (StudyChapters.list_chapters_of (StudyChapters.subject_id v)
            (StudyChapters.store v'))
  /\ StudyChapters.selected v' = None
  /\ StudyChapters.note_editor v' = EmptyString
  /\ StudyChapters._editing_chapter_id v' = None
  /\ StudyChapters._delete_selected_chapter false v = (v, None).
Proof.
  intros Hs. cbv zeta. unfold StudyChapters._delete_selected_chapter.
  rewrite Hs.
  set (w := StudyChapters.with_editing _ None).
  destruct (refresh_chapters_fields w) as (S & Sid & _ & L & Sel & _ & Ed & Eg & _).
  pose proof (refresh_shows_store w) as Sh.
  cbv zeta in *. rewrite Sid in Sh.
  split; [exact S|]. split; [exact Sh|]. repeat split; assumption.
Qed.

Lemma delete_selected_removes_only_that_chapter_witness :
  let v' := fst (StudyChapters._delete_selected_chapter true
                   PanelSamples.editing) in
  StudyChapters.store v'
  = DataStoreOps.delete_chapter 1 (StudyChapters.store PanelSamples.editing)
  /\ map StudyView.item_title (StudyChapters.chapter_list v')
     = ["Rings"; "Fields"].
Proof.
  destruct (delete_selected_removes_only_that_chapter PanelSamples.editing
              (StudyView.mk_item 1 "Groups" false) eq_refl)
    as (H1 & H2 & _).
  split; [exact H1 | rewrite H2; reflexivity].
Defined.

(** X19.  Notes make the round trip: with row [i] selected and [text]
    typed into the editor, every stored row of that chapter carries
    [text]; after another row was selected and row [i] selected again,
    the editor shows [text].  The chapter must have a nonzero id and be
    among the stored chapters of the subject. *)
Theorem notes_round_trip
    (v : StudyChapters.t) (i j : nat) (it jt : StudyView.item)
    (text : string) :
  nth_error (StudyChapters.chapter_list v) i = Some it ->
  nth_error (StudyChapters.chapter_list v) j = Some jt ->
  StudyView.item_id it <> 0 ->
  In (StudyView.item_id it)
     (map DataStore.chapter_id
          (StudyChapters.list_chapters_of (StudyChapters.subject_id v)
             (StudyChapters.store v))) ->
  let typed := StudyChapters.set_editor_text text false
                 (StudyChapters.select (Some i) v) in
  let back := StudyChapters.select (Some i)
                (StudyChapters.select (Some j) typed) in
  StudyChapters.store typed
  = DataStoreOps.update_notes (StudyView.item_id it) text
      (StudyChapters.store v)
  /\ StudyChapters.stored_notes (StudyView.item_id it) typed
     = map (fun _ => text)
           (StudyChapters.stored_notes (StudyView.item_id it) v)
  /\ StudyChapters.store back = StudyChapters.store typed
  /\ StudyChapters._editing_chapter_id back = Some (StudyView.item_id it)
  /\ StudyChapters.note_editor back = text.
Proof.
  intros Hi Hj Hid Hin. cbv zeta.
  destruct (select_some_fields i it v Hi) as (S1 & Sid1 & L1 & E1 & _).
  cbv zeta in *.
  set (v1 := StudyChapters.select (Some i) v) in *.
  assert (T : StudyChapters.set_editor_text text false v1
              = StudyChapters.with_store
                  (StudyChapters.with_editor v1 text)
                  (DataStoreOps.update_notes (StudyView.item_id it) text
                     (StudyChapters.store v1))).
  { unfold StudyChapters.set_editor_text, StudyChapters._save_notes.
    cbn [StudyChapters._editing_chapter_id StudyChapters.with_editor].
    rewrite E1. destruct (Z.eqb_spec (StudyView.item_id it) 0);
      [contradiction | reflexivity]. }
  rewrite T. set (v2 := StudyChapters.with_store _ _).
  assert (S2 : StudyChapters.store v2
               = DataStoreOps.update_notes (StudyView.item_id it) text
                   (StudyChapters.store v))
    by (unfold v2; cbn [StudyChapters.store StudyChapters.with_store];
        now rewrite S1).
  assert (L2 : StudyChapters.chapter_list v2 = StudyChapters.chapter_list v)
    by (unfold v2; cbn; exact L1).
  assert (Sid2 : StudyChapters.subject_id v2 = StudyChapters.subject_id v)
    by (unfold v2; cbn; exact Sid1).
  split; [exact S2|]. split.
  { unfold StudyChapters.stored_notes at 1. rewrite S2.
    exact (stored_notes_update (StudyView.item_id it) text v). }
  rewrite <- L2 in Hi, Hj.
  destruct (select_some_fields j jt v2 Hj) as (S3 & Sid3 & L3 & _).
  cbv zeta in *. set (v3 := StudyChapters.select (Some j) v2) in *.
  rewrite <- L3 in Hi.
  destruct (select_some_fields i it v3 Hi) as (S4 & _ & _ & E4 & N4).
  cbv zeta in *. split; [congruence|]. split; [exact E4|].
  rewrite N4, S3, Sid3, S2, Sid2.
  rewrite list_chapters_of_update_notes.
  rewrite (find_update_chapter (DataStoreOps.set_notes text)
             (StudyView.item_id it) (StudyView.item_id it) _
             (fun r => eq_refl)).
  destruct (find_some_in _ _ Hin) as (r & F & Er). rewrite F.
  cbn [option_map]. rewrite Er, Z.eqb_refl. reflexivity.
Qed.

Lemma notes_round_trip_witness :
  let typed := StudyChapters.set_editor_text "cosets and quotients" false
                 (StudyChapters.select (Some 0%nat) PanelSamples.opened) in
  let back := StudyChapters.select (Some 0%nat)
                (StudyChapters.select (Some 2%nat) typed) in
  StudyChapters.note_editor back = "cosets and quotients".
Proof.
  destruct (notes_round_trip PanelSamples.opened 0 2
              (StudyView.mk_item 1 "Groups" false)
              (StudyView.mk_item 3 "Fields" false)
              "cosets and quotients" eq_refl eq_refl)
    as (_ & _ & _ & _ & H).
  - discriminate.
  - vm_compute. tauto.
  - exact H.
Defined.

(** X20.  [_add_chapter] with a title that is not blank, on a loaded
    subject whose id and next position are 64-bit integers and with a
    chapters table that is not full, stores the stripped title as the
    last chapter of the subject and shows it: the list becomes the
    stored list of before
    followed by an unchecked item with the stripped title and a new id,
    and it shows what the store now holds; the title input and the
    note editor are emptied and nothing is selected.  With a blank title
    or no subject the slot does nothing. *)
Theorem add_chapter_shows_new_item
    (v : StudyChapters.t) (sid : Z) (c : ascii) (rest : string) :
  DataStoreOps.strip (StudyChapters.chapter_input v) = String c rest ->
  StudyChapters.subject_id v = Some sid ->
  sid <> 0 ->
  DataStore.INT64_MIN <= sid <= DataStore.INT64_MAX ->
  DataStore.INT64_MIN
  <= DataStoreOps.max_position
       (DataStoreOps.chapters_of sid (DataStoreOps.db (StudyChapters.store v)))
     + 1
  <= DataStore.INT64_MAX ->
  DataStoreOps.largest_id
    (map DataStore.chapter_id
         (DataStore.chapters (DataStoreOps.db (StudyChapters.store v))))
    (DataStoreOps.chapter_seq (StudyChapters.store v))
  < DataStore.INT64_MAX ->
  let v' := fst (StudyChapters._add_chapter v) in
  exists new_id,
    StudyChapters.chapter_list v'
    = map StudyChapters.item_of_row
          (DataStoreOps.list_chapters sid
             (DataStoreOps.db (StudyChapters.store v)))
        ++ [StudyView.mk_item new_id (String c rest) false]
    /\ ~ In new_id
            (map DataStore.chapter_id
                 (DataStore.chapters (DataStoreOps.db (StudyChapters.store v))))
    /\ StudyChapters.chapter_list v'
       = map StudyChapters.item_of_row
             (DataStoreOps.list_chapters sid
                (DataStoreOps.db (StudyChapters.store v')))
    /\ StudyChapters.chapter_input v' = EmptyString
    /\ StudyChapters.note_editor v' = EmptyString
    /\ StudyChapters.selected v' = None
    /\ (forall w,
          DataStoreOps.strip (StudyChapters.chapter_input w) = EmptyString
          \/ truthy (StudyChapters.subject_id w) = false ->
          StudyChapters._add_chapter w = (w, None)).
Proof.
  intros Ht Es Ns Hs Hp Hq. cbv zeta.
  assert (A := add_chapter_returns sid (String c rest) (StudyChapters.store v)
                 (proj2 (int64_range _) Hs) (proj2 (int64_range _) Hp) Hq).
  assert (U : StudyChapters._add_chapter v
              = StudyChapters.refresh_chapters
                  (StudyChapters.with_input
                     (StudyChapters.with_store v
                        (DataStoreOps.mk_store
                           (DataStore.mk_db
                              (DataStore.subjects
                                 (DataStoreOps.db (StudyChapters.store v)))
                              (DataStore.sessions
                                 (DataStoreOps.db (StudyChapters.store v)))
                              (DataStore.chapters
                                 (DataStoreOps.db (StudyChapters.store v))
                               ++ [DataStore.mk_chapter
                                     (DataStoreOps.next_id
                                        (map DataStore.chapter_id
                                           (DataStore.chapters
                                              (DataStoreOps.db
                                                 (StudyChapters.store v))))
                                        (DataStoreOps.chapter_seq
                                           (StudyChapters.store v)))
                                     sid (DataStoreOps.strip (String c rest))
                                     (DataStoreOps.max_position
                                        (DataStoreOps.chapters_of sid
                                           (DataStoreOps.db
                                              (StudyChapters.store v)))
                                      + 1)
                                     0 EmptyString])
                              (DataStore.session_seq
                                 (DataStoreOps.db (StudyChapters.store v))))
                           (DataStoreOps.subject_seq (StudyChapters.store v))
                           (DataStoreOps.next_id
                              (map DataStore.chapter_id
                                 (DataStore.chapters
                                    (DataStoreOps.db (StudyChapters.store v))))
                              (DataStoreOps.chapter_seq
                                 (StudyChapters.store v)))))
                     EmptyString)).
  { unfold StudyChapters._add_chapter. rewrite Ht, Es.
    destruct (Z.eqb_spec sid 0) as [|_]; [contradiction|].
    now rewrite A. }
  rewrite U. clear U A.
  destruct (add_chapter_spec sid (String c rest) (StudyChapters.store v))
    as (L & F & _). cbv zeta in L, F.
  set (s' := DataStoreOps.mk_store _ _ _) in *.
  set (w := StudyChapters.with_input (StudyChapters.with_store v s') EmptyString).
  destruct (refresh_chapters_fields w)
    as (S & Sid & _ & Lw & Sel & In_ & Ed & _).
  pose proof (refresh_shows_store w) as Sh.
  cbv zeta in *.
  assert (St : DataStoreOps.strip (String c rest) = String c rest).
  { rewrite <- Ht. unfold DataStoreOps.strip. apply strip_idempotent. }
  exists (DataStoreOps.next_id
            (map DataStore.chapter_id
                 (DataStore.chapters (DataStoreOps.db (StudyChapters.store v))))
            (DataStoreOps.chapter_seq (StudyChapters.store v))).
  split.
  { rewrite Lw. unfold w.
    cbn [StudyChapters.subject_id StudyChapters.with_input
         StudyChapters.with_store StudyChapters.store].
    rewrite Es. cbn [StudyChapters.list_chapters_of].
    rewrite L, map_app. cbn [map StudyChapters.item_of_row DataStore.chapter_id
                             DataStore.chapter_title DataStore.chapter_done].
    now rewrite St. }
  split; [exact F|]. split.
  { rewrite Sh, Sid. unfold w at 1.
    cbn [StudyChapters.subject_id StudyChapters.with_input
         StudyChapters.with_store].
    now rewrite Es. }
  split; [rewrite In_; reflexivity|]. split; [exact Ed|]. split; [exact Sel|].
  intros u [B|B]; unfold StudyChapters._add_chapter.
  - now rewrite B.
  - destruct (DataStoreOps.strip (StudyChapters.chapter_input u));
      [reflexivity|].
    destruct (StudyChapters.subject_id u) as [k|]; [|reflexivity].
    cbn in B. apply negb_false_iff in B. now rewrite B.
Qed.

Lemma add_chapter_shows_new_item_witness :
  map StudyView.item_title
      (StudyChapters.chapter_list
         (fst (StudyChapters._add_chapter
                 (StudyChapters.with_input PanelSamples.opened "  Modules "))))
  = ["Groups"; "Rings"; "Fields"; "Modules"].
Proof.
  destruct (add_chapter_shows_new_item
              (StudyChapters.with_input PanelSamples.opened "  Modules ")
              1 "M"%char "odules" eq_refl eq_refl)
    as (new_id & H1 & _).
  - discriminate.
  - cbv. split; discriminate.
  - cbv. split; discriminate.
  - reflexivity.
  - rewrite H1. reflexivity.
Defined.

(** ** What no call rewrites *)

Section ChapterKeys.

Import PyDatetime DataStore DataStoreOps.

Lemma kept_refl (s : store) :
  Forall (fun r => chapter_id r <= chapter_seq s) (chapters (db s)) ->
  kept s s.
Proof.
  intros H. split; [lia|]. split; [exact H|].
  apply Forall_forall. intros r Hr. left. now apply in_map.
Qed.

Lemma kept_trans (s1 s2 s3 : store) : kept s1 s2 -> kept s2 s3 -> kept s1 s3.
Proof.
  intros (A1 & A2 & A3) (B1 & B2 & B3). split; [lia|]. split; [exact B2|].
  rewrite Forall_forall in *. intros r Hr.
  destruct (B3 r Hr) as [K|K]; [|right; lia].
  apply in_map_iff in K. destruct K as (r2 & E & H2).
  destruct (A3 r2 H2) as [K|K].
  - left. now rewrite <- E.
  - right. unfold chapter_key in E. injection E as E _ _ _. lia.
Qed.

Lemma kept_same_chapters (s s' : store) :
  Forall (fun r => chapter_id r <= chapter_seq s) (chapters (db s)) ->
  chapters (db s') = chapters (db s) -> chapter_seq s' = chapter_seq s ->
  kept s s'.
Proof.
  intros H E1 E2. unfold kept. rewrite E1, E2. now apply kept_refl.
Qed.

Lemma kept_update (f : chapter_row -> chapter_row) (id : Z) (s : store) :
  (forall r, chapter_key (f r) = chapter_key r) ->
  Forall (fun r => chapter_id r <= chapter_seq s) (chapters (db s)) ->
  kept s (with_chapters s (update_chapter f id (chapters (db s)))).
Proof.
  intros Hf H. unfold kept, update_chapter.
  cbn [db with_chapters chapters chapter_seq].
  assert (G : forall r, chapter_key (if chapter_id r =? id then f r else r)
                        = chapter_key r).
  { intros r. destruct (chapter_id r =? id); [apply Hf | reflexivity]. }
  split; [lia|]. split.
  - apply Forall_map. eapply Forall_impl; [|exact H]. intros r. cbv beta.
    specialize (G r). unfold chapter_key in G. injection G as -> _ _ _. auto.
  - apply Forall_map. apply Forall_forall. intros r Hr. left.
    rewrite G. now apply in_map.
Qed.

Lemma apply_call_kept (c : call) (s s' : store) :
  Forall (fun r => chapter_id r <= chapter_seq s) (chapters (db s)) ->
  apply_call c s = inr s' -> kept s s'.
Proof.
  intros H. destruct c; cbn [apply_call].
  - destruct (create_subject name color utcnow s) as [e|[s1 id]] eqn:C;
      cbn [bind fst]; [discriminate|].
    intros E. injection E as <-.
    apply create_subject_inr in C. destruct C as (_ & _ & _ & ->).
    now apply kept_same_chapters.
  - intros E. injection E as <-. now apply kept_same_chapters.
  - intros E. apply rename_subject_inr in E. destruct E as (_ & _ & ->).
    now apply kept_same_chapters.
  - intros E. apply log_session_inr in E. destruct E as (row & ->).
    now apply kept_same_chapters.
  - destruct (add_chapter_spec subject_id title s) as (_ & _ & Q & _).
    cbv zeta in Q. intros E.
    apply add_chapter_inr in E. destruct E as (_ & _ & _ & ->).
    unfold kept. cbn [db chapters chapter_seq]. split; [lia|]. split.
    + apply Forall_app. split.
      * eapply Forall_impl; [|exact H]. cbv beta. intros r. lia.
      * constructor; [|constructor]. cbn [chapter_id]. lia.
    + apply Forall_app. split.
      * apply Forall_forall. intros r Hr. left. now apply in_map.
      * constructor; [|constructor]. right. cbn [chapter_id]. exact Q.
  - intros E. injection E as <-. now apply kept_update.
  - intros E. injection E as <-. now apply kept_update.
  - intros E. injection E as <-. unfold kept, delete_chapter.
    cbn [db with_chapters chapters chapter_seq]. split; [lia|].
    rewrite Forall_forall in H. split; apply Forall_forall; intros r Hr;
      apply filter_In in Hr; destruct Hr as [Hr _].
    + now apply H.
    + left. now apply in_map.
Qed.

Lemma apply_calls_kept (cs : list call) :
  forall s,
    Forall (fun r => chapter_id r <= chapter_seq s) (chapters (db s)) ->
    kept s (apply_calls cs s).
Proof.
  induction cs as [|c cs IH]; intros s H; cbn [apply_calls];
    [now apply kept_refl|].
  destruct (apply_call c s) as [e|s1] eqn:E; [now apply IH|].
  pose proof (apply_call_kept c s s1 H E) as K.
  apply (kept_trans s s1); [exact K|]. apply IH. apply K.
Qed.

Lemma apply_calls_kept_rows (cs : list call) (s : store) :
  Forall (fun r => chapter_id r <= chapter_seq s) (chapters (db s)) ->
  Forall (fun r' => In (chapter_key r') (map chapter_key (chapters (db s)))
                    \/ chapter_seq s < chapter_id r')
         (chapters (db (apply_calls cs s))).
Proof. intros H. apply (apply_calls_kept cs s H). Qed.

Lemma apply_calls_app (a b : list call) :
  forall s, apply_calls (a ++ b) s = apply_calls b (apply_calls a s).
Proof.
  induction a as [|c a IH]; intros s; cbn [app apply_calls]; [reflexivity|].
  destruct (apply_call c s); apply IH.
Qed.

(** Calls on chapters leave the two other tables alone. *)
Lemma apply_calls_other_tables (cs : list call) :
  forallb writes_chapters cs = true ->
  forall s,
    subjects (db (apply_calls cs s)) = subjects (db s)
    /\ sessions (db (apply_calls cs s)) = sessions (db s)
    /\ session_seq (db (apply_calls cs s)) = session_seq (db s)
    /\ subject_seq (apply_calls cs s) = subject_seq s.
Proof.
  induction cs as [|c cs IH]; intros Hw s; cbn [apply_calls]; [now repeat split|].
  cbn [forallb] in Hw. apply andb_true_iff in Hw. destruct Hw as [Hc Hw].
  destruct c; try discriminate; cbn [apply_call].
  - destruct (add_chapter subject_id title s) as [e|s1] eqn:A;
      [now apply IH|].
    apply add_chapter_inr in A. destruct A as (_ & _ & _ & ->).
    now rewrite (proj1 (IH Hw _)), (proj1 (proj2 (IH Hw _))),
      (proj1 (proj2 (proj2 (IH Hw _)))), (proj2 (proj2 (proj2 (IH Hw _)))).
  - now rewrite (proj1 (IH Hw _)), (proj1 (proj2 (IH Hw _))),
      (proj1 (proj2 (proj2 (IH Hw _)))), (proj2 (proj2 (proj2 (IH Hw _)))).
  - now rewrite (proj1 (IH Hw _)), (proj1 (proj2 (IH Hw _))),
      (proj1 (proj2 (proj2 (IH Hw _)))), (proj2 (proj2 (proj2 (IH Hw _)))).
  - now rewrite (proj1 (IH Hw _)), (proj1 (proj2 (IH Hw _))),
      (proj1 (proj2 (proj2 (IH Hw _)))), (proj2 (proj2 (proj2 (IH Hw _)))).
Qed.

End ChapterKeys.

(** X21.  No method of [DataStore] rewrites the id, the subject, the
    title or the position of a chapter.  In a store whose chapter ids lie
    at or below the counter, after any history of calls every chapter
    row either agrees in these four columns with a row that was there
    before, or has an id above every id handed out before: a title once
    stored is never edited, the order within a subject never changes,
    and the id of a deleted chapter is not given to another one. *)
Theorem chapters_keep_id_title_position
    (cs : list DataStoreOps.call) (s : DataStoreOps.store) :
  Forall (fun r => DataStore.chapter_id r <= DataStoreOps.chapter_seq s)
         (DataStore.chapters (DataStoreOps.db s)) ->
  Forall (fun r' =>
            (exists r, In r (DataStore.chapters (DataStoreOps.db s))
                       /\ DataStore.chapter_id r' = DataStore.chapter_id r
                       /\ DataStore.chapter_subject_id r'
                          = DataStore.chapter_subject_id r
                       /\ DataStore.chapter_title r' = DataStore.chapter_title r
                       /\ DataStore.chapter_position r'
                          = DataStore.chapter_position r)
            \/ DataStoreOps.chapter_seq s < DataStore.chapter_id r')
         (DataStore.chapters (DataStoreOps.db (DataStoreOps.apply_calls cs s))).
Proof.
  intros H. eapply Forall_impl; [|exact (apply_calls_kept_rows cs s H)].
  intros r' [K|K]; [left|now right].
  apply in_map_iff in K. destruct K as (r & E & Hr).
  exists r. split; [exact Hr|].
  unfold DataStoreOps.chapter_key in E. injection E as E1 E2 E3 E4.
  repeat split; congruence.
Qed.

Lemma chapters_keep_id_title_position_witness :
  Forall (fun r' =>
            (exists r, In r (DataStore.chapters
                               (DataStoreOps.db PanelSamples.store))
                       /\ DataStore.chapter_id r' = DataStore.chapter_id r
                       /\ DataStore.chapter_subject_id r'
                          = DataStore.chapter_subject_id r
                       /\ DataStore.chapter_title r' = DataStore.chapter_title r
                       /\ DataStore.chapter_position r'
                          = DataStore.chapter_position r)
            \/ DataStoreOps.chapter_seq PanelSamples.store
               < DataStore.chapter_id r')
         (DataStore.chapters
            (DataStoreOps.db
               (DataStoreOps.apply_calls
                  [DataStoreOps.DeleteChapter 3;
                   DataStoreOps.AddChapter 1 " Modules ";
                   DataStoreOps.UpdateNotes 1 "cosets"]
                  PanelSamples.store))).
Proof.
  apply (chapters_keep_id_title_position
           [DataStoreOps.DeleteChapter 3;
            DataStoreOps.AddChapter 1 " Modules ";
            DataStoreOps.UpdateNotes 1 "cosets"]
           PanelSamples.store).
  repeat constructor; cbn; lia.
Defined.

Section PanelHistory.

Import DataStore DataStoreOps StudyChapters.

Lemma replays_same (v v' : t) : store v' = store v -> replays v v'.
Proof. intros E. exists []. now split. Qed.

Lemma replays_trans (v1 v2 v3 : t) :
  replays v1 v2 -> replays v2 v3 -> replays v1 v3.
Proof.
  intros (a & Wa & Ea) (b & Wb & Eb). exists (a ++ b). split.
  - rewrite forallb_app. now rewrite Wa, Wb.
  - now rewrite apply_calls_app, <- Ea.
Qed.

Lemma replays_save_notes (v : t) : replays v (_save_notes v).
Proof.
  unfold _save_notes. destruct (_editing_chapter_id v) as [id|];
    [|now apply replays_same].
  destruct (id =? 0); [now apply replays_same|].
  exists [UpdateNotes id (note_editor v)]. split; reflexivity.
Qed.

Lemma replays_set_editor_text (text : string) (blocked : bool) (v : t) :
  replays v (set_editor_text text blocked v).
Proof.
  unfold set_editor_text. destruct blocked; [now apply replays_same|].
  apply (replays_trans v (with_editor v text));
    [now apply replays_same | apply replays_save_notes].
Qed.

Lemma replays_update_progress (v : t) : replays v (fst (_update_progress v)).
Proof. apply replays_same. apply (update_progress_fields v). Qed.

Lemma replays_refresh (v : t) : replays v (fst (refresh_chapters v)).
Proof.
  destruct (refresh_chapters_fields v) as (S & _). cbv zeta in S.
  destruct (replays_save_notes (with_editor v EmptyString)) as (cs & W & E).
  exists cs. split; [exact W|]. now rewrite S, E.
Qed.

Lemma replays_toggle_done (it : StudyView.item) (v : t) :
  replays v (fst (_toggle_done it v)).
Proof.
  unfold _toggle_done.
  eapply replays_trans; [|apply replays_update_progress].
  exists [ToggleChapter (StudyView.item_id it) (StudyView.item_checked it)].
  split; reflexivity.
Qed.

Lemma replays_load_notes (v : t) : replays v (_load_notes_for_selected v).
Proof.
  unfold _load_notes_for_selected. destruct (selected_item v) as [it|].
  - destruct (find _ _) as [r|]; [|now apply replays_same].
    eapply replays_trans; [|apply replays_set_editor_text].
    now apply replays_same.
  - eapply replays_trans; [apply (replays_set_editor_text EmptyString false)|].
    now apply replays_same.
Qed.

Lemma replays_act (a : action) (v : t) : replays v (fst (act a v)).
Proof.
  destruct a; cbn [act].
  - unfold load_subject. cbv zeta.
    eapply replays_trans; [|apply replays_refresh]. now apply replays_same.
  - now apply replays_same.
  - unfold _add_chapter.
    destruct (strip (chapter_input v)) as [|c rest] eqn:T;
      [now apply replays_same|].
    destruct (subject_id v) as [sid|]; [|now apply replays_same].
    destruct (sid =? 0); [now apply replays_same|].
    destruct (add_chapter sid (String c rest) (store v)) as [e|s'] eqn:A;
      [now apply replays_same|].
    eapply replays_trans; [|apply replays_refresh].
    exists [AddChapter sid (String c rest)]. split; [reflexivity|].
    cbn [apply_calls apply_call store with_input with_store]. now rewrite A.
  - destruct (nth_error (chapter_list v) i) as [it|];
      [|now apply replays_same].
    unfold change_item.
    eapply replays_trans; [|apply replays_toggle_done]. now apply replays_same.
  - destruct (nth_error (chapter_list v) i) as [it|];
      [|now apply replays_same].
    unfold change_item.
    eapply replays_trans; [|apply replays_toggle_done]. now apply replays_same.
  - destruct (same_selection i (selected v)); [now apply replays_same|].
    destruct i as [n|].
    + destruct (nth_error (chapter_list v) n); [|now apply replays_same].
      unfold select. cbn [fst].
      eapply replays_trans; [|apply replays_load_notes]. now apply replays_same.
    + unfold select. cbn [fst].
      eapply replays_trans; [|apply replays_load_notes]. now apply replays_same.
  - cbn [fst]. apply replays_set_editor_text.
  - unfold _delete_selected_chapter.
    destruct (selected_item v) as [it|]; [|now apply replays_same].
    destruct confirm; [|now apply replays_same].
    eapply replays_trans; [|apply replays_refresh].
    exists [DeleteChapter (StudyView.item_id it)]. split; reflexivity.
Qed.

Lemma replays_session (acts : list action) :
  forall v, replays v (session acts v).
Proof.
  induction acts as [|a acts IH]; intros v; cbn [session];
    [now apply replays_same|].
  eapply replays_trans; [apply replays_act | apply IH].
Qed.

Lemma session_history (acts : list action) (v : t) :
  exists cs, forallb writes_chapters cs = true
             /\ store (session acts v) = apply_calls cs (store v).
Proof. apply replays_session. Qed.

End PanelHistory.

(** X22.  Whatever the user does at the chapter panel (load a subject,
    type, add, check, retitle a row in place, select, edit notes, delete),
    the store ends as some history of [add_chapter], [toggle_chapter],
    [update_notes] and [delete_chapter] calls leaves it.  So the
    subjects and the sessions are untouched, and a title edited in the
    list is never stored: every chapter row still agrees in id, subject,
    title and position with a row of before, unless its id is new. *)
Theorem panel_session_is_a_chapter_history
    (acts : list StudyChapters.action) (v : StudyChapters.t) :
  Forall (fun r => DataStore.chapter_id r
                   <= DataStoreOps.chapter_seq (StudyChapters.store v))
         (DataStore.chapters (DataStoreOps.db (StudyChapters.store v))) ->
  let s := StudyChapters.store v in
  let s' := StudyChapters.store (StudyChapters.session acts v) in
  (exists cs, forallb DataStoreOps.writes_chapters cs = true
              /\ s' = DataStoreOps.apply_calls cs s)
  /\ DataStore.subjects (DataStoreOps.db s')
     = DataStore.subjects (DataStoreOps.db s)
  /\ DataStore.sessions (DataStoreOps.db s')
     = DataStore.sessions (DataStoreOps.db s)
  /\ Forall (fun r' =>
               In (DataStoreOps.chapter_key r')
                  (map DataStoreOps.chapter_key
                       (DataStore.chapters (DataStoreOps.db s)))
               \/ DataStoreOps.chapter_seq s < DataStore.chapter_id r')
            (DataStore.chapters (DataStoreOps.db s')).
Proof.
  intros H s s'. destruct (session_history acts v) as (cs & W & E).
  fold s s' in E. split; [now exists cs|].
  rewrite E.
  destruct (apply_calls_other_tables cs W s) as (A & B & _).
  split; [exact A|]. split; [exact B|].
  now apply apply_calls_kept_rows.
Qed.

Lemma panel_session_is_a_chapter_history_witness :
  let v := PanelSamples.opened in
  let s' := StudyChapters.store
              (StudyChapters.session
                 [StudyChapters.Select (Some 0%nat);
                  StudyChapters.Retitle 0 "Monoids";
                  StudyChapters.TypeTitle "Modules";
                  StudyChapters.Add]
                 v) in
  map DataStore.chapter_title (DataStore.chapters (DataStoreOps.db s'))
  = ["Groups"; "Rings"; "Fields"; "Modules"]
  /\ Forall (fun r' =>
               In (DataStoreOps.chapter_key r')
                  (map DataStoreOps.chapter_key
                       (DataStore.chapters
                          (DataStoreOps.db (StudyChapters.store v))))
               \/ DataStoreOps.chapter_seq (StudyChapters.store v)
                  < DataStore.chapter_id r')
            (DataStore.chapters (DataStoreOps.db s')).
Proof.
  split; [vm_compute; reflexivity|].
  apply (panel_session_is_a_chapter_history
           [StudyChapters.Select (Some 0%nat);
            StudyChapters.Retitle 0 "Monoids";
            StudyChapters.TypeTitle "Modules";
            StudyChapters.Add]
           PanelSamples.opened).
  vm_compute. repeat constructor; discriminate.
Defined.
